(** * zoom_handlers: a shallow embedding of [src/zoom_handlers.py]

    The development follows the source file:

    - Python values and exceptions ([json], [Exc], [Res]);
    - the string primitives the caption parser uses ([strip], [split],
      [upper], [join]) and the parser [webvtt_to_json] itself;
    - the outside world (clock, configuration table, inbound header,
      network) as oracles over the history of events, and a state and
      exception monad [M] over it;
    - [ZoomOAuth.get_access_token], [ZoomClient._make_request] and the four
      exposed operations;
    - the vocabulary of the statements, and the properties.

    Conventions.  A Python [str] is a Rocq [string]; its characters are
    the code points below 256.  JSON numbers are integers, and a [dict]
    is the list of its items, the keys distinct.  [datetime] values are
    integers counting microseconds since 2020-01-01T00:00:00, so that
    [start_date] is [0]; [strftime("%Y-%m-%d")] is the day number of such
    a value.  The constructor [timedelta] and the addition of a
    [timedelta] to a [datetime] raise [OverflowError] outside their
    ranges.  [webvtt_to_json] stands for the list of records it
    serialises.  Calls to [logger.log] and the [app.app_context()] blocks
    have no effect on any returned value and are left out. *)

From Stdlib Require Import ZArith List String Ascii Bool Arith Lia.
From Stdlib Require Import Numbers.DecimalString.
Import ListNotations.

Local Open Scope string_scope.
Local Open Scope list_scope.

(* ------------------------------------------------------------------ *)
(** ** Python values *)

Set Warnings "-register-all".

(** JSON documents as [json.loads] and [response.json()] deliver them.
    Numbers are integers; a [dict] is its list of items. *)
Inductive json : Type :=
| JNull
| JBool (b : bool)
| JInt (n : Z)
| JStr (s : string)
| JList (l : list json)
| JDict (items : list (string * json)).

(** The body of an HTTP response: [status_code], [text], the decoding of
    [text] as JSON when it has one, and the message [raise_for_status]
    puts in the [HTTPError] it raises. *)
Record Response : Type := mkResponse {
  status_code : Z;
  text : string;
  body_json : option json;
  reason : string
}.

(** The exceptions that occur in the module. [HTTPError] is a subclass of
    [RequestException]; the other subclasses (connection errors, timeouts,
    invalid URLs) are [TransportError]. *)
Inductive Exc : Type :=
| HTTPError (response : Response)
| TransportError (msg : string)
| JSONDecodeError (msg : string)
| ValueError (msg : string)
| KeyError (key : string)
| AttributeError (msg : string)
| TypeError (msg : string)
| OverflowError (msg : string)
| Unauthorized (description : string).

Inductive Res (A : Type) : Type :=
| Ret (a : A)
| Raise (e : Exc).
Arguments Ret {A} a.
Arguments Raise {A} e.

(** [except requests.RequestException] *)
Definition is_RequestException (e : Exc) : bool :=
  match e with
  | HTTPError _ | TransportError _ => true
  | _ => false
  end.

(* ------------------------------------------------------------------ *)
(** ** String primitives *)

Module Str.

Definition CR : ascii := ascii_of_nat 13.
Definition LF : ascii := ascii_of_nat 10.
Definition CRLF : string := String CR (String LF "").
Definition CRLFCRLF : string := CRLF ++ CRLF.
Definition ARROW : string := " --> ".

(** [str.isspace] on the code points below 256. *)
Definition is_space (c : ascii) : bool :=
  let n := nat_of_ascii c in
  (((9 <=? n) && (n <=? 13)) || ((28 <=? n) && (n <=? 32))
   || (n =? 133) || (n =? 160))%nat.

Fixpoint lstrip (s : string) : string :=
  match s with
  | "" => ""
  | String c s' => if is_space c then lstrip s' else s
  end.

Fixpoint rstrip (s : string) : string :=
  match s with
  | "" => ""
  | String c s' =>
      match rstrip s' with
      | "" => if is_space c then "" else String c ""
      | r => String c r
      end
  end.

(** [s.strip()] *)
Definition strip (s : string) : string := rstrip (lstrip s).

(** [s.upper()].  The letters a-z and the Latin-1 letters with an
    upper-case form below 256 are mapped; the three remaining cased code
    points (181, 223, 255) have upper-case forms outside this range, none
    of which contains an ASCII letter, and are left in place. *)
Definition upper_char (c : ascii) : ascii :=
  let n := nat_of_ascii c in
  if (((97 <=? n) && (n <=? 122))
      || ((224 <=? n) && (n <=? 254) && negb (n =? 247)))%nat
  then ascii_of_nat (n - 32) else c.

Fixpoint upper (s : string) : string :=
  match s with
  | "" => ""
  | String c s' => String (upper_char c) (upper s')
  end.

(** [s.split(sep)] for a non-empty literal [sep], which is also what
    [re.split] does for the literal pattern of the parser: the pieces
    between the occurrences of [sep], found left to right without
    overlap.  [skip] counts the characters of a separator still to be
    passed over. *)
Fixpoint split_from (sep : string) (skip : nat) (s : string) : list string :=
  match s with
  | "" => [""]
  | String c s' =>
      match skip with
      | S k => split_from sep k s'
      | O =>
          if prefix sep s then "" :: split_from sep (length sep - 1) s'
          else match split_from sep 0 s' with
               | piece :: pieces => String c piece :: pieces
               | [] => [String c ""]
               end
      end
  end.

Definition split (sep s : string) : list string := split_from sep 0 s.

(** [sep.join(parts)] *)
Definition join (sep : string) (parts : list string) : string :=
  String.concat sep parts.

(** [sep in s] *)
Fixpoint contains (sep s : string) : bool :=
  prefix sep s ||
  match s with
  | "" => false
  | String _ s' => contains sep s'
  end.

(** [s.find(sep)], [None] standing for -1. *)
Fixpoint find (sep s : string) : option nat :=
  if prefix sep s then Some 0
  else match s with
       | "" => None
       | String _ s' => option_map S (find sep s')
       end.

Fixpoint take (n : nat) (s : string) : string :=
  match n, s with
  | S k, String c s' => String c (take k s')
  | _, _ => ""
  end.

Fixpoint drop (n : nat) (s : string) : string :=
  match n, s with
  | S k, String _ s' => drop k s'
  | _, _ => s
  end.

Fixpoint mem (c : ascii) (s : string) : bool :=
  match s with
  | "" => false
  | String d s' => Ascii.eqb c d || mem c s'
  end.

(** A string with a character that [strip] keeps. *)
Fixpoint visible (s : string) : bool :=
  match s with
  | "" => false
  | String c s' => negb (is_space c) || visible s'
  end.

End Str.
Import Str.

(* ------------------------------------------------------------------ *)
(** ** webvtt_to_json *)

Record Caption : Type := mkCaption {
  index : string;
  start : string;
  end_ : string;
  caption_text : string
}.

(** [start, end = parts]: unpacking into exactly two names. *)
Definition unpack2 (parts : list string) : Res (string * string) :=
  match parts with
  | [a; b] => Ret (a, b)
  | [] | [_] => Raise (ValueError "not enough values to unpack")
  | _ => Raise (ValueError "too many values to unpack")
  end.

(** The body of [for caption in captions], threading [json_data]. *)
Definition caption_step (json_data : list Caption) (caption : string)
  : Res (list Caption) :=
  if String.eqb (upper (strip caption)) "WEBVTT" then Ret json_data
  else
    let lines := split CRLF caption in
    if (3 <=? List.length lines)%nat then
      let index := nth 0 lines "" in
      let timing := nth 1 lines "" in
      let text := join " " (skipn 2 lines) in
      match unpack2 (split ARROW timing) with
      | Ret (start, end_) =>
          Ret (json_data ++ [mkCaption index start end_ text])
      | Raise (ValueError _) => Ret json_data
      | Raise e => Raise e
      end
    else Ret json_data.

Fixpoint captions_loop (captions : list string) (json_data : list Caption)
  : Res (list Caption) :=
  match captions with
  | [] => Ret json_data
  | caption :: rest =>
      match caption_step json_data caption with
      | Ret json_data' => captions_loop rest json_data'
      | Raise e => Raise e
      end
  end.

(** The list [json_data] that [webvtt_to_json] builds.  The function hands
    it to [json.dumps], and both of its callers read the text back with
    [json.loads]; the records are what reaches them. *)
Definition webvtt_to_json (webvtt_content : string) : Res (list Caption) :=
  let captions := split CRLFCRLF (strip webvtt_content) in
  captions_loop captions [].

(* ------------------------------------------------------------------ *)
(** ** Operations on Python values *)

Definition str_of_Z (n : Z) : string := NilZero.string_of_int (Z.to_int n).

(** [bool(v)] *)
Definition py_truthy (v : json) : bool :=
  match v with
  | JNull => false
  | JBool b => b
  | JInt n => negb (n =? 0)%Z
  | JStr s => negb (String.eqb s "")
  | JList l => match l with [] => false | _ => true end
  | JDict items => match items with [] => false | _ => true end
  end.

(** [v == "s"] for a string literal. *)
Definition py_eq_str (v : json) (s : string) : bool :=
  match v with
  | JStr s' => String.eqb s' s
  | _ => false
  end.

(** [v == n] for an integer literal other than 0 and 1. *)
Definition py_eq_int (v : json) (n : Z) : bool :=
  match v with
  | JInt n' => (n' =? n)%Z
  | _ => false
  end.

Fixpoint assoc (key : string) (items : list (string * json)) : option json :=
  match items with
  | [] => None
  | (k, v) :: rest => if String.eqb k key then Some v else assoc key rest
  end.

(** [d.get(key, default)] *)
Definition py_get (d : json) (key : string) (default : json) : Res json :=
  match d with
  | JDict items =>
      Ret match assoc key items with Some v => v | None => default end
  | JList _ => Raise (AttributeError "'list' object has no attribute 'get'")
  | JStr _ => Raise (AttributeError "'str' object has no attribute 'get'")
  | JInt _ => Raise (AttributeError "'int' object has no attribute 'get'")
  | JBool _ => Raise (AttributeError "'bool' object has no attribute 'get'")
  | JNull =>
      Raise (AttributeError "'NoneType' object has no attribute 'get'")
  end.

(** [d[key]] for a string key. *)
Definition py_getitem (d : json) (key : string) : Res json :=
  match d with
  | JDict items =>
      match assoc key items with
      | Some v => Ret v
      | None => Raise (KeyError key)
      end
  | JList _ => Raise (TypeError "list indices must be integers or slices")
  | JStr _ => Raise (TypeError "string indices must be integers")
  | _ => Raise (TypeError "object is not subscriptable")
  end.

Fixpoint chars (s : string) : list json :=
  match s with
  | "" => []
  | String c s' => JStr (String c "") :: chars s'
  end.

(** The items [for x in v] runs through. *)
Definition py_iter (v : json) : Res (list json) :=
  match v with
  | JList l => Ret l
  | JDict items => Ret (map (fun kv => JStr (fst kv)) items)
  | JStr s => Ret (chars s)
  | JInt _ => Raise (TypeError "'int' object is not iterable")
  | JBool _ => Raise (TypeError "'bool' object is not iterable")
  | JNull => Raise (TypeError "'NoneType' object is not iterable")
  end.

Definition timedelta_days (n : Z) : Z := (n * 86400 * 1000000)%Z.

(** A [timedelta] of [seconds] seconds exists when its whole days, the
    quotient rounded down, lie between -999999999 and 999999999. *)
Definition timedelta_in_range (seconds : Z) : bool :=
  ((-999999999 <=? seconds / 86400) && (seconds / 86400 <=? 999999999))%Z.

(** What [timedelta] raises otherwise: the days are passed on as a C
    [int] when they fit into one. *)
Definition timedelta_overflow (days : Z) : Exc :=
  OverflowError
    (if ((-2147483648 <=? days) && (days <=? 2147483647))%Z
     then "days=" ++ str_of_Z days ++ "; must have magnitude <= 999999999"
     else "Python int too large to convert to C int").

Definition type_name (v : json) : string :=
  match v with
  | JNull => "NoneType"
  | JBool _ => "bool"
  | JInt _ => "int"
  | JStr _ => "str"
  | JList _ => "list"
  | JDict _ => "dict"
  end.

(** [timedelta(seconds=v)], in microseconds. *)
Definition timedelta_seconds (v : json) : Res Z :=
  match v with
  | JInt n =>
      if timedelta_in_range n then Ret (n * 1000000)%Z
      else Raise (timedelta_overflow (n / 86400))
  | JBool b => Ret (if b then 1000000 else 0)%Z
  | _ =>
      Raise (TypeError ("unsupported type for timedelta seconds component: "
                        ++ type_name v))
  end.

(** [datetime.min] is 0001-01-01T00:00:00, 737424 days before the start
    date, and [datetime.max] the last microsecond of 9999-12-31. *)
Definition datetime_min : Z := (- timedelta_days 737424)%Z.
Definition datetime_max : Z := (timedelta_days 2914635 - 1)%Z.

Definition datetime_in_range (d : Z) : bool :=
  ((datetime_min <=? d) && (d <=? datetime_max))%Z.

(** [d + delta] for a [datetime] and a [timedelta]. *)
Definition datetime_add (d delta : Z) : Res Z :=
  if datetime_in_range (d + delta)
  then Ret (d + delta)%Z
  else Raise (OverflowError "date value out of range").

(** [d.strftime("%Y-%m-%d")]: the calendar day of [d], as a day number. *)
Definition strftime_day (d : Z) : Z := (d / timedelta_days 1)%Z.

(** [str(e)] *)
Definition exc_str (e : Exc) : string :=
  match e with
  | HTTPError response => reason response
  | TransportError msg => msg
  | JSONDecodeError msg => msg
  | ValueError msg => msg
  | KeyError key => "'" ++ key ++ "'"
  | AttributeError msg => msg
  | TypeError msg => msg
  | OverflowError msg => msg
  | Unauthorized description => "401 Unauthorized: " ++ description
  end.

(* ------------------------------------------------------------------ *)
(** ** The outside world *)

Record ZoomClientConfig : Type := mkConfig {
  zoom_account_id : string;
  zoom_client_id : string;
  zoom_client_secret : string;
  require_access_key : bool;
  access_key : string
}.

Record Params : Type := mkParams {
  page_size : Z;
  from_ : Z;
  to_ : Z
}.

(** The three ways the module reaches the network. *)
Inductive Request : Type :=
| TokenPost (url : string) (data : list (string * string))
    (* requests.post(url, data=data) *)
| ApiRequest (method url authorization : string) (params : option Params)
    (* requests.request(method, url, headers=..., params=params, json=None) *)
| Download (url authorization : string).
    (* requests.get(url, headers=...) *)

Inductive NetResult : Type :=
| Answer (response : Response)
| Failed (msg : string).

Inductive Event : Type :=
| EvNow                  (* datetime.now() *)
| EvQueryFirst           (* ZoomClientConfig.query.first() *)
| EvQueryGet             (* ZoomClientConfig.query.get(1) *)
| EvHeader               (* request.headers.get("X-Access-Key") *)
| EvSend (r : Request).

(** What the world answers, given everything that happened before (most
    recent event first).  [py_repr] is the interpreter's rendering of
    lists and dicts, which [str] falls back to. *)
Record Env : Type := mkEnv {
  clock : list Event -> Z;
  query_first : list Event -> option ZoomClientConfig;
  query_get : list Event -> option ZoomClientConfig;
  header : list Event -> option string;
  network : list Event -> Request -> NetResult;
  py_repr : json -> string
}.

Record ZoomOAuth : Type := mkOAuth {
  config : option ZoomClientConfig;
  access_token : json;
  token_expiry : option Z
}.

(** The [ZoomOAuth] object of the client in scope, and the history. *)
Record State : Type := mkState {
  oauth : ZoomOAuth;
  history : list Event
}.

Definition M (A : Type) : Type := State -> Res A * State.

Definition ret {A} (a : A) : M A := fun st => (Ret a, st).

Definition raise {A} (e : Exc) : M A := fun st => (Raise e, st).

Definition bind {A B} (c : M A) (k : A -> M B) : M B :=
  fun st =>
    match c st with
    | (Ret a, st') => k a st'
    | (Raise e, st') => (Raise e, st')
    end.

(** [try: c  except ...: handler e]; a handler re-raises what its
    [except] clause does not name. *)
Definition try_except {A} (c : M A) (handler : Exc -> M A) : M A :=
  fun st =>
    match c st with
    | (Ret a, st') => (Ret a, st')
    | (Raise e, st') => handler e st'
    end.

Definition lift {A} (r : Res A) : M A := fun st => (r, st).

Declare Scope monad_scope.
Delimit Scope monad_scope with monad.
Notation "x <- c ;; k" := (bind c (fun x => k))
  (at level 61, c at next level, right associativity) : monad_scope.
Notation "c ;;; k" := (bind c (fun _ => k))
  (at level 61, right associativity) : monad_scope.
Local Open Scope monad_scope.

Definition record (ev : Event) (st : State) : State :=
  mkState (oauth st) (ev :: history st).

Definition get_oauth : M ZoomOAuth := fun st => (Ret (oauth st), st).

Definition set_oauth (o : ZoomOAuth) : M unit :=
  fun st => (Ret tt, mkState o (history st)).

(** [self.access_token = v] and [self.token_expiry = d] *)
Definition set_access_token (v : json) : M unit :=
  fun st =>
    (Ret tt,
     mkState (mkOAuth (config (oauth st)) v (token_expiry (oauth st)))
             (history st)).

Definition set_token_expiry (d : Z) : M unit :=
  fun st =>
    (Ret tt,
     mkState (mkOAuth (config (oauth st)) (access_token (oauth st)) (Some d))
             (history st)).

(** What an exposed operation hands back: a payload, or the pair of a
    payload and a status code. *)
Inductive Returned : Type :=
| Payload (v : json)
| PayloadStatus (v : json) (status : Z).

(** [jsonify({"error": "Internal Server Error", "message": str(e)}), 500] *)
Definition internal_server_error (e : Exc) : Returned :=
  PayloadStatus
    (JDict [("error", JStr "Internal Server Error");
            ("message", JStr (exc_str e))])
    500.

(** [recordings.get(key, default)] on what an operation returned. *)
Definition returned_get (r : Returned) (key : string) (default : json)
  : Res json :=
  match r with
  | Payload v => py_get v key default
  | PayloadStatus _ _ =>
      Raise (AttributeError "'tuple' object has no attribute 'get'")
  end.

(** [next((x for x in items if p x), None)] *)
Fixpoint next_where (p : json -> Res bool) (items : list json)
  : Res (option json) :=
  match items with
  | [] => Ret None
  | x :: rest =>
      match p x with
      | Ret true => Ret (Some x)
      | Ret false => next_where p rest
      | Raise e => Raise e
      end
  end.

Definition has_file_type (file_type : string) (file : json) : Res bool :=
  match py_get file "file_type" JNull with
  | Ret v => Ret (py_eq_str v file_type)
  | Raise e => Raise e
  end.

Definition caption_json (c : Caption) : json :=
  JDict [("index", JStr (index c)); ("start", JStr (start c));
         ("end", JStr (end_ c)); ("text", JStr (caption_text c))].

Definition no_transcript (message : string) : json :=
  JDict [("transcript", JNull); ("message", JStr message)].

Definition no_client : ZoomOAuth := mkOAuth None JNull None.

(** [try: body  except Exception as e: return jsonify(...), 500] around
    the body of an exposed operation, run on the history so far. *)
Definition returned_of (outcome : Res json * State) : Returned * list Event :=
  match outcome with
  | (Ret v, st) => (Payload v, history st)
  | (Raise e, st) => (internal_server_error e, history st)
  end.

Definition exposed (body : M json) (h : list Event)
  : Returned * list Event :=
  returned_of (body (mkState no_client h)).

(** A call of an exposed operation from inside another one: it works on
    a client of its own. *)
Definition call (op : list Event -> Returned * list Event) : M Returned :=
  fun st => let (r, h) := op (history st) in (Ret r, mkState (oauth st) h).

Definition TOKEN_URL : string := "https://zoom.us/oauth/token".
Definition BASE_URL : string := "https://api.zoom.us/v2".

Definition start_date : Z := 0.

Section Handlers.

Variable env : Env.

(** [str(v)], also what an f-string puts in place of [{v}]. *)
Definition py_str (v : json) : string :=
  match v with
  | JNull => "None"
  | JBool true => "True"
  | JBool false => "False"
  | JInt n => str_of_Z n
  | JStr s => s
  | JList _ | JDict _ => py_repr env v
  end.

(** *** Primitive actions *)

Definition datetime_now : M Z :=
  fun st => (Ret (clock env (history st)), record EvNow st).

(** [ZoomClientConfig.query.first()] *)
Definition get_config : M (option ZoomClientConfig) :=
  fun st => (Ret (query_first env (history st)), record EvQueryFirst st).

(** [ZoomClientConfig.query.get(1)] *)
Definition config_get_1 : M (option ZoomClientConfig) :=
  fun st => (Ret (query_get env (history st)), record EvQueryGet st).

(** [request.headers.get("X-Access-Key")] *)
Definition headers_get_access_key : M (option string) :=
  fun st => (Ret (header env (history st)), record EvHeader st).

(** [requests.post], [requests.request], [requests.get]: the response,
    or a transport-level exception. *)
Definition send (r : Request) : M Response :=
  fun st =>
    match network env (history st) r with
    | Answer response => (Ret response, record (EvSend r) st)
    | Failed msg => (Raise (TransportError msg), record (EvSend r) st)
    end.

(** [response.raise_for_status()] *)
Definition raise_for_status (response : Response) : M unit :=
  if ((400 <=? status_code response) && (status_code response <? 600))%Z
  then raise (HTTPError response)
  else ret tt.

(** [response.json()], and [json.loads(response.text)] *)
Definition response_json (response : Response) : M json :=
  match body_json response with
  | Some v => ret v
  | None => raise (JSONDecodeError "Expecting value")
  end.

(** *** ZoomOAuth *)

(** The condition of the first [if] of [get_access_token]; [and] reads
    the clock only when both attributes are set. *)
Definition token_is_valid : M bool :=
  self <- get_oauth ;;
  if py_truthy (access_token self) then
    match token_expiry self with
    | Some expiry =>
        now <- datetime_now ;;
        ret (now <? expiry)%Z
    | None => ret false
    end
  else ret false.

Definition credentials_error : string :=
  "Failed to obtain Zoom access token. Please check your Zoom credentials.".

Definition token_request (config : ZoomClientConfig) : Request :=
  TokenPost TOKEN_URL
    [("grant_type", "account_credentials");
     ("account_id", zoom_account_id config);
     ("client_id", zoom_client_id config);
     ("client_secret", zoom_client_secret config)].

(** The [try] block of [get_access_token] with its [except] clause. *)
Definition request_token (config : ZoomClientConfig) : M json :=
  try_except
    (response <- send (token_request config) ;;
     raise_for_status response ;;;
     token_data <- response_json response ;;
     token <- lift (py_getitem token_data "access_token") ;;
     set_access_token token ;;;
     now <- datetime_now ;;
     expires_in <- lift (py_getitem token_data "expires_in") ;;
     delta <- lift (timedelta_seconds expires_in) ;;
     expiry <- lift (datetime_add now delta) ;;
     set_token_expiry expiry ;;;
     self <- get_oauth ;;
     ret (access_token self))
    (fun e =>
       match e with
       | HTTPError response =>
           if (status_code response =? 400)%Z
           then raise (ValueError credentials_error)
           else raise e
       | _ => raise e
       end).

Definition get_access_token : M json :=
  valid <- token_is_valid ;;
  if valid then
    self <- get_oauth ;;
    ret (access_token self)
  else
    config <- get_config ;;
    match config with
    | None =>
        raise (ValueError "Zoom client configuration not found in the database")
    | Some config => request_token config
    end.

(** *** ZoomClient *)

Definition _get_headers : M string :=
  token <- get_access_token ;;
  ret ("Bearer " ++ py_str token)%string.

Definition _make_request (method endpoint : string) (params : option Params)
  : M json :=
  let url := (BASE_URL ++ "/" ++ endpoint)%string in
  authorization <- _get_headers ;;
  response <- send (ApiRequest method url authorization params) ;;
  raise_for_status response ;;;
  response_json response.

(** [get_zoom_client()]: afterwards the client in scope is a new one. *)
Definition get_zoom_client : M unit :=
  zoom_config <- config_get_1 ;;
  match zoom_config with
  | None => raise (ValueError "Zoom client configuration not found")
  | Some _ =>
      config <- get_config ;;
      set_oauth (mkOAuth config JNull None)
  end.

Definition validate_access_key (apikey : option string) : M (option json) :=
  zoom_config <- config_get_1 ;;
  match zoom_config with
  | Some zoom_config =>
      if require_access_key zoom_config then
        match apikey with
        | Some key =>
            if negb (String.eqb key "")
               && String.eqb key (access_key zoom_config)
            then ret (Some (JDict [("sub", JStr "zoom_api_user")]))
            else ret None
        | None => ret None
        end
      else ret None
  | None => ret None
  end.

Definition verify_access_key : M unit :=
  zoom_config <- config_get_1 ;;
  match zoom_config with
  | Some zoom_config =>
      if require_access_key zoom_config then
        key <- headers_get_access_key ;;
        granted <- validate_access_key key ;;
        match granted with
        | Some claims =>
            if py_truthy claims then ret tt
            else raise (Unauthorized "Invalid or missing Access Key")
        | None => raise (Unauthorized "Invalid or missing Access Key")
        end
      else ret tt
  | None => ret tt
  end.

(** *** get_meeting_recordings *)

(** The [try] block of the operation. *)
Definition meeting_recordings_body (meeting_id : string) : M json :=
  verify_access_key ;;;
  get_zoom_client ;;;
  _make_request "GET" ("meetings/" ++ meeting_id ++ "/recordings") None.

Definition get_meeting_recordings (meeting_id : string)
  : list Event -> Returned * list Event :=
  exposed (meeting_recordings_body meeting_id).

(** *** get_transcript_content *)

Definition get_transcript_content (transcript_download_url access_token : json)
  : M (option string) :=
  try_except
    (response <- send (Download (py_str transcript_download_url)
                                ("Bearer " ++ py_str access_token)) ;;
     raise_for_status response ;;;
     ret (Some (text response)))
    (fun e => if is_RequestException e then ret None else raise e).

(** [{"transcript": json.loads(webvtt_to_json(transcript_content))}] *)
Definition transcript_payload (transcript_content : string) : M json :=
  captions <- lift (webvtt_to_json transcript_content) ;;
  ret (JDict [("transcript", JList (map caption_json captions))]).

(** *** get_meeting_transcript *)

(** The [try] block of the operation. *)
Definition meeting_transcript_body (meeting_id : string) : M json :=
  verify_access_key ;;;
  get_zoom_client ;;;
  recordings <- call (get_meeting_recordings meeting_id) ;;
  recording_files <-
    lift (returned_get recordings "recording_files" (JList [])) ;;
  files <- lift (py_iter recording_files) ;;
  transcript_file <- lift (next_where (has_file_type "TRANSCRIPT") files) ;;
  match transcript_file with
  | None => ret (no_transcript "No transcript found")
  | Some transcript_file =>
      if negb (py_truthy transcript_file)
      then ret (no_transcript "No transcript found")
      else
        transcript_url <-
          lift (py_get transcript_file "download_url" JNull) ;;
        if negb (py_truthy transcript_url)
        then ret (no_transcript "No transcript URL available")
        else
          token <- get_access_token ;;
          transcript_content <-
            get_transcript_content transcript_url token ;;
          match transcript_content with
          | None | Some "" =>
              ret (no_transcript "Failed to retrieve transcript content")
          | Some content => transcript_payload content
          end
  end.

Definition get_meeting_transcript (meeting_id : string)
  : list Event -> Returned * list Event :=
  exposed (meeting_transcript_body meeting_id).

(** *** get_recording_transcript *)

(** The outer [try] block of the operation. *)
Definition recording_transcript_body (recording_id : string) : M json :=
  verify_access_key ;;;
  get_zoom_client ;;;
  try_except
    (recording <- _make_request "GET" ("recordings/" ++ recording_id) None ;;
     recording_files <-
       lift (py_get recording "recording_files" (JList [])) ;;
     files <- lift (py_iter recording_files) ;;
     transcript_file <-
       lift (next_where (has_file_type "TRANSCRIPT") files) ;;
     match transcript_file with
     | None => ret (no_transcript "No transcript available")
     | Some transcript_file =>
         if negb (py_truthy transcript_file)
         then ret (no_transcript "No transcript available")
         else
           transcript_url <-
             lift (py_getitem transcript_file "download_url") ;;
           token <- get_access_token ;;
           transcript_content <-
             get_transcript_content transcript_url token ;;
           match transcript_content with
           | None | Some "" =>
               ret (no_transcript "Failed to retrieve transcript")
           | Some content => transcript_payload content
           end
     end)
    (fun e =>
       match e with
       | HTTPError response =>
           if (status_code response =? 404)%Z
           then ret (no_transcript "Recording not found")
           else raise e
       | _ => raise e
       end).

Definition get_recording_transcript (recording_id : string)
  : list Event -> Returned * list Event :=
  exposed (recording_transcript_body recording_id).

(** *** get_instructor_recordings *)

Definition no_zoom_user : json :=
  JDict [("recordings", JList []); ("message", JStr "No Zoom user found")].

(** One [users/{user}/recordings] query for the window ending at
    [current_date], followed by [all_recordings.extend(recordings)]. *)
Definition fetch_window (user : string) (current_date : Z)
  (all_recordings : list json) : M (list json) :=
  let range_end := strftime_day current_date in
  let range_start := strftime_day (current_date - timedelta_days 30) in
  recordings_response <-
    _make_request "GET" ("users/" ++ user ++ "/recordings")
      (Some (mkParams 300 range_start range_end)) ;;
  recordings <- lift (py_get recordings_response "meetings" (JList [])) ;;
  items <- lift (py_iter recordings) ;;
  ret (all_recordings ++ items)%list.

(** The body of the [while] loop: [inl] carries [all_recordings] on to
    the next window, [inr] is a [return] out of the function. *)
Definition window_body (instructor_id : string) (current_date : Z)
  (all_recordings : list json) : M (list json + json) :=
  try_except
    (all_recordings' <- fetch_window instructor_id current_date all_recordings ;;
     ret (inl all_recordings'))
    (fun e =>
       match e with
       | HTTPError response =>
           if (status_code response =? 404)%Z then
             try_except
               (user <- _make_request "GET" ("users/" ++ instructor_id) None ;;
                user_id <- lift (py_get user "id" JNull) ;;
                all_recordings' <-
                  fetch_window (py_str user_id) current_date all_recordings ;;
                ret (inl all_recordings'))
               (fun e' =>
                  match e' with
                  | HTTPError _ => ret (inr no_zoom_user)
                  | _ => raise e'
                  end)
           else raise e
       | _ => raise e
       end).

(** [while current_date >= start_date], at most [fuel] windows.  The
    dates [current_date - timedelta(days=30)] of the body are not more
    than thirty days before [start_date], and so within the range of
    [datetime]. *)
Fixpoint window_loop (fuel : nat) (instructor_id : string) (current_date : Z)
  (all_recordings : list json) : M (list json + json) :=
  if (start_date <=? current_date)%Z then
    match fuel with
    | O => ret (inl all_recordings)
    | S fuel' =>
        r <- window_body instructor_id current_date all_recordings ;;
        match r with
        | inl all_recordings' =>
            window_loop fuel' instructor_id
              (current_date - timedelta_days 30)%Z all_recordings'
        | inr v => ret (inr v)
        end
    end
  else ret (inl all_recordings).

(** The number of 30-day steps from [end_date] down to [start_date]. *)
Definition windows (end_date : Z) : nat :=
  Z.to_nat ((end_date - start_date) / timedelta_days 30 + 1).

(** The report of a recording: [None] stands for [continue]. *)
Definition meeting_report_for (recording : json) : M (option json) :=
  meeting_id <- lift (py_get recording "id" JNull) ;;
  uuid <- lift (py_get recording "uuid" (JStr "")) ;;
  topic <- lift (py_get recording "topic" (JStr "No topic")) ;;
  try_except
    (meeting_report <-
       _make_request "GET" ("report/meetings/" ++ py_str meeting_id) None ;;
     ret (Some meeting_report))
    (fun meeting_error =>
       match meeting_error with
       | HTTPError response =>
           error_response <- response_json response ;;
           not_found_by_id <-
             (if (status_code response =? 404)%Z then
                code <- lift (py_get error_response "code" JNull) ;;
                ret (py_eq_int code 3001)
              else ret false) ;;
           if not_found_by_id then
             try_except
               (meeting_report <-
                  _make_request "GET" ("report/meetings/" ++ py_str uuid)
                    None ;;
                ret (Some meeting_report))
               (fun e =>
                  match e with
                  | HTTPError _ => ret None
                  | _ => raise e
                  end)
           else ret None
       | _ => raise meeting_error
       end).

(** The list comprehension over [recording_files]. *)
Fixpoint project_files (files : list json) : Res (list json) :=
  match files with
  | [] => Ret []
  | f :: rest =>
      match py_get f "file_type" JNull with
      | Raise e => Raise e
      | Ret file_type =>
          if py_eq_str file_type "MP4" || py_eq_str file_type "TRANSCRIPT"
          then
            match py_get f "id" JNull, py_get f "recording_type" JNull,
                  py_get f "download_url" JNull, project_files rest with
            | Ret id, Ret recording_type, Ret download_url, Ret rest' =>
                Ret (JDict [("id", id); ("file_type", file_type);
                            ("recording_type", recording_type);
                            ("download_url", download_url)] :: rest')
            | Raise e, _, _, _ | _, Raise e, _, _
            | _, _, Raise e, _ | _, _, _, Raise e => Raise e
            end
          else project_files rest
      end
  end.

Definition recording_info (recording : json) : M json :=
  id <- lift (py_get recording "id" JNull) ;;
  uuid <- lift (py_get recording "uuid" JNull) ;;
  topic <- lift (py_get recording "topic" JNull) ;;
  start_time <- lift (py_get recording "start_time" JNull) ;;
  duration <- lift (py_get recording "duration" JNull) ;;
  recording_files <- lift (py_get recording "recording_files" (JList [])) ;;
  files <- lift (py_iter recording_files) ;;
  projected <- lift (project_files files) ;;
  ret (JDict [("id", id); ("uuid", uuid); ("topic", topic);
              ("start_time", start_time); ("duration", duration);
              ("recording_files", JList projected)]).

Definition is_canvas_course (field : json) : Res bool :=
  match py_get field "field" JNull with
  | Ret v => Ret (py_eq_str v "Canvas Course")
  | Raise e => Raise e
  end.

(** The part of the [for] body after the report has been obtained. *)
Definition include_recording (course_id : option string)
  (recording meeting_report : json) (filtered_recordings : list json)
  : M (list json) :=
  match course_id with
  | None | Some "" =>
      info <- recording_info recording ;;
      ret (filtered_recordings ++ [info])%list
  | Some course =>
      tracking_fields <-
        lift (py_get meeting_report "tracking_fields" (JList [])) ;;
      fields <- lift (py_iter tracking_fields) ;;
      canvas_course_field <- lift (next_where is_canvas_course fields) ;;
      match canvas_course_field with
      | None => ret filtered_recordings
      | Some field =>
          if py_truthy field then
            value <- lift (py_get field "value" (JStr "")) ;;
            if String.eqb (py_str value) course then
              info <- recording_info recording ;;
              ret (filtered_recordings ++ [info])%list
            else ret filtered_recordings
          else ret filtered_recordings
      end
  end.

(** The body of [for recording in all_recordings]. *)
Definition filter_body (course_id : option string) (recording : json)
  (filtered_recordings : list json) : M (list json) :=
  report <- meeting_report_for recording ;;
  match report with
  | None => ret filtered_recordings
  | Some meeting_report =>
      include_recording course_id recording meeting_report
        filtered_recordings
  end.

Fixpoint filter_loop (course_id : option string) (all_recordings : list json)
  (filtered_recordings : list json) : M (list json) :=
  match all_recordings with
  | [] => ret filtered_recordings
  | recording :: rest =>
      filtered_recordings' <-
        filter_body course_id recording filtered_recordings ;;
      filter_loop course_id rest filtered_recordings'
  end.

(** What follows the [while] loop. *)
Definition finish_recordings (course_id : option string)
  (scanned : list json + json) : M json :=
  match scanned with
  | inr v => ret v
  | inl all_recordings =>
      filtered_recordings <- filter_loop course_id all_recordings [] ;;
      ret (JDict [("recordings", JList filtered_recordings)])
  end.

(** What precedes it: the access check, the client and [end_date]. *)
Definition start_scan : M Z :=
  verify_access_key ;;;
  get_zoom_client ;;;
  datetime_now.

(** Up to the end of the [while] loop. *)
Definition scan_recordings (instructor_id : string) : M (list json + json) :=
  end_date <- start_scan ;;
  window_loop (windows end_date) instructor_id end_date [].

(** The [try] block of the operation. *)
Definition instructor_recordings_body (instructor_id : string)
  (course_id : option string) : M json :=
  scanned <- scan_recordings instructor_id ;;
  finish_recordings course_id scanned.

Definition get_instructor_recordings (instructor_id : string)
  (course_id : option string) : list Event -> Returned * list Event :=
  exposed (instructor_recordings_body instructor_id course_id).

End Handlers.

(* ------------------------------------------------------------------ *)
(** ** Vocabulary of the statements *)

(** *** Caption blocks *)

Record Block : Type := mkBlock {
  block_index : string;
  block_timing : string;
  block_text : list string
}.

Definition render_block (b : Block) : string :=
  join CRLF (block_index b :: block_timing b :: block_text b).

Definition render (blocks : list Block) : string :=
  join CRLFCRLF (map render_block blocks).

(** A line: no line terminator inside. *)
Definition is_line (s : string) : bool := negb (contains CRLF s).

(** A text line is not empty: an empty line, between two line
    terminators, makes a blank-line delimiter. *)
Definition is_text_line (s : string) : bool :=
  is_line s && negb (String.eqb s "").

(** A block as the specification words it: an index line, a timing line
    in which the separator occurs, one or more text lines. *)
Definition well_formed_as_stated (b : Block) : bool :=
  is_line (block_index b)
  && is_line (block_timing b) && contains ARROW (block_timing b)
  && match block_text b with [] => false | _ => true end
  && forallb is_text_line (block_text b).

(** The two parts of a timing line around the first separator. *)
Definition timing_parts (timing : string) : option (string * string) :=
  match find ARROW timing with
  | Some i => Some (take i timing, drop (i + length ARROW) timing)
  | None => None
  end.

(** The separator occurs, and not again after its first occurrence. *)
Definition single_arrow (timing : string) : bool :=
  match timing_parts timing with
  | Some (_, rest) => negb (contains ARROW rest)
  | None => false
  end.

Definition well_formed (b : Block) : bool :=
  well_formed_as_stated b && single_arrow (block_timing b).

(** The text begins with an index line that is not blank, and its last
    block has a text line that is not blank: [strip], which takes blank
    lines away at either end of the text, then leaves every block its
    index line and a text line. *)
Definition begins_visible (blocks : list Block) : bool :=
  match blocks with
  | [] => true
  | b :: _ => visible (block_index b)
  end.

Definition ends_visible (blocks : list Block) : bool :=
  match blocks with
  | [] => true
  | b :: rest => existsb visible (block_text (last rest b))
  end.

(** A block the parser passes over. *)
Definition malformed (caption : string) : bool :=
  (List.length (split CRLF caption) <? 3)%nat
  || negb (contains ARROW (nth 1 (split CRLF caption) "")).

(** What one block adds to [json_data]. *)
Definition caption_records (caption : string) : list Caption :=
  match caption_step [] caption with
  | Ret records => records
  | Raise _ => []
  end.

(** The transcript of the end-to-end scenario. *)
Definition scenario_text : string :=
  "WEBVTT" ++ CRLFCRLF
  ++ "1" ++ CRLF ++ "00:00:00.000 --> 00:00:02.000" ++ CRLF ++ "Hello world"
  ++ CRLFCRLF
  ++ "2" ++ CRLF ++ "00:00:02.000 --> 00:00:04.000" ++ CRLF ++ "Second line".

Definition twice_arrow_block : Block :=
  mkBlock "1" "00:00:01.000 --> 00:00:02.000 --> 00:00:03.000" ["Hi"].

Definition blank_index_block : Block :=
  mkBlock " " "00:00:01.000 --> 00:00:02.000" ["Hi"].

Definition blank_text_block : Block :=
  mkBlock "1" "00:00:01.000 --> 00:00:02.000" [" "].

(** Four blocks: blanks in front of the first index line, a blank text
    line inside a block, a timing line with the separator twice, an empty
    index line, and blank text behind the last text. *)
Definition sample_blocks : list Block :=
  [mkBlock " 7" "00:01 --> 00:02" ["first"; " "; "cue"];
   twice_arrow_block;
   mkBlock "" "00:02 --> 00:03" ["second"];
   mkBlock "9" "00:03 --> 00:04" ["third "; " "]].

(** Blocks with one separator each. *)
Definition single_blocks : list Block :=
  [mkBlock "1" "00:01 --> 00:02" ["one"; " "; "more"];
   mkBlock "2" "00:02 --> 00:03" ["two"]].

(** A text whose middle block has no separator in its second line. *)
Definition skipped_sample : list string :=
  ["1" ++ CRLF ++ "00:01 --> 00:02" ++ CRLF ++ "one";
   "2" ++ CRLF ++ "00:02 to 00:03" ++ CRLF ++ "two";
   "3" ++ CRLF ++ "00:03 --> 00:04" ++ CRLF ++ "three"]%string.

(** *** Histories *)

Definition is_token_post (ev : Event) : bool :=
  match ev with
  | EvSend (TokenPost _ _) => true
  | _ => false
  end.

(** The number of token-exchange requests in a history. *)
Definition token_posts (h : list Event) : nat :=
  List.length (filter is_token_post h).

(** A response that [raise_for_status] lets through. *)
Definition passes_status (response : Response) : bool :=
  negb ((400 <=? status_code response)%Z && (status_code response <? 600)%Z).

(** [d.get(key)] on the items of a dict. *)
Definition lookup (key : string) (items : list (string * json)) : json :=
  match assoc key items with
  | Some v => v
  | None => JNull
  end.

(** The query parameters of the window that ends at [current_date]. *)
Definition window_params (current_date : Z) : option Params :=
  Some (mkParams 300 (strftime_day (current_date - timedelta_days 30))
          (strftime_day current_date)).

(** The endpoint of the report of the recording with these items. *)
Definition report_endpoint (env : Env) (items : list (string * json))
  : string :=
  ("report/meetings/" ++ py_str env (lookup "id" items))%string.

(** An exposed operation hands back a payload, or the failure payload
    together with the status code 500. *)
Definition payload_or_failure (r : Returned) : Prop :=
  (exists v, r = Payload v)
  \/ (exists e,
        r = PayloadStatus
              (JDict [("error", JStr "Internal Server Error");
                      ("message", JStr (exc_str e))])
              500).

(** *** Sample worlds *)

Definition sample_config : ZoomClientConfig :=
  mkConfig "account" "client" "secret" false "".

Definition answer (status : Z) (body : json) : NetResult :=
  Answer (mkResponse status "" (Some body) "HTTP error").

Definition granted (token : string) : json :=
  JDict [("access_token", JStr token); ("expires_in", JInt 3599)].

(** A provider that grants ["token-1"], answers the API requests as
    [api] says, and delivers no file. *)
Definition serve (api : string -> option Params -> NetResult) (r : Request)
  : NetResult :=
  match r with
  | TokenPost _ _ => answer 200 (granted "token-1")
  | ApiRequest _ url _ params => api url params
  | Download _ _ => Failed "Connection refused"
  end.

(** A world with the clock at [now], a configuration row (or none), no
    access key asked for, and the network [net]. *)
Definition sample_env (now : list Event -> Z) (configured : bool)
  (net : list Event -> Request -> NetResult) : Env :=
  mkEnv now
    (fun _ => if configured then Some sample_config else None)
    (fun _ => if configured then Some sample_config else None)
    (fun _ => None)
    net
    (fun _ => "").

Definition api_url (endpoint : string) : string :=
  (BASE_URL ++ "/" ++ endpoint)%string.

Definition not_found : NetResult :=
  answer 404 (JDict [("code", JInt 1001); ("message", JStr "Not found")]).

(** Two recordings, as the provider lists them. *)
Definition recording_1 : json :=
  JDict [("id", JInt 101); ("uuid", JStr "uuid-1"); ("topic", JStr "Week 1");
         ("recording_files", JList [])].

Definition recording_2 : json :=
  JDict [("id", JInt 102); ("uuid", JStr "uuid-2"); ("topic", JStr "Week 2");
         ("recording_files", JList [])].

Definition recording_1_items : list (string * json) :=
  match recording_1 with
  | JDict items => items
  | _ => []
  end.

(** What the operation returns of a recording. *)
Definition listed (id : Z) (uuid topic : string) : json :=
  JDict [("id", JInt id); ("uuid", JStr uuid); ("topic", JStr topic);
         ("start_time", JNull); ("duration", JNull);
         ("recording_files", JList [])].

(** The first report request meets [first_report]; the second succeeds. *)
Definition reports_api (first_report : NetResult) (url : string)
  (params : option Params) : NetResult :=
  if String.eqb url (api_url "users/ada/recordings")
  then answer 200 (JDict [("meetings", JList [recording_1; recording_2])])
  else if String.eqb url (api_url "report/meetings/101") then first_report
  else if String.eqb url (api_url "report/meetings/102")
  then answer 200 (JDict [])
  else not_found.

Definition reports_env (first_report : NetResult) : Env :=
  sample_env (fun _ => 0%Z) true (fun _ => serve (reports_api first_report)).

(** Thirty days after the start date, two windows are scanned.  The
    identifier is known for the later window only; it does not resolve. *)
Definition vanished_api (url : string) (params : option Params) : NetResult :=
  if String.eqb url (api_url "users/ada/recordings") then
    match params with
    | Some p =>
        if (to_ p =? 30)%Z
        then answer 200 (JDict [("meetings", JList [recording_1])])
        else not_found
    | None => not_found
    end
  else not_found.

Definition vanished_env : Env :=
  sample_env (fun _ => timedelta_days 30) true (fun _ => serve vanished_api).





(** A recording whose transcript file has no download URL. *)
Definition recording_without_url : json :=
  JDict [("recording_files",
          JList [JDict [("id", JStr "f-1"); ("file_type", JStr "TRANSCRIPT")]])].

Definition without_url_api (url : string) (params : option Params)
  : NetResult :=
  if String.eqb url (api_url "recordings/r-1")
     || String.eqb url (api_url "meetings/m-1/recordings")
  then answer 200 recording_without_url
  else not_found.

Definition without_url_env : Env :=
  sample_env (fun _ => 0%Z) true (fun _ => serve without_url_api).

(** No configuration row. *)
Definition unconfigured_env : Env :=
  sample_env (fun _ => 0%Z) false (fun _ => serve (fun _ _ => not_found)).

(** A client whose token is valid until 10. *)
Definition cached_state : State :=
  mkState (mkOAuth None (JStr "token-0") (Some 10%Z)) [].

(** The clock passes the expiry once three events have happened, and a
    second exchange grants another token. *)
Definition expiring_env : Env :=
  sample_env
    (fun h => if (List.length h <? 3)%nat then 0%Z else 4000000000%Z)
    true
    (fun h r =>
       match r with
       | TokenPost _ _ =>
           answer 200 (granted (if (List.length h <? 3)%nat
                                then "token-1" else "token-2"))
       | _ => not_found
       end).

Definition new_client : State := mkState no_client [].

(** The token endpoint grants an empty token. *)
Definition empty_token_env : Env :=
  sample_env (fun _ => 0%Z) true
    (fun _ r =>
       match r with
       | TokenPost _ _ => answer 200 (granted "")
       | _ => not_found
       end).

(** Once three events have happened the clock is past the expiry, and
    the configuration row is gone. *)
Definition deconfigured_env : Env :=
  mkEnv
    (fun h => if (List.length h <? 3)%nat then 0%Z else 4000000000%Z)
    (fun h => if (List.length h <? 3)%nat then Some sample_config else None)
    (fun _ => Some sample_config)
    (fun _ => None)
    (fun _ => serve (fun _ _ => not_found))
    (fun _ => "").

(** Once three events have happened the clock is past the expiry, and
    a second exchange grants a token for 10^15 seconds. *)
Definition overflowing_env : Env :=
  sample_env
    (fun h => if (List.length h <? 3)%nat then 0%Z else 4000000000%Z)
    true
    (fun h r =>
       match r with
       | TokenPost _ _ =>
           answer 200
             (if (List.length h <? 3)%nat then granted "token-1"
              else JDict [("access_token", JStr "token-2");
                          ("expires_in", JInt 1000000000000000)])
       | _ => not_found
       end).

(** [piece] put in front of the first of [pieces]. *)
Definition glue (piece : string) (pieces : list string) : list string :=
  match pieces with
  | p :: ps => (piece ++ p)%string :: ps
  | [] => [piece]
  end.

(** [split sep] walks through [piece] without finding a separator that
    starts inside it, where [piece] ends the text or a separator
    follows. *)
Definition passes (sep piece : string) : Prop :=
  forall rest,
    rest = "" \/ prefix sep rest = true ->
    split_from sep 0 (piece ++ rest) = glue piece (split_from sep 0 rest).

(** What follows a line in a text: nothing, or a carriage return. *)
Definition line_ends (rest : string) : Prop :=
  rest = "" \/ exists r, rest = String CR r.

Definition map_head {A} (f : A -> A) (l : list A) : list A :=
  match l with
  | [] => []
  | x :: rest => f x :: rest
  end.

Fixpoint map_last {A} (f : A -> A) (l : list A) : list A :=
  match l with
  | [] => []
  | [x] => [f x]
  | x :: rest => x :: map_last f rest
  end.

(** What [rstrip] leaves of lines: the blank lines at the end go, and
    the blanks behind the last line that is not blank. *)
Fixpoint rstrip_lines (lines : list string) : list string :=
  match lines with
  | [] => []
  | l :: rest =>
      match rstrip_lines rest with
      | [] => if visible l then [rstrip l] else []
      | kept => l :: kept
      end
  end.

(** What [strip] leaves of a rendered sequence of blocks: the blanks in
    front of the first index line go, and the blanks and blank lines
    behind the last text. *)
Definition lstrip_index (b : Block) : Block :=
  mkBlock (lstrip (block_index b)) (block_timing b) (block_text b).

Definition rstrip_text (b : Block) : Block :=
  mkBlock (block_index b) (block_timing b) (rstrip_lines (block_text b)).

Definition strip_blocks (blocks : list Block) : list Block :=
  map_last rstrip_text (map_head lstrip_index blocks).

(** The record of a block: none when the separator occurs again behind
    its first occurrence. *)
Definition block_record (b : Block) : list Caption :=
  match timing_parts (block_timing b) with
  | Some (start, end_) =>
      if contains ARROW end_ then []
      else [mkCaption (block_index b) start end_ (join " " (block_text b))]
  | None => []
  end.

(** *** Further vocabulary *)

Definition is_api_request (ev : Event) : bool :=
  match ev with
  | EvSend (ApiRequest _ _ _ _) => true
  | _ => false
  end.

(** The number of requests to the provider's API in a history. *)
Definition api_requests (h : list Event) : nat :=
  List.length (filter is_api_request h).

Definition is_send (ev : Event) : bool :=
  match ev with
  | EvSend _ => true
  | _ => false
  end.

(** The number of requests of any kind in a history. *)
Definition sends (h : list Event) : nat := List.length (filter is_send h).

(** A world whose configuration asks for the access key ["s3cret"], the
    inbound request carrying [key]. *)
Definition guarded_config : ZoomClientConfig :=
  mkConfig "account" "client" "secret" true "s3cret".

Definition guarded_env (key : option string) : Env :=
  mkEnv (fun _ => 0%Z)
    (fun _ => Some guarded_config)
    (fun _ => Some guarded_config)
    (fun _ => key)
    (fun _ => serve (fun _ _ => answer 200 (JDict [])))
    (fun _ => "").

(** A token endpoint that answers every exchange with [response]. *)
Definition token_env (response : NetResult) : Env :=
  sample_env (fun _ => 0%Z) true
    (fun _ r =>
       match r with
       | TokenPost _ _ => response
       | _ => not_found
       end).

Definition rejected_credentials : Response :=
  mkResponse 400 "Invalid client_id or client_secret" None
    "400 Client Error".

(** Events that are not requests. *)
Definition quiet (evs : list Event) : bool :=
  forallb (fun ev => negb (is_send ev)) evs.

(** A provider that delivers the file at ["https://files/t.vtt"] with the
    content [content], and answers every other download with status 403. *)
Definition file_env (content : string) : Env :=
  sample_env (fun _ => 0%Z) true
    (fun _ r =>
       match r with
       | TokenPost _ _ => answer 200 (granted "token-1")
       | ApiRequest _ _ _ _ =>
           answer 200
             (JDict [("recording_files",
                      JList [JDict [("file_type", JStr "MP4")];
                             JDict [("file_type", JStr "TRANSCRIPT");
                                    ("download_url",
                                     JStr "https://files/t.vtt")]])])
       | Download url _ =>
           if String.eqb url "https://files/t.vtt"
           then Answer (mkResponse 200 content None "")
           else Answer (mkResponse 403 "Forbidden" None "403 Client Error")
       end).

(** The files the reduced view keeps, and what it keeps of them. *)
Definition kept (file : list (string * json)) : bool :=
  py_eq_str (lookup "file_type" file) "MP4"
  || py_eq_str (lookup "file_type" file) "TRANSCRIPT".

Definition reduced (file : list (string * json)) : json :=
  JDict [("id", lookup "id" file); ("file_type", lookup "file_type" file);
         ("recording_type", lookup "recording_type" file);
         ("download_url", lookup "download_url" file)].

(** [d.get(key, default)] on the items of a dict. *)
Definition lookup_or (key : string) (default : json)
  (items : list (string * json)) : json :=
  match assoc key items with
  | Some v => v
  | None => default
  end.

(** A report that carries the course as a number. *)
Definition course_report : list (string * json) :=
  [("tracking_fields",
    JList [JDict [("field", JStr "Department"); ("value", JStr "42")];
           JDict [("field", JStr "Canvas Course"); ("value", JInt 42)];
           JDict [("field", JStr "Canvas Course"); ("value", JStr "43")]])].

(** The report is not found by ID (code 3001) but found by UUID. *)
Definition by_uuid_api (url : string) (params : option Params) : NetResult :=
  if String.eqb url (api_url "report/meetings/101")
  then answer 404 (JDict [("code", JInt 3001)])
  else if String.eqb url (api_url "report/meetings/uuid-1")
  then answer 200 (JDict [("tracking_fields", JList [])])
  else not_found.

Definition by_uuid_env : Env :=
  sample_env (fun _ => 0%Z) true (fun _ => serve by_uuid_api).

(** A gateway answers the report request with a page that is no JSON. *)
Definition bad_gateway : NetResult :=
  Answer (mkResponse 502 "<html>Bad Gateway</html>" None "502 Server Error").

(** The provider's API is out of order. *)
Definition failing_env : Env :=
  sample_env (fun _ => 0%Z) true
    (fun _ => serve (fun _ _ => answer 500 (JDict []))).

(** Thirty days after the start date: the later window is answered, the
    earlier one meets a provider out of order. *)
Definition late_failure_api (url : string) (params : option Params)
  : NetResult :=
  match params with
  | Some p =>
      if String.eqb url (api_url "users/ada/recordings") && (to_ p =? 30)%Z
      then answer 200 (JDict [("meetings", JList [recording_1])])
      else answer 500 (JDict [])
  | None => answer 500 (JDict [])
  end.

Definition late_failure_env : Env :=
  sample_env (fun _ => timedelta_days 30) true
    (fun _ => serve late_failure_api).

(** The recordings endpoint does not know the identifier, and the
    request that would resolve it does not get through. *)
Definition unreachable_env : Env :=
  sample_env (fun _ => 0%Z) true
    (fun _ r =>
       match r with
       | TokenPost _ _ => answer 200 (granted "token-1")
       | ApiRequest _ url _ _ =>
           if String.eqb url (api_url "users/ada/recordings")
           then not_found else Failed "Connection aborted"
       | Download _ _ => Failed "Connection refused"
       end).

(** The clock stands before the start date. *)
Definition early_env : Env :=
  sample_env (fun _ => (-1)%Z) true (fun _ => serve (fun _ _ => not_found)).

(* ------------------------------------------------------------------ *)
(** * Properties *)

(** ** Strings *)

Section StringFacts.

Lemma split_from_skip sep n s :
  split_from sep n s = split_from sep 0 (drop n s).
Proof.
  revert s; induction n as [|n IH]; intros s.
  - destruct s; reflexivity.
  - destruct s as [|c s]; [reflexivity|].
    simpl. apply IH.
Qed.

Lemma split_from_nonempty sep n s : split_from sep n s <> [].
Proof.
  revert n; induction s as [|c s IH]; intros n; cbn [split_from].
  - discriminate.
  - destruct n as [|n]; [|apply IH].
    destruct (prefix sep (String c s)); [discriminate|].
    destruct (split_from sep 0 s); discriminate.
Qed.

(** Without an occurrence of the separator there is one piece. *)
Lemma split_without_sep sep s :
  contains sep s = false -> split sep s = [s].
Proof.
  unfold split.
  induction s as [|c s IH]; intros H.
  - reflexivity.
  - cbn [contains] in H. apply orb_false_iff in H as [Hp Hc].
    cbn [split_from]. rewrite Hp, (IH Hc). reflexivity.
Qed.

(** With a first occurrence at [i] and none after it, two pieces. *)
Lemma split_single sep s i :
  sep <> "" ->
  find sep s = Some i ->
  contains sep (drop (i + length sep) s) = false ->
  split sep s = [take i s; drop (i + length sep) s].
Proof.
  intros Hsep. unfold split. revert i.
  induction s as [|c s IH]; intros i Hf Hc.
  - destruct sep; [congruence|]. discriminate Hf.
  - cbn [find] in Hf. cbn [split_from].
    destruct (prefix sep (String c s)) eqn:Hp.
    + inversion Hf; subst i. cbn [Nat.add] in *.
      destruct sep as [|d sep]; [congruence|].
      cbn [length] in *. rewrite Nat.sub_succ, Nat.sub_0_r.
      rewrite split_from_skip. cbn [drop] in Hc.
      apply split_without_sep in Hc. unfold split in Hc. rewrite Hc.
      reflexivity.
    + destruct (find sep s) as [j|] eqn:Hj; [|discriminate].
      inversion Hf; subst i. cbn [Nat.add drop] in Hc.
      rewrite (IH j eq_refl Hc). reflexivity.
Qed.

Lemma mem_lstrip c s :
  is_space c = false -> mem c s = true -> mem c (lstrip s) = true.
Proof.
  intros Hc. induction s as [|d s IH]; intros H; [discriminate|].
  cbn [lstrip]. destruct (is_space d) eqn:Hd; [|exact H].
  cbn [mem] in H. apply orb_true_iff in H as [H|H]; [|auto].
  apply Ascii.eqb_eq in H. congruence.
Qed.

Lemma mem_rstrip c s :
  is_space c = false -> mem c s = true -> mem c (rstrip s) = true.
Proof.
  intros Hc. induction s as [|d s IH]; intros H; [discriminate|].
  cbn [rstrip]. cbn [mem] in H. apply orb_true_iff in H as [H|H].
  - apply Ascii.eqb_eq in H. subst d. rewrite Hc.
    destruct (rstrip s); cbn [mem]; rewrite Ascii.eqb_refl; reflexivity.
  - specialize (IH H). destruct (rstrip s) as [|e r]; [discriminate|].
    cbn [mem] in *. rewrite IH. apply orb_true_r.
Qed.

Lemma mem_upper c s :
  upper_char c = c -> (forall d, upper_char d = c -> d = c) ->
  mem c (upper s) = mem c s.
Proof.
  intros Hc Hinj. induction s as [|d s IH]; [reflexivity|].
  cbn [upper mem]. rewrite IH. f_equal.
  destruct (Ascii.eqb c d) eqn:E.
  - apply Ascii.eqb_eq in E. subst d. rewrite Hc. apply Ascii.eqb_refl.
  - apply Ascii.eqb_neq. intros E'. apply Ascii.eqb_neq in E.
    apply E. symmetry. apply Hinj. congruence.
Qed.

Lemma mem_app c s t : mem c (s ++ t) = mem c s || mem c t.
Proof.
  induction s as [|d s IH]; [reflexivity|].
  cbn [append mem]. rewrite IH. apply orb_assoc.
Qed.

Lemma eqb_mem_differs c s t :
  mem c s = true -> mem c t = false -> String.eqb s t = false.
Proof.
  intros Hs Ht. apply String.eqb_neq. intros ->. congruence.
Qed.

End StringFacts.

(** ** The caption parser *)

Lemma unpack2_raises_ValueError parts e :
  unpack2 parts = Raise e -> exists msg, e = ValueError msg.
Proof.
  destruct parts as [|a [|b [|c parts]]]; cbn; intros H;
    inversion H; eauto.
Qed.

(** Each block adds its own records behind those already collected. *)
Lemma caption_step_records json_data caption :
  caption_step json_data caption = Ret (json_data ++ caption_records caption).
Proof.
  unfold caption_records, caption_step.
  destruct (String.eqb (upper (strip caption)) "WEBVTT");
    [now rewrite app_nil_r|].
  destruct (3 <=? List.length (split CRLF caption))%nat;
    [|now rewrite app_nil_r].
  destruct (unpack2 (split ARROW (nth 1 (split CRLF caption) "")))
    as [[a b]|e] eqn:E.
  - reflexivity.
  - apply unpack2_raises_ValueError in E as [msg ->].
    now rewrite app_nil_r.
Qed.

Lemma captions_loop_records captions json_data :
  captions_loop captions json_data
  = Ret (json_data ++ flat_map caption_records captions).
Proof.
  revert json_data; induction captions as [|c captions IH]; intros json_data.
  - cbn. now rewrite app_nil_r.
  - cbn [captions_loop flat_map].
    rewrite caption_step_records, IH, app_assoc. reflexivity.
Qed.

Lemma malformed_no_records caption :
  malformed caption = true -> caption_records caption = [].
Proof.
  unfold malformed, caption_records, caption_step. intros H.
  destruct (String.eqb (upper (strip caption)) "WEBVTT"); [reflexivity|].
  destruct (3 <=? List.length (split CRLF caption))%nat eqn:Hlen;
    [|reflexivity].
  apply orb_true_iff in H as [H|H].
  - apply Nat.ltb_lt in H. apply Nat.leb_le in Hlen. lia.
  - apply negb_true_iff in H. rewrite (split_without_sep _ _ H).
    reflexivity.
Qed.

(** C4. The end-to-end scenario of the specification: the transcript
    with a [WEBVTT] header block and two cues, lines ending in CR LF,
    parses to exactly the two records of the cues; the header block adds
    none. *)
Theorem C4_scenario_two_records :
  webvtt_to_json scenario_text
  = Ret [mkCaption "1" "00:00:00.000" "00:00:02.000" "Hello world";
         mkCaption "2" "00:00:02.000" "00:00:04.000" "Second line"]
  /\ nth 0 (split CRLFCRLF (strip scenario_text)) "" = "WEBVTT"
  /\ caption_records "WEBVTT" = [].
Proof.
  repeat split; vm_compute; reflexivity.
Qed.

(** C5. The parser is total: on every input it returns a list of records
    and raises nothing.  A block with fewer than three lines, or whose
    second line has no separator, adds no record, and the result is the
    one obtained from the other blocks alone. *)
Theorem C5_parser_total_skips_malformed (raw : string) :
  (exists records, webvtt_to_json raw = Ret records)
  /\ (forall caption, malformed caption = true ->
        forall json_data, caption_step json_data caption = Ret json_data)
  /\ (forall before caption after,
        split CRLFCRLF (strip raw) = before ++ caption :: after ->
        malformed caption = true ->
        webvtt_to_json raw = captions_loop (before ++ after) []).
Proof.
  unfold webvtt_to_json. split; [|split].
  - rewrite captions_loop_records. eauto.
  - intros caption H json_data.
    rewrite caption_step_records, (malformed_no_records _ H).
    now rewrite app_nil_r.
  - intros before caption after -> H.
    rewrite !captions_loop_records, !flat_map_app.
    cbn [flat_map]. rewrite (malformed_no_records _ H). reflexivity.
Qed.

(** ** Splitting what was joined *)

Section SplitJoin.

Lemma append_empty_r (s : string) : (s ++ "")%string = s.
Proof. induction s as [|c s IH]; cbn; congruence. Qed.

Lemma append_assoc3 (a b c : string) :
  ((a ++ b) ++ c)%string = (a ++ b ++ c)%string.
Proof. induction a as [|x a IH]; cbn; congruence. Qed.

Lemma glue_glue a b pieces :
  glue a (glue b pieces) = glue (a ++ b)%string pieces.
Proof.
  destruct pieces as [|p ps]; cbn; [reflexivity|].
  now rewrite append_assoc3.
Qed.

Lemma glue_empty pieces : pieces <> [] -> glue "" pieces = pieces.
Proof. destruct pieces; [congruence|reflexivity]. Qed.

Lemma prefix_cons a s b t :
  prefix (String a s) (String b t) = Ascii.eqb a b && prefix s t.
Proof.
  cbn [prefix]. destruct (ascii_dec a b) as [->|N].
  - now rewrite Ascii.eqb_refl.
  - apply Ascii.eqb_neq in N. now rewrite N.
Qed.

Lemma prefix_empty s : prefix "" s = true.
Proof. now destruct s. Qed.

Lemma prefix_app sep rest : prefix sep (sep ++ rest) = true.
Proof.
  induction sep as [|c sep IH]; [now destruct rest|].
  cbn [append]. now rewrite prefix_cons, Ascii.eqb_refl, IH.
Qed.

Lemma drop_app sep rest : drop (length sep) (sep ++ rest) = rest.
Proof.
  induction sep as [|c sep IH]; cbn; [now destruct rest|exact IH].
Qed.

(** Right after a separator a new piece begins. *)
Lemma split_from_sep sep rest :
  sep <> "" ->
  split_from sep 0 (sep ++ rest) = "" :: split_from sep 0 rest.
Proof.
  intros Hsep. destruct sep as [|c sep]; [congruence|].
  change (String c sep ++ rest)%string with (String c (sep ++ rest)).
  cbn [split_from].
  change (String c (sep ++ rest)) with (String c sep ++ rest)%string.
  rewrite prefix_app. cbn [length]. rewrite Nat.sub_succ, Nat.sub_0_r.
  now rewrite split_from_skip, drop_app.
Qed.

Lemma split_from_step sep c s :
  prefix sep (String c s) = false ->
  split_from sep 0 (String c s) = glue (String c "") (split_from sep 0 s).
Proof.
  intros H. cbn [split_from]. rewrite H.
  destruct (split_from sep 0 s) eqn:E;
    [now apply split_from_nonempty in E|reflexivity].
Qed.

Lemma split_join sep pieces :
  sep <> "" -> pieces <> [] -> Forall (passes sep) pieces ->
  split sep (join sep pieces) = pieces.
Proof.
  intros Hsep Hne Hall. unfold split, join.
  induction Hall as [|p ps Hp Hps IH]; [congruence|].
  destruct ps as [|q ps].
  - cbn [concat]. rewrite <- (append_empty_r p) at 1.
    rewrite Hp by now left. cbn. now rewrite append_empty_r.
  - change (concat sep (p :: q :: ps))
      with (p ++ sep ++ concat sep (q :: ps))%string.
    rewrite Hp by (right; apply prefix_app).
    rewrite (split_from_sep _ _ Hsep), IH by discriminate.
    cbn. now rewrite append_empty_r.
Qed.

Lemma line_ends_prefix tail rest :
  rest = "" \/ prefix (String CR tail) rest = true -> line_ends rest.
Proof.
  intros [->|H]; [now left|]. right.
  destruct rest as [|c r]; [discriminate H|].
  rewrite prefix_cons in H. apply andb_true_iff in H as [H _].
  apply Ascii.eqb_eq in H. subst c. eauto.
Qed.

(** No line terminator begins in a line that holds none, whatever the
    separator that begins with one. *)
Lemma passes_line tail l rest :
  contains CRLF l = false -> line_ends rest ->
  split_from (String CR (String LF tail)) 0 (l ++ rest)
  = glue l (split_from (String CR (String LF tail)) 0 rest).
Proof.
  intros Hl Hrest. induction l as [|c l IH].
  - cbn [append]. symmetry. apply glue_empty, split_from_nonempty.
  - cbn [contains] in Hl. apply orb_false_iff in Hl as [Hp Hl].
    cbn [append]. rewrite split_from_step, (IH Hl), glue_glue; [reflexivity|].
    rewrite prefix_cons. destruct (Ascii.eqb CR c) eqn:Hc; [|reflexivity].
    cbn [andb]. unfold CRLF in Hp. rewrite prefix_cons, Hc in Hp.
    cbn [andb] in Hp. destruct l as [|d l].
    + cbn [append]. destruct Hrest as [->|(r & ->)]; [reflexivity|].
      now rewrite prefix_cons.
    + cbn [append]. rewrite prefix_cons in Hp |- *.
      rewrite prefix_empty, andb_true_r in Hp. now rewrite Hp.
Qed.

(** A line that is not empty does not begin with a line terminator,
    whatever line end follows it. *)
Lemma line_begins l rest :
  contains CRLF l = false -> l <> "" -> line_ends rest ->
  prefix CRLF (l ++ rest) = false.
Proof.
  intros Hl Hne Hrest. destruct l as [|c l]; [congruence|].
  cbn [contains] in Hl. apply orb_false_iff in Hl as [Hp _].
  unfold CRLF in *. cbn [append]. rewrite prefix_cons in Hp |- *.
  destruct (Ascii.eqb CR c); [|reflexivity]. cbn [andb] in *.
  destruct l as [|d l].
  - cbn [append]. destruct Hrest as [->|(r & ->)]; [reflexivity|].
    now rewrite prefix_cons.
  - cbn [append]. rewrite prefix_cons in Hp |- *.
    rewrite prefix_empty, andb_true_r in Hp. now rewrite Hp.
Qed.

(** Between two lines of a block, the blank-line delimiter does not
    match. *)
Lemma passes_line_break rest :
  prefix CRLF rest = false ->
  split_from CRLFCRLF 0 (CRLF ++ rest)
  = glue CRLF (split_from CRLFCRLF 0 rest).
Proof.
  intros Hrest.
  assert (H1 : prefix CRLFCRLF (String CR (String LF rest)) = false).
  { unfold CRLFCRLF, CRLF in *. cbn [append].
    now rewrite !prefix_cons, !Ascii.eqb_refl, Hrest. }
  assert (H2 : prefix CRLFCRLF (String LF rest) = false).
  { unfold CRLFCRLF, CRLF. cbn [append]. rewrite prefix_cons. reflexivity. }
  change (CRLF ++ rest)%string with (String CR (String LF rest)).
  rewrite (split_from_step _ _ _ H1), (split_from_step _ _ _ H2).
  now rewrite glue_glue.
Qed.

(** The first occurrence of the separator ends the first piece. *)
Lemma split_at_first sep s i :
  sep <> "" -> find sep s = Some i ->
  split sep s = take i s :: split sep (drop (i + length sep) s).
Proof.
  intros Hsep. unfold split. revert i.
  induction s as [|c s IH]; intros i Hf.
  - destruct sep; [congruence|]. discriminate Hf.
  - cbn [find] in Hf. cbn [split_from].
    destruct (prefix sep (String c s)) eqn:Hp.
    + inversion Hf; subst i. cbn [Nat.add].
      destruct sep as [|d sep]; [congruence|].
      cbn [length]. rewrite Nat.sub_succ, Nat.sub_0_r.
      now rewrite split_from_skip.
    + destruct (find sep s) as [j|] eqn:Hj; [|discriminate].
      inversion Hf; subst i. cbn [Nat.add drop take].
      now rewrite (IH j eq_refl).
Qed.

Lemma find_contains sep s :
  contains sep s = true -> exists i, find sep s = Some i.
Proof.
  induction s as [|c s IH]; cbn [contains find]; intros H.
  - rewrite orb_false_r in H. rewrite H. eauto.
  - destruct (prefix sep (String c s)); [eauto|].
    cbn [orb] in H. destruct (IH H) as [i ->]. cbn. eauto.
Qed.

Lemma find_without sep s : contains sep s = false -> find sep s = None.
Proof.
  induction s as [|c s IH]; cbn [contains find]; intros H.
  - rewrite orb_false_r in H. now rewrite H.
  - apply orb_false_iff in H as [Hp H]. now rewrite Hp, (IH H).
Qed.

(** Where the separator occurs there are two pieces at least. *)
Lemma split_contains sep s :
  sep <> "" -> contains sep s = true ->
  exists a b rest, split sep s = a :: b :: rest.
Proof.
  intros Hsep H. destruct (find_contains _ _ H) as [i Hi].
  rewrite (split_at_first _ _ _ Hsep Hi).
  destruct (split sep (drop (i + length sep) s)) as [|b rest] eqn:E.
  - unfold split in E. now apply split_from_nonempty in E.
  - eauto.
Qed.

End SplitJoin.

(** ** Blocks *)

Section Blocks.

Lemma join_cons2 sep x y rest :
  join sep (x :: y :: rest) = (x ++ sep ++ join sep (y :: rest))%string.
Proof. reflexivity. Qed.

Lemma is_line_inv s : is_line s = true -> contains CRLF s = false.
Proof. unfold is_line. now rewrite negb_true_iff. Qed.

Lemma is_text_line_inv s :
  is_text_line s = true -> contains CRLF s = false /\ s <> "".
Proof.
  unfold is_text_line. intros H. apply andb_true_iff in H as [Hl Hn].
  split; [now apply is_line_inv|]. intros ->. discriminate Hn.
Qed.

(** A single-line timing: the separator occurs exactly once when the
    line splits into two parts. *)
Lemma single_arrow_two_parts timing :
  single_arrow timing = (List.length (split ARROW timing) =? 2)%nat.
Proof.
  unfold single_arrow, timing_parts.
  destruct (contains ARROW timing) eqn:Hc.
  - destruct (find_contains _ _ Hc) as [i Hi]. rewrite Hi.
    destruct (contains ARROW (drop (i + length ARROW) timing)) eqn:Hrest.
    + rewrite (split_at_first ARROW _ i) by (discriminate || assumption).
      destruct (split_contains ARROW _ ltac:(discriminate) Hrest)
        as (a & b & rest & ->).
      reflexivity.
    + now rewrite (split_single ARROW _ i) by (discriminate || assumption).
  - now rewrite (find_without _ _ Hc), (split_without_sep _ _ Hc).
Qed.

(** The lines of a block joined by CR LF hold no blank-line delimiter,
    and none arises where the block ends.  The first line may be
    empty. *)
Lemma passes_block l lines :
  is_line l = true -> forallb is_text_line lines = true ->
  passes CRLFCRLF (join CRLF (l :: lines)).
Proof.
  revert l. induction lines as [|l2 lines IH]; intros l Hl Hall rest Hrest.
  - apply is_line_inv in Hl.
    apply (passes_line CRLF); [exact Hl|].
    exact (line_ends_prefix _ _ Hrest).
  - cbn [forallb] in Hall. apply andb_true_iff in Hall as [Hl2 Hall].
    apply is_line_inv in Hl.
    pose proof (is_text_line_inv _ Hl2) as [Hc2 Hne2].
    assert (Hl2' : is_line l2 = true).
    { unfold is_text_line in Hl2. now apply andb_true_iff in Hl2 as [? _]. }
    specialize (IH l2 Hl2' Hall rest Hrest).
    rewrite join_cons2, !append_assoc3.
    rewrite (passes_line CRLF) by (assumption || (right; eexists; reflexivity)).
    rewrite passes_line_break, IH, !glue_glue, ?append_assoc3;
      [reflexivity|].
    destruct lines as [|l3 lines].
    + cbn [join concat]. apply line_begins; try assumption.
      exact (line_ends_prefix _ _ Hrest).
    + rewrite join_cons2, append_assoc3.
      apply line_begins; try assumption. right. eexists. reflexivity.
Qed.

Lemma split_block_lines lines :
  lines <> [] -> forallb is_line lines = true ->
  split CRLF (join CRLF lines) = lines.
Proof.
  intros Hne Hall. apply split_join; [discriminate|exact Hne|].
  apply Forall_forall. intros l Hin rest Hrest.
  rewrite forallb_forall in Hall. apply Hall, is_line_inv in Hin.
  apply (passes_line ""); [exact Hin|].
  exact (line_ends_prefix _ _ Hrest).
Qed.

(** What [strip] takes away. *)

Lemma lstrip_app x y :
  visible x = true -> lstrip (x ++ y) = (lstrip x ++ y)%string.
Proof.
  induction x as [|c x IH]; [discriminate|]. intros H.
  cbn [append lstrip]. destruct (is_space c) eqn:Hc; [|reflexivity].
  apply IH. cbn [visible] in H. now rewrite Hc in H.
Qed.

Lemma rstrip_visible x : visible x = true -> rstrip x <> "".
Proof.
  induction x as [|c x IH]; [discriminate|]. intros H.
  cbn [rstrip]. destruct (rstrip x) eqn:E; [|discriminate].
  destruct (is_space c) eqn:Hc; [|discriminate].
  cbn [visible] in H. rewrite Hc in H. now apply IH in H.
Qed.

Lemma rstrip_app y x :
  visible x = true -> rstrip (y ++ x) = (y ++ rstrip x)%string.
Proof.
  intros H. induction y as [|c y IH]; [reflexivity|].
  cbn [append rstrip]. rewrite IH.
  destruct (y ++ rstrip x)%string eqn:E; [|reflexivity].
  destruct y; [|discriminate]. now apply rstrip_visible in E.
Qed.

Lemma lstrip_blank a s : visible a = false -> lstrip (a ++ s) = lstrip s.
Proof.
  induction a as [|c a IH]; [reflexivity|].
  cbn [visible append lstrip]. intros H.
  apply orb_false_iff in H as [Hc Ha]. apply negb_false_iff in Hc.
  rewrite Hc. now apply IH.
Qed.

Lemma rstrip_blank s b : visible b = false -> rstrip (s ++ b) = rstrip s.
Proof.
  intros Hb.
  assert (Eb : rstrip b = "").
  { induction b as [|c b IH]; [reflexivity|].
    cbn [visible] in Hb. apply orb_false_iff in Hb as [Hc Hb].
    apply negb_false_iff in Hc. cbn [rstrip]. now rewrite (IH Hb), Hc. }
  induction s as [|c s IH]; [exact Eb|].
  cbn [append rstrip]. now rewrite IH.
Qed.

Lemma visible_app x y : visible (x ++ y) = visible x || visible y.
Proof.
  induction x as [|c x IH]; [reflexivity|].
  cbn [append visible]. now rewrite IH, orb_assoc.
Qed.

Lemma visible_lstrip x : visible (lstrip x) = visible x.
Proof.
  induction x as [|c x IH]; [reflexivity|].
  cbn [lstrip]. destruct (is_space c) eqn:Hc; [|reflexivity].
  cbn [visible]. now rewrite Hc.
Qed.

Lemma visible_rstrip x : visible (rstrip x) = visible x.
Proof.
  induction x as [|c x IH]; [reflexivity|].
  cbn [rstrip visible]. rewrite <- IH.
  destruct (rstrip x) eqn:E.
  - destruct (is_space c) eqn:Hc; cbn [visible]; now rewrite ?Hc.
  - reflexivity.
Qed.

Lemma visible_nonempty x : visible x = true -> String.eqb x "" = false.
Proof. destruct x; [discriminate|reflexivity]. Qed.

Lemma mem_lstrip_none c x : mem c x = false -> mem c (lstrip x) = false.
Proof.
  induction x as [|d x IH]; [reflexivity|]. intros H.
  cbn [lstrip]. destruct (is_space d); [|exact H].
  cbn [mem] in H. apply orb_false_iff in H as [_ H]. auto.
Qed.

Lemma mem_rstrip_none c x : mem c x = false -> mem c (rstrip x) = false.
Proof.
  induction x as [|d x IH]; [reflexivity|]. intros H.
  cbn [mem] in H. apply orb_false_iff in H as [Hd H].
  specialize (IH H). cbn [rstrip].
  destruct (rstrip x); [destruct (is_space d)|]; cbn [mem] in *;
    now rewrite ?Hd, ?IH.
Qed.

(** [strip] puts no line terminator into a line. *)
Lemma is_line_lstrip s : is_line s = true -> is_line (lstrip s) = true.
Proof.
  unfold is_line. rewrite !negb_true_iff.
  induction s as [|c s IH]; [trivial|]. intros H.
  cbn [lstrip]. destruct (is_space c); [|exact H].
  cbn [contains] in H. apply orb_false_iff in H as [_ H]. auto.
Qed.

Lemma contains_cons sep c s :
  contains sep (String c s) = prefix sep (String c s) || contains sep s.
Proof. reflexivity. Qed.

Lemma rstrip_first x d r :
  rstrip x = String d r -> exists t, x = String d t.
Proof.
  destruct x as [|c x]; [discriminate|]. cbn [rstrip].
  destruct (rstrip x); [destruct (is_space c)|];
    intros H; inversion H; eauto.
Qed.

Lemma is_line_rstrip s : is_line s = true -> is_line (rstrip s) = true.
Proof.
  unfold is_line. rewrite !negb_true_iff.
  induction s as [|c s IH]; [trivial|]. intros H.
  cbn [contains] in H. apply orb_false_iff in H as [Hp H].
  specialize (IH H). cbn [rstrip].
  destruct (rstrip s) as [|d r] eqn:E.
  - destruct (is_space c); [reflexivity|].
    cbn [contains]. unfold CRLF. rewrite prefix_cons.
    cbn. now rewrite andb_false_r.
  - rewrite contains_cons, IH, orb_false_r.
    destruct (rstrip_first _ _ _ E) as [t ->].
    unfold CRLF in *. rewrite !prefix_cons in Hp |- *.
    now rewrite !prefix_empty in Hp |- *.
Qed.

Lemma is_text_line_rstrip s :
  visible s = true -> is_text_line s = true -> is_text_line (rstrip s) = true.
Proof.
  unfold is_text_line. intros Hv H. apply andb_true_iff in H as [Hl _].
  rewrite (is_line_rstrip _ Hl), visible_nonempty; [reflexivity|].
  now rewrite visible_rstrip.
Qed.

Lemma visible_join_last sep lines :
  visible (last lines "") = true -> visible (join sep lines) = true.
Proof.
  induction lines as [|l lines IH]; [discriminate|].
  destruct lines as [|l2 lines]; [trivial|].
  intros H. rewrite join_cons2, !visible_app.
  change (last (l :: l2 :: lines) "") with (last (l2 :: lines) "") in H.
  rewrite (IH H). now rewrite !orb_true_r.
Qed.

Lemma visible_join sep lines :
  visible sep = false -> visible (join sep lines) = existsb visible lines.
Proof.
  intros Hsep. induction lines as [|l lines IH]; [reflexivity|].
  destruct lines as [|l2 lines]; [cbn; now rewrite orb_false_r|].
  now rewrite join_cons2, !visible_app, Hsep, IH.
Qed.

Lemma lstrip_join sep l lines :
  visible l = true ->
  lstrip (join sep (l :: lines)) = join sep (lstrip l :: lines).
Proof.
  intros H. destruct lines as [|l2 lines]; [reflexivity|].
  now rewrite !join_cons2, lstrip_app.
Qed.

Lemma rstrip_join sep lines :
  visible (last lines "") = true ->
  rstrip (join sep lines) = join sep (map_last rstrip lines).
Proof.
  induction lines as [|l lines IH]; [discriminate|].
  destruct lines as [|l2 lines]; [reflexivity|].
  intros H.
  change (last (l :: l2 :: lines) "") with (last (l2 :: lines) "") in H.
  change (map_last rstrip (l :: l2 :: lines))
    with (l :: map_last rstrip (l2 :: lines)).
  rewrite join_cons2, <- append_assoc3, rstrip_app
    by now apply visible_join_last.
  rewrite (IH H), append_assoc3.
  destruct (map_last rstrip (l2 :: lines)) eqn:E; [|reflexivity].
  destruct lines; discriminate.
Qed.

(** Blank lines at the end of a block. *)

Lemma rstrip_lines_cons l lines :
  rstrip_lines (l :: lines)
  = match rstrip_lines lines with
    | [] => if visible l then [rstrip l] else []
    | x :: kept => l :: x :: kept
    end.
Proof. cbn [rstrip_lines]. now destruct (rstrip_lines lines). Qed.

Lemma rstrip_lines_kept lines :
  existsb visible lines = true -> rstrip_lines lines <> [].
Proof.
  induction lines as [|l lines IH]; [discriminate|].
  rewrite rstrip_lines_cons. cbn [existsb]. intros H.
  destruct (rstrip_lines lines); [|discriminate].
  destruct (visible l); [discriminate|]. now apply IH in H.
Qed.

Lemma rstrip_lines_blank lines :
  existsb visible lines = false -> rstrip_lines lines = [].
Proof.
  induction lines as [|l lines IH]; [reflexivity|].
  rewrite rstrip_lines_cons. cbn [existsb]. intros H.
  apply orb_false_iff in H as [Hl H]. now rewrite (IH H), Hl.
Qed.

Lemma rstrip_join_lines sep lines :
  visible sep = false -> existsb visible lines = true ->
  rstrip (join sep lines) = join sep (rstrip_lines lines).
Proof.
  intros Hsep. induction lines as [|l lines IH]; [discriminate|].
  intros H. rewrite rstrip_lines_cons.
  destruct (existsb visible lines) eqn:Hrest.
  - specialize (IH eq_refl).
    pose proof (rstrip_lines_kept _ Hrest) as Hne.
    destruct lines as [|l2 lines]; [discriminate Hrest|].
    rewrite join_cons2, <- append_assoc3, rstrip_app
      by (rewrite visible_join by exact Hsep; exact Hrest).
    rewrite IH, append_assoc3.
    destruct (rstrip_lines (l2 :: lines)); [congruence|reflexivity].
  - rewrite (rstrip_lines_blank _ Hrest).
    cbn [existsb] in H. rewrite Hrest, orb_false_r in H. rewrite H.
    destruct lines as [|l2 lines]; [reflexivity|].
    rewrite join_cons2. change (join sep [rstrip l]) with (rstrip l).
    apply rstrip_blank.
    rewrite visible_app, Hsep. cbn [orb].
    rewrite visible_join by exact Hsep. exact Hrest.
Qed.

Lemma forallb_rstrip_lines lines :
  forallb is_text_line lines = true ->
  forallb is_text_line (rstrip_lines lines) = true.
Proof.
  induction lines as [|l lines IH]; [trivial|].
  cbn [forallb]. intros H. apply andb_true_iff in H as [Hl H].
  rewrite rstrip_lines_cons. specialize (IH H).
  destruct (rstrip_lines lines) as [|x kept].
  - destruct (visible l) eqn:Hv; [|reflexivity].
    cbn [forallb]. now rewrite (is_text_line_rstrip _ Hv Hl).
  - cbn [forallb] in *. now rewrite Hl, IH.
Qed.

(** Lists and their last element. *)

Lemma last_cons {A} (y : A) l x : last (y :: l) x = last l y.
Proof.
  revert x y. induction l as [|z l IH]; intros x y; [reflexivity|].
  change (last (y :: z :: l) x) with (last (z :: l) x). now rewrite !IH.
Qed.

Lemma map_last_map {A B} (g : A -> B) (f : B -> B) (h : A -> A) x l :
  f (g (last l x)) = g (h (last l x)) ->
  map_last f (map g (x :: l)) = map g (map_last h (x :: l)).
Proof.
  revert x. induction l as [|y l IH]; intros x H.
  - cbn in *. now rewrite H.
  - rewrite last_cons in H.
    change (map_last h (x :: y :: l)) with (x :: map_last h (y :: l)).
    cbn [map]. cbn [map] in IH.
    change (map_last f (g x :: g y :: map g l))
      with (g x :: map_last f (g y :: map g l)).
    now rewrite (IH y H).
Qed.

Lemma last_map {A B} (g : A -> B) x l d :
  last (map g (x :: l)) d = g (last l x).
Proof.
  revert x. induction l as [|y l IH]; intros x; [reflexivity|].
  rewrite last_cons, <- IH. reflexivity.
Qed.

Lemma forallb_map_last {A} (p : A -> bool) h x l :
  forallb p (x :: l) = true -> p (h (last l x)) = true ->
  forallb p (map_last h (x :: l)) = true.
Proof.
  revert x. induction l as [|y l IH]; intros x H Hlast.
  - cbn in *. now rewrite Hlast.
  - rewrite last_cons in Hlast.
    change (map_last h (x :: y :: l)) with (x :: map_last h (y :: l)).
    cbn [forallb] in H |- *. apply andb_true_iff in H as [Hx H].
    now rewrite Hx, (IH y H Hlast).
Qed.

Lemma map_last_timing l :
  map block_timing (map_last rstrip_text l) = map block_timing l.
Proof.
  induction l as [|x [|y l] IH]; [reflexivity|reflexivity|].
  change (map_last rstrip_text (x :: y :: l))
    with (x :: map_last rstrip_text (y :: l)).
  cbn [map] in *. now rewrite IH.
Qed.

Lemma prefix_mem c p s :
  prefix p s = true -> mem c p = true -> mem c s = true.
Proof.
  revert s; induction p as [|a p IH]; intros s Hp Hc; [discriminate|].
  destruct s as [|b s]; [discriminate|].
  rewrite prefix_cons in Hp. apply andb_true_iff in Hp as [Hab Hp].
  apply Ascii.eqb_eq in Hab. subst b. cbn [mem] in *.
  apply orb_true_iff in Hc as [->|Hc]; [reflexivity|].
  rewrite (IH _ Hp Hc). apply orb_true_r.
Qed.

Lemma contains_mem c p s :
  contains p s = true -> mem c p = true -> mem c s = true.
Proof.
  intros Hs Hc. induction s as [|b s IH].
  - cbn [contains] in Hs. rewrite orb_false_r in Hs.
    now apply (prefix_mem c p).
  - cbn [contains] in Hs. apply orb_true_iff in Hs as [Hs|Hs].
    + now apply (prefix_mem c p).
    + cbn [mem]. rewrite (IH Hs). apply orb_true_r.
Qed.

Lemma upper_char_hyphen d : upper_char d = "-"%char -> d = "-"%char.
Proof.
  destruct d as [[] [] [] [] [] [] [] []]; vm_compute; congruence.
Qed.

Lemma well_formed_as_stated_inv b :
  well_formed_as_stated b = true ->
  is_line (block_index b) = true /\ is_line (block_timing b) = true
  /\ contains ARROW (block_timing b) = true
  /\ block_text b <> [] /\ forallb is_text_line (block_text b) = true.
Proof.
  unfold well_formed_as_stated. intros H.
  apply andb_true_iff in H as [H Ht]. apply andb_true_iff in H as [H Hne].
  apply andb_true_iff in H as [H Hc]. apply andb_true_iff in H as [Hi Htm].
  repeat split; try assumption.
  destruct (block_text b); [discriminate Hne|discriminate].
Qed.

Lemma text_lines_are_lines lines :
  forallb is_text_line lines = true -> forallb is_line lines = true.
Proof.
  induction lines as [|l lines IH]; [trivial|].
  cbn [forallb]. intros H. apply andb_true_iff in H as [Hl H].
  unfold is_text_line in Hl. apply andb_true_iff in Hl as [Hl _].
  now rewrite Hl, IH.
Qed.

(** A block as stated, standing alone, yields its record, or none when
    its timing line holds the separator more than once. *)
Lemma caption_records_block b :
  well_formed_as_stated b = true ->
  caption_records (render_block b) = block_record b.
Proof.
  intros H.
  apply well_formed_as_stated_inv in H as (Hi & Htm & Harrow & Htext & Ht).
  unfold caption_records, caption_step, block_record, timing_parts.
  assert (Hm : mem "-" (render_block b) = true).
  { unfold render_block. destruct (block_text b) as [|t ts]; [congruence|].
    rewrite join_cons2, join_cons2, !mem_app.
    rewrite (contains_mem "-" ARROW _ Harrow eq_refl).
    now rewrite !orb_true_r. }
  rewrite (eqb_mem_differs "-" _ "WEBVTT"); [| |reflexivity].
  2:{ rewrite mem_upper; [|reflexivity|exact upper_char_hyphen].
      unfold strip. auto using mem_rstrip, mem_lstrip. }
  unfold render_block. rewrite split_block_lines.
  2: discriminate.
  2:{ cbn [forallb]. now rewrite Hi, Htm, (text_lines_are_lines _ Ht). }
  destruct (block_text b) as [|t ts]; [congruence|].
  cbn [List.length Nat.leb nth skipn].
  destruct (find_contains _ _ Harrow) as [i Hi'].
  rewrite Hi'.
  destruct (contains ARROW (drop (i + length ARROW) (block_timing b)))
    eqn:Hrest.
  - rewrite (split_at_first ARROW _ i) by (discriminate || assumption).
    destruct (split_contains ARROW _ ltac:(discriminate) Hrest)
      as (x & y & rest & ->).
    reflexivity.
  - now rewrite (split_single ARROW _ i) by (discriminate || assumption).
Qed.

Lemma as_stated_lstrip_index b :
  well_formed_as_stated b = true ->
  well_formed_as_stated (lstrip_index b) = true.
Proof.
  intros H. apply well_formed_as_stated_inv in H as (Hi & Htm & Hc & Hne & Ht).
  unfold well_formed_as_stated, lstrip_index.
  cbn [block_index block_timing block_text].
  rewrite (is_line_lstrip _ Hi), Htm, Hc, Ht.
  destruct (block_text b); [congruence|reflexivity].
Qed.

Lemma as_stated_rstrip_text b :
  existsb visible (block_text b) = true ->
  well_formed_as_stated b = true ->
  well_formed_as_stated (rstrip_text b) = true.
Proof.
  intros Hv H.
  apply well_formed_as_stated_inv in H as (Hi & Htm & Hc & Hne & Ht).
  unfold well_formed_as_stated, rstrip_text.
  cbn [block_index block_timing block_text].
  rewrite Hi, Htm, Hc, (forallb_rstrip_lines _ Ht).
  pose proof (rstrip_lines_kept _ Hv).
  destruct (rstrip_lines (block_text b)); [congruence|reflexivity].
Qed.

Lemma render_lstrip_index b :
  visible (block_index b) = true ->
  lstrip (render_block b) = render_block (lstrip_index b).
Proof. intros Hv. unfold render_block. now rewrite lstrip_join. Qed.

Lemma render_rstrip_text b :
  existsb visible (block_text b) = true ->
  rstrip (render_block b) = render_block (rstrip_text b).
Proof.
  intros Hv. unfold render_block.
  rewrite (rstrip_join_lines CRLF);
    [|reflexivity|cbn [existsb]; now rewrite Hv, !orb_true_r].
  rewrite !rstrip_lines_cons.
  pose proof (rstrip_lines_kept _ Hv) as Hne.
  cbn [rstrip_text block_index block_timing block_text].
  destruct (rstrip_lines (block_text b)); [congruence|reflexivity].
Qed.

Lemma render_block_visible b :
  visible (block_index b) = true \/ existsb visible (block_text b) = true ->
  visible (render_block b) = true.
Proof.
  intros H. unfold render_block.
  rewrite (visible_join CRLF) by reflexivity. cbn [existsb].
  destruct H as [-> | ->]; [reflexivity|now rewrite !orb_true_r].
Qed.

(** [strip] on a rendered sequence of blocks. *)
Lemma strip_render blocks :
  forallb well_formed_as_stated blocks = true ->
  begins_visible blocks = true -> ends_visible blocks = true ->
  strip (render blocks) = render (strip_blocks blocks)
  /\ forallb well_formed_as_stated (strip_blocks blocks) = true
  /\ map block_timing (strip_blocks blocks) = map block_timing blocks.
Proof.
  intros Hall Hbegin Hend. destruct blocks as [|b blocks]; [now repeat split|].
  cbn [begins_visible ends_visible] in Hbegin, Hend.
  cbn [forallb] in Hall. apply andb_true_iff in Hall as [Hb Hbs].
  assert (Hall1 : forallb well_formed_as_stated (lstrip_index b :: blocks)
                  = true).
  { cbn [forallb]. now rewrite (as_stated_lstrip_index _ Hb), Hbs. }
  assert (Hlast : block_text (last blocks (lstrip_index b))
                  = block_text (last blocks b)).
  { destruct blocks as [|b2 blocks]; [reflexivity|now rewrite !last_cons]. }
  rewrite <- Hlast in Hend.
  unfold strip_blocks, strip, render. cbn [map_head map].
  rewrite lstrip_join by (apply render_block_visible; now left).
  rewrite (render_lstrip_index _ Hbegin).
  change (render_block (lstrip_index b) :: map render_block blocks)
    with (map render_block (lstrip_index b :: blocks)).
  repeat split.
  - rewrite rstrip_join.
    + now rewrite (map_last_map render_block rstrip rstrip_text _ _
                     (render_rstrip_text _ Hend)).
    + rewrite last_map. apply render_block_visible. now right.
  - apply forallb_map_last; [exact Hall1|].
    apply as_stated_rstrip_text; [exact Hend|].
    destruct blocks as [|b2 blocks]; [now apply as_stated_lstrip_index|].
    rewrite last_cons. rewrite forallb_forall in Hbs. apply Hbs.
    clear. revert b2. induction blocks as [|b3 blocks IH]; intros b2.
    * now left.
    * rewrite last_cons. right. apply IH.
  - now rewrite map_last_timing.
Qed.

Lemma split_rendered blocks :
  blocks <> [] -> forallb well_formed_as_stated blocks = true ->
  split CRLFCRLF (render blocks) = map render_block blocks.
Proof.
  intros Hne Hall. unfold render. apply split_join.
  - discriminate.
  - destruct blocks; [congruence|discriminate].
  - apply Forall_forall. intros r Hr.
    apply in_map_iff in Hr as (b & <- & Hb).
    rewrite forallb_forall in Hall.
    apply Hall, well_formed_as_stated_inv in Hb
      as (Hi & Htm & Hc & Hne' & Ht).
    unfold render_block. apply passes_block; [exact Hi|].
    cbn [forallb]. rewrite Ht, andb_true_r.
    unfold is_text_line. rewrite Htm. cbn [andb].
    destruct (block_timing b); [discriminate Hc|reflexivity].
Qed.

Lemma flat_map_records blocks :
  forallb well_formed_as_stated blocks = true ->
  flat_map caption_records (map render_block blocks)
  = flat_map block_record blocks.
Proof.
  induction blocks as [|b blocks IH]; [reflexivity|]. intros H.
  cbn [forallb] in H. apply andb_true_iff in H as [Hb Hbs].
  cbn [map flat_map]. now rewrite (caption_records_block _ Hb), (IH Hbs).
Qed.

(** The records are those of the timing lines that hold the separator
    once, in their order. *)
Lemma block_record_parts blocks :
  map (fun r => Some (start r, end_ r)) (flat_map block_record blocks)
  = map timing_parts (filter single_arrow (map block_timing blocks)).
Proof.
  induction blocks as [|b blocks IH]; [reflexivity|].
  cbn [map flat_map filter]. rewrite map_app, IH.
  unfold block_record, single_arrow.
  destruct (timing_parts (block_timing b)) as [[s e]|] eqn:E;
    [|reflexivity].
  destruct (contains ARROW e); cbn [negb map app]; [reflexivity|].
  now rewrite E.
Qed.

Lemma filter_all {A} (p : A -> bool) l :
  forallb p l = true -> filter p l = l.
Proof.
  induction l as [|x l IH]; [reflexivity|].
  cbn [forallb filter]. intros H. apply andb_true_iff in H as [Hx H].
  now rewrite Hx, (IH H).
Qed.

End Blocks.

(** C3 (amended). A caption text made of N blocks, each an index line,
    a timing line in which the separator occurs, and one or more text
    lines that are not empty, no line holding a line terminator, the
    blocks separated by the blank-line delimiter, the first index line
    not blank and the last block with a text line that is not blank,
    parses to the records of those blocks whose timing line holds the
    separator exactly once, in the order of the blocks; a block whose
    timing line splits into more than two parts yields no record.  The
    start and end of each record are the parts of its timing line before
    and after the separator.  So N blocks with one separator each parse
    to N records.  (The records are those of the blocks once [strip] has
    removed the blanks around the whole text.) *)
Theorem C3_well_formed_blocks (blocks : list Block) :
  forallb well_formed_as_stated blocks = true ->
  begins_visible blocks = true ->
  ends_visible blocks = true ->
  exists records,
    webvtt_to_json (render blocks) = Ret records
    /\ records = flat_map block_record (strip_blocks blocks)
    /\ map (fun r => Some (start r, end_ r)) records
       = map timing_parts (filter single_arrow (map block_timing blocks))
    /\ (forall timing,
          single_arrow timing
          = (List.length (split ARROW timing) =? 2)%nat)
    /\ (forallb well_formed blocks = true ->
        List.length records = List.length blocks
        /\ map (fun r => Some (start r, end_ r)) records
           = map (fun b => timing_parts (block_timing b)) blocks).
Proof.
  intros Hall Hbegin Hend.
  destruct (strip_render blocks Hall Hbegin Hend) as (Hstrip & Hwf & Htim).
  assert (Hparts := block_record_parts (strip_blocks blocks)).
  rewrite Htim in Hparts.
  exists (flat_map block_record (strip_blocks blocks)).
  assert (Hparse : webvtt_to_json (render blocks)
                   = Ret (flat_map block_record (strip_blocks blocks))).
  { unfold webvtt_to_json. rewrite Hstrip.
    destruct (strip_blocks blocks) as [|b0 stripped] eqn:Es;
      [reflexivity|].
    rewrite (split_rendered (b0 :: stripped) ltac:(discriminate) Hwf).
    rewrite captions_loop_records. now rewrite (flat_map_records _ Hwf). }
  split; [exact Hparse|]. split; [reflexivity|]. split; [exact Hparts|].
  split; [exact single_arrow_two_parts|].
  intros Hsingle.
  assert (Hfilter : filter single_arrow (map block_timing blocks)
                    = map block_timing blocks).
  { apply filter_all. rewrite forallb_forall in Hsingle |- *.
    intros t Ht. apply in_map_iff in Ht as (b & <- & Hb).
    specialize (Hsingle b Hb). unfold well_formed in Hsingle.
    now apply andb_true_iff in Hsingle as [_ ?]. }
  rewrite Hfilter, map_map in Hparts. split; [|exact Hparts].
  rewrite <- (length_map (fun r => Some (start r, end_ r))), Hparts.
  apply length_map.
Qed.

(** C3, as stated, fails.  A block whose timing line holds the separator
    twice is well formed in the stated sense and splits at the first
    occurrence into two parts, but the parser yields no record for it.
    Nor does it for a first block whose index line is blank, or for a
    last block whose text is blank: [strip] takes these lines away, and
    fewer than three are left. *)
Lemma C3_counterexample_blocks_without_record :
  (forallb well_formed_as_stated [twice_arrow_block] = true
   /\ timing_parts (block_timing twice_arrow_block)
      = Some ("00:00:01.000", "00:00:02.000 --> 00:00:03.000")
   /\ webvtt_to_json (render [twice_arrow_block]) = Ret [])
  /\ (forallb well_formed [blank_index_block] = true
      /\ webvtt_to_json (render [blank_index_block]) = Ret [])
  /\ (forallb well_formed [blank_text_block] = true
      /\ webvtt_to_json (render [blank_text_block]) = Ret []).
Proof.
  repeat split; vm_compute; reflexivity.
Qed.

Lemma C3_witness :
  (exists records,
      webvtt_to_json (render sample_blocks) = Ret records
      /\ records
         = [mkCaption "7" "00:01" "00:02" "first   cue";
            mkCaption "" "00:02" "00:03" "second";
            mkCaption "9" "00:03" "00:04" "third"])
  /\ (exists records,
        webvtt_to_json (render single_blocks) = Ret records
        /\ List.length records = List.length single_blocks
        /\ map (fun r => Some (start r, end_ r)) records
           = [Some ("00:01", "00:02"); Some ("00:02", "00:03")]).
Proof.
  split.
  - destruct (C3_well_formed_blocks sample_blocks eq_refl eq_refl eq_refl)
      as (records & Hparse & Hrecords & _).
    exists records. split; [exact Hparse|].
    rewrite Hrecords. vm_compute. reflexivity.
  - destruct (C3_well_formed_blocks single_blocks eq_refl eq_refl eq_refl)
      as (records & Hparse & _ & _ & _ & Hsingle).
    destruct (Hsingle eq_refl) as [Hlength Hparts].
    exists records. split; [exact Hparse|]. split; [exact Hlength|].
    rewrite Hparts. vm_compute. reflexivity.
Defined.

Lemma C5_witness :
  malformed (nth 1 skipped_sample "") = true
  /\ webvtt_to_json (join CRLFCRLF skipped_sample)
     = captions_loop [nth 0 skipped_sample ""; nth 2 skipped_sample ""] [].
Proof.
  split; [reflexivity|].
  apply (proj2 (proj2 (C5_parser_total_skips_malformed
                         (join CRLFCRLF skipped_sample)))
           [nth 0 skipped_sample ""] (nth 1 skipped_sample "")
           [nth 2 skipped_sample ""]);
    reflexivity.
Defined.

(** ** The token provider *)

Ltac run :=
  unfold bind, ret, raise, lift, try_except, get_oauth, set_oauth,
    set_access_token, set_token_expiry, datetime_now, get_config,
    config_get_1, headers_get_access_key, record in *;
  cbn [fst snd oauth history access_token token_expiry config] in *.

Lemma token_is_valid_result env st :
  exists valid st0,
    token_is_valid env st = (Ret valid, st0)
    /\ oauth st0 = oauth st
    /\ (history st0 = history st \/ history st0 = EvNow :: history st)
    /\ token_posts (history st0) = token_posts (history st).
Proof.
  unfold token_is_valid. run.
  destruct (py_truthy (access_token (oauth st))); [|eauto 10].
  destruct (token_expiry (oauth st)); eauto 10.
Qed.

(** A valid cached token is returned after one reading of the clock. *)
Lemma get_access_token_valid env st expiry :
  py_truthy (access_token (oauth st)) = true ->
  token_expiry (oauth st) = Some expiry ->
  (clock env (history st) < expiry)%Z ->
  get_access_token env st = (Ret (access_token (oauth st)), record EvNow st).
Proof.
  intros Htok Hexp Hnow. unfold get_access_token, token_is_valid. run.
  rewrite Htok, Hexp. apply Z.ltb_lt in Hnow. now rewrite Hnow.
Qed.


Lemma token_posts_cons ev h :
  token_posts (ev :: h)
  = if is_token_post ev then S (token_posts h) else token_posts h.
Proof. unfold token_posts. cbn [filter]. now destruct (is_token_post ev). Qed.

(** Whatever the answer, the exchange sends exactly one token request;
    when it returns, the cache holds the token returned and an expiry. *)
Lemma request_token_sends env config st :
  exists r st',
    request_token env config st = (r, st')
    /\ token_posts (history st') = S (token_posts (history st))
    /\ In (EvSend (token_request config)) (history st')
    /\ forall token, r = Ret token ->
         access_token (oauth st') = token
         /\ exists expiry, token_expiry (oauth st') = Some expiry.
Proof.
  assert (Hsent : forall (r : Res json) o h,
             h = EvSend (token_request config) :: history st
             \/ h = EvNow :: EvSend (token_request config) :: history st ->
             (forall token, r = Ret token ->
                  access_token o = token
                  /\ exists expiry, token_expiry o = Some expiry) ->
             exists r' st',
               (r, mkState o h) = (r', st')
               /\ token_posts (history st') = S (token_posts (history st))
               /\ In (EvSend (token_request config)) (history st')
               /\ forall token, r' = Ret token ->
                    access_token (oauth st') = token
                    /\ exists expiry, token_expiry (oauth st') = Some expiry).
  { intros r o h Hh Hr. exists r, (mkState o h). cbn [history oauth].
    split; [reflexivity|]. split; [|split; [|exact Hr]].
    - destruct Hh as [-> | ->]; now rewrite !token_posts_cons.
    - destruct Hh as [-> | ->]; cbn; tauto. }
  unfold request_token, send, raise_for_status, response_json. run.
  destruct (network env (history st) (token_request config)) as [response|msg];
    [|apply Hsent; [now left|discriminate]].
  destruct ((400 <=? status_code response)%Z && (status_code response <? 600)%Z).
  { destruct (status_code response =? 400)%Z;
      (apply Hsent; [now left|discriminate]). }
  destruct (body_json response) as [token_data|];
    [|apply Hsent; [now left|discriminate]].
  destruct (py_getitem token_data "access_token") as [token|e].
  2:{ destruct e; try destruct (status_code response0 =? 400)%Z;
        (apply Hsent; [now left|discriminate]). }
  destruct (py_getitem token_data "expires_in") as [expires_in|e].
  2:{ destruct e; try destruct (status_code response0 =? 400)%Z;
        (apply Hsent; [now right|discriminate]). }
  destruct (timedelta_seconds expires_in) as [delta|e].
  2:{ destruct e; try destruct (status_code response0 =? 400)%Z;
        (apply Hsent; [now right|discriminate]). }
  destruct (datetime_add _ delta) as [expiry|e].
  2:{ destruct e; try destruct (status_code response0 =? 400)%Z;
        (apply Hsent; [now right|discriminate]). }
  apply Hsent; [now right|].
  intros token' H. inversion H. cbn. eauto.
Qed.

Lemma request_token_granted env cfg st response items token n :
  network env (history st) (token_request cfg) = Answer response ->
  passes_status response = true ->
  body_json response = Some (JDict items) ->
  assoc "access_token" items = Some token ->
  assoc "expires_in" items = Some (JInt n) ->
  timedelta_in_range n = true ->
  datetime_in_range (clock env (EvSend (token_request cfg) :: history st)
                     + n * 1000000) = true ->
  request_token env cfg st
  = (Ret token,
     mkState
       (mkOAuth (config (oauth st)) token
          (Some (clock env (EvSend (token_request cfg) :: history st)
                 + n * 1000000)%Z))
       (EvNow :: EvSend (token_request cfg) :: history st)).
Proof.
  intros Hnet Hstatus Hbody Htok Hexp Hdelta Hdate.
  unfold passes_status in Hstatus. apply negb_true_iff in Hstatus.
  unfold request_token, send, raise_for_status, response_json. run.
  rewrite Hnet, Hstatus, Hbody. cbn [py_getitem].
  rewrite Htok, Hexp. unfold timedelta_seconds, datetime_add.
  rewrite Hdelta. cbn [history]. now rewrite Hdate.
Qed.

(** C6 (amended). After a call that exchanged the credentials for a
    token that is not empty, a call made while the clock is before the
    recorded expiry returns the same token and sends nothing: one token
    request for the two calls.  A call made at or after the expiry, the
    configuration row being present, sends a new token request; when that
    request is granted a token for a lifetime that [timedelta] and the
    date arithmetic can hold, the token and the expiry it leads to
    replace the cached ones. *)
Theorem C6_one_exchange_per_validity_window
  (env : Env) (st st1 : State) (token : json) :
  fst (token_is_valid env st) = Ret false ->
  get_access_token env st = (Ret token, st1) ->
  py_truthy token = true ->
  token_posts (history st1) = S (token_posts (history st))
  /\ exists expiry,
       token_expiry (oauth st1) = Some expiry
       /\ ((clock env (history st1) < expiry)%Z ->
             get_access_token env st1 = (Ret token, record EvNow st1)
             /\ token_posts (history (record EvNow st1))
                = S (token_posts (history st)))
       /\ ((expiry <= clock env (history st1))%Z ->
           forall config,
             query_first env (EvNow :: history st1) = Some config ->
             (exists r st2,
                 get_access_token env st1 = (r, st2)
                 /\ token_posts (history st2) = S (token_posts (history st1))
                 /\ In (EvSend (token_request config)) (history st2))
             /\ forall response items token' n,
                 let issued :=
                   clock env (EvSend (token_request config)
                              :: EvQueryFirst :: EvNow :: history st1) in
                 network env (EvQueryFirst :: EvNow :: history st1)
                   (token_request config) = Answer response ->
                 passes_status response = true ->
                 body_json response = Some (JDict items) ->
                 assoc "access_token" items = Some token' ->
                 assoc "expires_in" items = Some (JInt n) ->
                 timedelta_in_range n = true ->
                 datetime_in_range (issued + n * 1000000) = true ->
                 exists st2,
                   get_access_token env st1 = (Ret token', st2)
                   /\ access_token (oauth st2) = token'
                   /\ token_expiry (oauth st2)
                      = Some (issued + n * 1000000)%Z).
Proof.
  intros Hinvalid Hcall Htruthy.
  (* the first call went through the exchange *)
  destruct (token_is_valid_result env st) as (valid & st0 & E & Ho & _ & Hp).
  rewrite E in Hinvalid. cbn [fst] in Hinvalid. inversion Hinvalid; subst valid.
  unfold get_access_token in Hcall. unfold bind at 1 in Hcall.
  rewrite E in Hcall. unfold bind, get_config in Hcall.
  destruct (query_first env (history st0)) as [config|]; [|discriminate Hcall].
  destruct (request_token_sends env config (record EvQueryFirst st0))
    as (r & st' & Ereq & Hposts & _ & Hcache).
  rewrite Ereq in Hcall. inversion Hcall; subst r st'. clear Hcall.
  destruct (Hcache token eq_refl) as (Htoken & expiry & Hexpiry).
  assert (Hone : token_posts (history st1) = S (token_posts (history st))).
  { rewrite Hposts. unfold record. cbn [history].
    now rewrite token_posts_cons, Hp. }
  split; [exact Hone|]. exists expiry. split; [exact Hexpiry|]. split.
  - intros Hnow.
    rewrite (get_access_token_valid env st1 expiry), Htoken;
      [|now rewrite Htoken|exact Hexpiry|exact Hnow].
    split; [reflexivity|]. unfold record. cbn [history].
    now rewrite token_posts_cons.
  - intros Hnow config' Hconfig.
    assert (Estep : get_access_token env st1
                    = request_token env config'
                        (record EvQueryFirst (record EvNow st1))).
    { unfold get_access_token, token_is_valid. run.
      rewrite Htoken, Htruthy, Hexpiry.
      apply Z.ltb_ge in Hnow. rewrite Hnow.
      cbn [history oauth]. now rewrite Hconfig. }
    rewrite Estep. split.
    + destruct (request_token_sends env config'
                  (record EvQueryFirst (record EvNow st1)))
        as (r & st2 & -> & Hposts2 & Hin & _).
      exists r, st2. repeat split; [|exact Hin].
      rewrite Hposts2. unfold record. cbn [history].
      now rewrite !token_posts_cons.
    + intros response items token' n issued Hnet Hstatus Hbody Htok Hexp
        Hdelta Hdate.
      eexists. split; [|split].
      * now apply (request_token_granted env config' _ response items token' n).
      * reflexivity.
      * reflexivity.
Qed.

(** C6, as stated, fails in three ways.  A granted token that is empty
    counts as no token: the second call, made before the expiry, sends a
    second token request.  Without the configuration row, a call made
    after the expiry sends no request and raises, and the cache is as it
    was.  A token granted for a lifetime that [timedelta] cannot hold
    replaces the cached token, but the cached expiry stays. *)
Lemma C6_counterexample_cache_preconditions :
  (let st1 := snd (get_access_token empty_token_env new_client) in
   get_access_token empty_token_env new_client = (Ret (JStr ""), st1)
   /\ token_expiry (oauth st1) = Some 3599000000%Z
   /\ clock empty_token_env (history st1) = 0%Z
   /\ token_posts (history st1) = 1
   /\ token_posts (history (snd (get_access_token empty_token_env st1))) = 2)
  /\ (let st1 := snd (get_access_token deconfigured_env new_client) in
      let st2 := snd (get_access_token deconfigured_env st1) in
      get_access_token deconfigured_env new_client = (Ret (JStr "token-1"), st1)
      /\ token_expiry (oauth st1) = Some 3599000000%Z
      /\ clock deconfigured_env (history st1) = 4000000000%Z
      /\ fst (get_access_token deconfigured_env st1)
         = Raise (ValueError
                    "Zoom client configuration not found in the database")
      /\ token_posts (history st2) = 1
      /\ oauth st2 = oauth st1)
  /\ (let st1 := snd (get_access_token overflowing_env new_client) in
      let st2 := snd (get_access_token overflowing_env st1) in
      get_access_token overflowing_env new_client = (Ret (JStr "token-1"), st1)
      /\ token_expiry (oauth st1) = Some 3599000000%Z
      /\ clock overflowing_env (history st1) = 4000000000%Z
      /\ fst (get_access_token overflowing_env st1)
         = Raise (OverflowError "Python int too large to convert to C int")
      /\ token_posts (history st2) = 2
      /\ access_token (oauth st2) = JStr "token-2"
      /\ token_expiry (oauth st2) = Some 3599000000%Z).
Proof. repeat split; vm_compute; reflexivity. Qed.


Lemma C6_witness :
  let env := reports_env not_found in
  let st1 := snd (get_access_token env new_client) in
  let st1' := snd (get_access_token expiring_env new_client) in
  (get_access_token env st1 = (Ret (JStr "token-1"), record EvNow st1)
   /\ token_posts (history (record EvNow st1)) = 1)
  /\ exists st2,
       get_access_token expiring_env st1' = (Ret (JStr "token-2"), st2)
       /\ access_token (oauth st2) = JStr "token-2"
       /\ token_expiry (oauth st2) = Some 7599000000%Z.
Proof.
  intros env st1 st1'. split.
  - destruct (C6_one_exchange_per_validity_window env new_client st1
                (JStr "token-1") eq_refl eq_refl eq_refl)
      as (_ & expiry & Hexpiry & Hbefore & _).
    apply Hbefore. vm_compute in Hexpiry. inversion Hexpiry.
    vm_compute. reflexivity.
  - destruct (C6_one_exchange_per_validity_window expiring_env new_client
                st1' (JStr "token-1") eq_refl eq_refl eq_refl)
      as (_ & expiry & Hexpiry & _ & Hafter).
    assert (Hnow : (expiry <= clock expiring_env (history st1'))%Z).
    { vm_compute in Hexpiry. inversion Hexpiry. vm_compute. discriminate. }
    destruct (Hafter Hnow sample_config eq_refl) as [_ Hgranted].
    apply (Hgranted
             (mkResponse 200 "" (Some (granted "token-2")) "HTTP error")
             [("access_token", JStr "token-2"); ("expires_in", JInt 3599)]
             (JStr "token-2") 3599%Z);
      reflexivity.
Defined.

(** ** The exposed operations *)

Lemma returned_of_payload_or_failure outcome :
  payload_or_failure (fst (returned_of outcome)).
Proof.
  destruct outcome as [[v|e] st]; cbn; [left|right]; eexists; reflexivity.
Qed.

(** C9 (amended). Each of the four exposed operations returns what its
    [try] block returns, as a payload; when an error leaves that block,
    an error that nothing inside has handled, the operation returns the
    pair of the failure payload [{error: "Internal Server Error",
    message: str(e)}] and the status code 500.  So every operation hands
    back a payload or that pair, and no error leaves it. *)
Theorem C9_payload_or_failure_with_status
  (env : Env) (id : string) (course_id : option string) (h : list Event) :
  let failure (e : Exc) :=
    PayloadStatus
      (JDict [("error", JStr "Internal Server Error");
              ("message", JStr (exc_str e))])
      500 in
  let answers (body : M json) (returned : Returned * list Event) :=
    (forall v st, body (mkState no_client h) = (Ret v, st) ->
                  returned = (Payload v, history st))
    /\ (forall e st, body (mkState no_client h) = (Raise e, st) ->
                     returned = (failure e, history st)) in
  answers (meeting_recordings_body env id) (get_meeting_recordings env id h)
  /\ answers (meeting_transcript_body env id) (get_meeting_transcript env id h)
  /\ answers (instructor_recordings_body env id course_id)
       (get_instructor_recordings env id course_id h)
  /\ answers (recording_transcript_body env id)
       (get_recording_transcript env id h)
  /\ payload_or_failure (fst (get_meeting_recordings env id h))
  /\ payload_or_failure (fst (get_meeting_transcript env id h))
  /\ payload_or_failure (fst (get_instructor_recordings env id course_id h))
  /\ payload_or_failure (fst (get_recording_transcript env id h)).
Proof.
  intros failure answers.
  assert (H : forall body, answers body (exposed body h)).
  { intros body. unfold answers, exposed.
    split; intros r st ->; reflexivity. }
  repeat split;
    first [ apply returned_of_payload_or_failure
          | now apply (proj1 (H _)) | now apply (proj2 (H _)) ].
Qed.

(** C9, as stated, fails: without a configuration row the value that
    [get_meeting_recordings] returns carries the status code 500. *)
Lemma C9_counterexample_status_code :
  fst (get_meeting_recordings unconfigured_env "m-1" [])
  = PayloadStatus
      (JDict [("error", JStr "Internal Server Error");
              ("message", JStr "Zoom client configuration not found")])
      500.
Proof. vm_compute. reflexivity. Qed.

(** ** Scanning the windows *)

Section Scan.

Variable env : Env.

Lemma bind_run {A B} (c : M A) (k : A -> M B) st r st' :
  c st = (r, st') ->
  bind c k st = match r with
                | Ret a => k a st'
                | Raise e => (Raise e, st')
                end.
Proof. unfold bind. now intros ->. Qed.

Lemma try_except_run {A} (c : M A) handler st r st' :
  c st = (r, st') ->
  try_except c handler st = match r with
                            | Ret a => (Ret a, st')
                            | Raise e => handler e st'
                            end.
Proof. unfold try_except. now intros ->. Qed.

Lemma fetch_window_raises user current_date all_recordings st e st' :
  _make_request env "GET" ("users/" ++ user ++ "/recordings")
    (window_params current_date) st = (Raise e, st') ->
  fetch_window env user current_date all_recordings st = (Raise e, st').
Proof.
  intros H. unfold fetch_window.
  now rewrite (bind_run _ _ _ _ _ H).
Qed.


Lemma window_loop_out_of_range fuel instructor_id current_date
  all_recordings st :
  (current_date < start_date)%Z ->
  window_loop env fuel instructor_id current_date all_recordings st
  = (Ret (inl all_recordings), st).
Proof.
  intros H. apply Z.leb_gt in H.
  destruct fuel; cbn [window_loop]; now rewrite H.
Qed.


Lemma thirty_days_positive : (0 < timedelta_days 30)%Z.
Proof. reflexivity. Qed.

(** [k + m] windows are [k] windows followed by [m] more. *)
Lemma window_loop_split k m instructor_id current_date all_recordings st :
  window_loop env (k + m) instructor_id current_date all_recordings st
  = match window_loop env k instructor_id current_date all_recordings st with
    | (Ret (inl all_recordings'), st') =>
        window_loop env m instructor_id
          (current_date - Z.of_nat k * timedelta_days 30)%Z
          all_recordings' st'
    | outcome => outcome
    end.
Proof.
  pose proof thirty_days_positive as Hpos.
  revert current_date all_recordings st.
  induction k as [|k IH]; intros current_date all_recordings st.
  - cbn [Nat.add]. replace (current_date - Z.of_nat 0 * timedelta_days 30)%Z
      with current_date by lia.
    cbn [window_loop]. now destruct (start_date <=? current_date)%Z.
  - cbn [Nat.add window_loop].
    destruct (start_date <=? current_date)%Z eqn:Hrange.
    + unfold bind.
      destruct (window_body env instructor_id current_date all_recordings st)
        as [[[all_recordings'|v]|e] st']; [|reflexivity..].
      rewrite IH.
      replace (current_date - timedelta_days 30
               - Z.of_nat k * timedelta_days 30)%Z
        with (current_date - Z.of_nat (S k) * timedelta_days 30)%Z by lia.
      reflexivity.
    + unfold ret. symmetry. apply window_loop_out_of_range.
      apply Z.leb_gt in Hrange. nia.
Qed.



Lemma windows_reach end_date k :
  (start_date <= end_date - Z.of_nat k * timedelta_days 30)%Z ->
  exists m, windows end_date = (k + S m)%nat.
Proof.
  pose proof thirty_days_positive as Hpos. unfold windows, start_date.
  intros H. rewrite Z.sub_0_r.
  assert (Z.of_nat k <= end_date / timedelta_days 30)%Z
    by (apply Z.div_le_lower_bound; lia).
  exists (Z.to_nat (end_date / timedelta_days 30 + 1) - k - 1)%nat. lia.
Qed.



(** A window whose query is answered 404 and whose identifier does not
    resolve ends the function with the empty result. *)
Lemma window_body_unresolved instructor_id current_date all_recordings
  st response st1 response' st2 :
  _make_request env "GET" ("users/" ++ instructor_id ++ "/recordings")
    (window_params current_date) st = (Raise (HTTPError response), st1) ->
  status_code response = 404%Z ->
  _make_request env "GET" ("users/" ++ instructor_id) None st1
  = (Raise (HTTPError response'), st2) ->
  window_body env instructor_id current_date all_recordings st
  = (Ret (inr no_zoom_user), st2).
Proof.
  intros Hwindow Hstatus Hresolve. unfold window_body.
  rewrite (try_except_run _ _ _ _ _
             (bind_run _ _ _ _ _
                (fetch_window_raises _ _ all_recordings _ _ _ Hwindow))).
  rewrite Hstatus. cbn [Z.eqb Pos.eqb].
  now rewrite (try_except_run _ _ _ _ _ (bind_run _ _ _ _ _ Hresolve)).
Qed.



(** After a 404, an exception of the resolution request or of the second
    query that is no HTTP error leaves the window. *)
Lemma window_body_resolution_raises instructor_id current_date all_recordings
  st response st1 e st2 :
  _make_request env "GET" ("users/" ++ instructor_id ++ "/recordings")
    (window_params current_date) st = (Raise (HTTPError response), st1) ->
  status_code response = 404%Z ->
  _make_request env "GET" ("users/" ++ instructor_id) None st1
  = (Raise e, st2) ->
  (forall r, e <> HTTPError r) ->
  window_body env instructor_id current_date all_recordings st
  = (Raise e, st2).
Proof.
  intros Hwindow Hstatus Hresolve Hother. unfold window_body.
  rewrite (try_except_run _ _ _ _ _
             (bind_run _ _ _ _ _
                (fetch_window_raises _ _ all_recordings _ _ _ Hwindow))).
  rewrite Hstatus. cbn [Z.eqb Pos.eqb].
  rewrite (try_except_run _ _ _ _ _ (bind_run _ _ _ _ _ Hresolve)).
  destruct e as [r| | | | | | | |]; try reflexivity.
  now destruct (Hother r).
Qed.

Lemma window_body_retry_raises instructor_id current_date all_recordings
  st response st1 user st2 e st3 :
  _make_request env "GET" ("users/" ++ instructor_id ++ "/recordings")
    (window_params current_date) st = (Raise (HTTPError response), st1) ->
  status_code response = 404%Z ->
  _make_request env "GET" ("users/" ++ instructor_id) None st1
  = (Ret (JDict user), st2) ->
  _make_request env "GET"
    ("users/" ++ py_str env (lookup "id" user) ++ "/recordings")
    (window_params current_date) st2 = (Raise e, st3) ->
  (forall r, e <> HTTPError r) ->
  window_body env instructor_id current_date all_recordings st
  = (Raise e, st3).
Proof.
  intros Hwindow Hstatus Hresolve Hretry Hother. unfold window_body.
  rewrite (try_except_run _ _ _ _ _
             (bind_run _ _ _ _ _
                (fetch_window_raises _ _ all_recordings _ _ _ Hwindow))).
  rewrite Hstatus. cbn [Z.eqb Pos.eqb].
  unfold try_except. rewrite (bind_run _ _ _ _ _ Hresolve).
  unfold bind at 1, lift. cbn [py_get]. fold (lookup "id" user).
  rewrite (bind_run _ _ _ _ _
             (fetch_window_raises _ _ all_recordings _ _ _ Hretry)).
  destruct e as [r| | | | | | | |]; try reflexivity.
  now destruct (Hother r).
Qed.

(** The window that is reached after [k] windows decides the outcome of
    the scan when it does not hand the recordings on. *)
Lemma scan_ends_in_window instructor_id course_id h end_date st0 k
  all_recordings st r st' :
  let current_date := (end_date - Z.of_nat k * timedelta_days 30)%Z in
  start_scan env (mkState no_client h) = (Ret end_date, st0) ->
  window_loop env k instructor_id end_date [] st0
  = (Ret (inl all_recordings), st) ->
  (start_date <= current_date)%Z ->
  window_body env instructor_id current_date all_recordings st = (r, st') ->
  match r with Ret (inl _) => False | _ => True end ->
  get_instructor_recordings env instructor_id course_id h
  = match r with
    | Ret (inr v) => (Payload v, history st')
    | Ret (inl _) => (Payload JNull, history st')
    | Raise e => (internal_server_error e, history st')
    end.
Proof.
  intros current_date Hstart Hscanned Hrange Hbody Hends.
  destruct (windows_reach end_date k Hrange) as [m Hfuel].
  unfold get_instructor_recordings, exposed, instructor_recordings_body,
    scan_recordings.
  unfold bind at 1 2. rewrite Hstart, Hfuel, window_loop_split, Hscanned.
  fold current_date. cbn [window_loop].
  apply Z.leb_le in Hrange. rewrite Hrange.
  rewrite (bind_run _ _ _ _ _ Hbody).
  destruct r as [[found|v]|e]; [contradiction|reflexivity..].
Qed.

End Scan.

(** C2. When, after any number of windows scanned, a window query is
    answered 404 and the request that resolves the identifier fails with
    an HTTP error as well, [get_instructor_recordings] returns the empty
    result with the message that no user was found: nothing is raised, and
    the recordings of the earlier windows are not returned. *)
Theorem C2_unresolved_identifier_returns_empty
  (env : Env) (instructor_id : string) (course_id : option string)
  (h : list Event) (end_date : Z) (st0 : State)
  (k : nat) (all_recordings : list json) (st : State)
  (response : Response) (st1 : State) (response' : Response) (st2 : State) :
  let current_date := (end_date - Z.of_nat k * timedelta_days 30)%Z in
  start_scan env (mkState no_client h) = (Ret end_date, st0) ->
  window_loop env k instructor_id end_date [] st0
  = (Ret (inl all_recordings), st) ->
  (start_date <= current_date)%Z ->
  _make_request env "GET" ("users/" ++ instructor_id ++ "/recordings")
    (window_params current_date) st = (Raise (HTTPError response), st1) ->
  status_code response = 404%Z ->
  _make_request env "GET" ("users/" ++ instructor_id) None st1
  = (Raise (HTTPError response'), st2) ->
  get_instructor_recordings env instructor_id course_id h
  = (Payload no_zoom_user, history st2).
Proof.
  intros current_date Hstart Hscanned Hrange Hwindow Hstatus Hresolve.
  destruct (windows_reach end_date k Hrange) as [m Hfuel].
  unfold get_instructor_recordings, exposed, instructor_recordings_body,
    scan_recordings.
  unfold bind at 1 2. rewrite Hstart, Hfuel, window_loop_split, Hscanned.
  fold current_date. cbn [window_loop].
  apply Z.leb_le in Hrange. rewrite Hrange.
  rewrite (bind_run _ _ _ _ _
             (window_body_unresolved env _ _ all_recordings _ _ _ _ _
                Hwindow Hstatus Hresolve)).
  reflexivity.
Qed.



(** ** The report loop *)

Section Reports.

Variable env : Env.

(** A transport error of the report request leaves [meeting_report_for]. *)
Lemma meeting_report_transport items st msg st' :
  _make_request env "GET" (report_endpoint env items) None st
  = (Raise (TransportError msg), st') ->
  meeting_report_for env (JDict items) st = (Raise (TransportError msg), st').
Proof.
  intros H. unfold meeting_report_for, bind at 1 2 3, lift.
  cbn [py_get]. fold (lookup "id" items).
  now rewrite (try_except_run _ _ _ _ _ (bind_run _ _ _ _ _ H)).
Qed.

(** An HTTP error of the report request, other than the 404 with code
    3001, makes the loop pass over the recording. *)
Lemma meeting_report_http_error items st response error_items st' :
  _make_request env "GET" (report_endpoint env items) None st
  = (Raise (HTTPError response), st') ->
  body_json response = Some (JDict error_items) ->
  (status_code response =? 404)%Z
  && py_eq_int (lookup "code" error_items) 3001 = false ->
  meeting_report_for env (JDict items) st = (Ret None, st').
Proof.
  intros H Hbody Hcode. unfold meeting_report_for, bind at 1 2 3, lift.
  cbn [py_get]. fold (lookup "id" items).
  rewrite (try_except_run _ _ _ _ _ (bind_run _ _ _ _ _ H)).
  unfold response_json, bind, ret, lift. rewrite Hbody.
  destruct (status_code response =? 404)%Z; [|reflexivity].
  cbn [py_get]. fold (lookup "code" error_items).
  cbn [andb] in Hcode. now rewrite Hcode.
Qed.

Lemma filter_loop_app course_id before after filtered st :
  filter_loop env course_id (before ++ after) filtered st
  = match filter_loop env course_id before filtered st with
    | (Ret filtered', st') => filter_loop env course_id after filtered' st'
    | (Raise e, st') => (Raise e, st')
    end.
Proof.
  revert filtered st. induction before as [|r before IH]; intros filtered st.
  - reflexivity.
  - cbn [app filter_loop]. unfold bind.
    destruct (filter_body env course_id r filtered st) as [[filtered'|e] st'];
      [apply IH|reflexivity].
Qed.

End Reports.

(** C1 (amended). In the report loop of [get_instructor_recordings], a
    transport error of a recording's report request is not handled: it
    ends the loop, and the operation returns the failure payload made
    from it, whatever the other recordings are.  It is an HTTP error of
    that request (other than a 404 with code 3001, which is tried again
    by UUID) that makes the loop pass over this one recording and go on
    with the remaining ones, the recordings collected so far unchanged. *)
Theorem C1_transport_error_ends_report_loop
  (env : Env) (instructor_id : string) (course_id : option string)
  (items : list (string * json)) (before after filtered : list json)
  (h : list Event) (st0 st st' : State) :
  let report_request :=
    _make_request env "GET" (report_endpoint env items) None in
  (forall msg,
      report_request st = (Raise (TransportError msg), st') ->
      filter_loop env course_id (JDict items :: after) filtered st
      = (Raise (TransportError msg), st')
      /\ (scan_recordings env instructor_id (mkState no_client h)
          = (Ret (inl (before ++ JDict items :: after)), st0) ->
          filter_loop env course_id before [] st0 = (Ret filtered, st) ->
          get_instructor_recordings env instructor_id course_id h
          = (internal_server_error (TransportError msg), history st')))
  /\ (forall response error_items,
        report_request st = (Raise (HTTPError response), st') ->
        body_json response = Some (JDict error_items) ->
        (status_code response =? 404)%Z
        && py_eq_int (lookup "code" error_items) 3001 = false ->
        filter_loop env course_id (JDict items :: after) filtered st
        = filter_loop env course_id after filtered st').
Proof.
  intros report_request. split.
  - intros msg Hreport.
    assert (Hloop : filter_loop env course_id (JDict items :: after) filtered st
                    = (Raise (TransportError msg), st')).
    { cbn [filter_loop]. unfold bind at 1, filter_body.
      now rewrite (bind_run _ _ _ _ _
                     (meeting_report_transport env _ _ _ _ Hreport)). }
    split; [exact Hloop|]. intros Hscan Hbefore.
    unfold get_instructor_recordings, exposed, instructor_recordings_body.
    rewrite (bind_run _ _ _ _ _ Hscan). unfold finish_recordings.
    unfold bind at 1. now rewrite filter_loop_app, Hbefore, Hloop.
  - intros response error_items Hreport Hbody Hcode.
    cbn [filter_loop]. unfold bind at 1, filter_body.
    now rewrite (bind_run _ _ _ _ _
                   (meeting_report_http_error env _ _ _ _ _
                      Hreport Hbody Hcode)).
Qed.

(** C1, as stated, fails: with two recordings listed, a transport error
    of the first report request does not leave the second recording in
    the result; the operation returns the failure payload.  (With both
    reports delivered both recordings are returned, and with an HTTP
    error for the first, the second alone.) *)
Lemma C1_counterexample_transport_error :
  fst (get_instructor_recordings (reports_env (answer 200 (JDict [])))
         "ada" None [])
  = Payload (JDict [("recordings",
                     JList [listed 101 "uuid-1" "Week 1";
                            listed 102 "uuid-2" "Week 2"])])
  /\ fst (get_instructor_recordings (reports_env (answer 500 (JDict [])))
            "ada" None [])
     = Payload (JDict [("recordings", JList [listed 102 "uuid-2" "Week 2"])])
  /\ fst (get_instructor_recordings (reports_env (Failed "Connection aborted"))
            "ada" None [])
     = PayloadStatus
         (JDict [("error", JStr "Internal Server Error");
                 ("message", JStr "Connection aborted")])
         500.
Proof. repeat split; vm_compute; reflexivity. Qed.

Lemma C1_witness :
  let failing := reports_env (Failed "Connection aborted") in
  let refusing := reports_env (answer 500 (JDict [])) in
  let st := snd (scan_recordings failing "ada" new_client) in
  let st' :=
    snd (_make_request failing "GET" "report/meetings/101" None st) in
  let rt := snd (scan_recordings refusing "ada" new_client) in
  let rt' :=
    snd (_make_request refusing "GET" "report/meetings/101" None rt) in
  get_instructor_recordings failing "ada" None []
  = (internal_server_error (TransportError "Connection aborted"), history st')
  /\ filter_loop refusing None [recording_1; recording_2] [] rt
     = filter_loop refusing None [recording_2] [] rt'.
Proof.
  intros failing refusing st st' rt rt'. split.
  - apply (proj1 (C1_transport_error_ends_report_loop failing "ada" None
                    recording_1_items [] [recording_2] [] [] st st st')
             "Connection aborted");
      vm_compute; reflexivity.
  - apply (proj2 (C1_transport_error_ends_report_loop refusing "ada" None
                    recording_1_items [] [recording_2] [] [] rt rt rt')
             (mkResponse 500 "" (Some (JDict [])) "HTTP error") []);
      vm_compute; reflexivity.
Defined.

Lemma C2_witness :
  fst (window_loop vanished_env 1 "ada" (timedelta_days 30) []
         (snd (start_scan vanished_env new_client)))
  = Ret (inl [recording_1])
  /\ fst (get_instructor_recordings vanished_env "ada" None [])
     = Payload no_zoom_user.
Proof.
  split; [vm_compute; reflexivity|].
  erewrite (C2_unresolved_identifier_returns_empty vanished_env "ada" None []
              (timedelta_days 30) _ 1 [recording_1]).
  - reflexivity.
  - vm_compute; reflexivity.
  - vm_compute; reflexivity.
  - vm_compute; discriminate.
  - vm_compute; reflexivity.
  - vm_compute; reflexivity.
  - vm_compute; reflexivity.
Defined.


(** ** The transcript operations *)

Section Transcripts.

Variable env : Env.

(** The three failure points of [get_meeting_transcript], each with a
    message of its own. *)
Lemma meeting_transcript_failure_points meeting_id h st st' items files h1 :
  verify_access_key env (mkState no_client h) = (Ret tt, st) ->
  get_zoom_client env st = (Ret tt, st') ->
  get_meeting_recordings env meeting_id (history st')
  = (Payload (JDict items), h1) ->
  py_iter (match assoc "recording_files" items with
           | Some v => v
           | None => JList []
           end) = Ret files ->
  (next_where (has_file_type "TRANSCRIPT") files = Ret None ->
   get_meeting_transcript env meeting_id h
   = (Payload (no_transcript "No transcript found"), h1))
  /\ (forall file,
        next_where (has_file_type "TRANSCRIPT") files
        = Ret (Some (JDict file)) ->
        py_truthy (JDict file) = true ->
        (py_truthy (lookup "download_url" file) = false ->
         get_meeting_transcript env meeting_id h
         = (Payload (no_transcript "No transcript URL available"), h1))
        /\ (forall token st2 st3,
              py_truthy (lookup "download_url" file) = true ->
              get_access_token env (mkState (oauth st') h1)
              = (Ret token, st2) ->
              get_transcript_content env (lookup "download_url" file) token st2
              = (Ret None, st3) ->
              get_meeting_transcript env meeting_id h
              = (Payload
                   (no_transcript "Failed to retrieve transcript content"),
                 history st3))).
Proof.
  intros Hverify Hclient Hrecordings Hfiles.
  set (result := get_meeting_transcript env meeting_id h).
  assert (E : result = get_meeting_transcript env meeting_id h)
    by reflexivity.
  clearbody result. unfold get_meeting_transcript, exposed, meeting_transcript_body in E.
  rewrite (bind_run _ _ _ _ _ Hverify), (bind_run _ _ _ _ _ Hclient) in E.
  unfold bind at 1, call in E. rewrite Hrecordings in E.
  unfold bind, lift, ret in E. cbn [returned_get py_get] in E.
  rewrite Hfiles in E. split.
  - intros Hnone. now rewrite Hnone in E.
  - intros file Hfile Htruthy. rewrite Hfile, Htruthy in E.
    cbn [negb py_get] in E. fold (lookup "download_url" file) in E. split.
    + intros Hurl. now rewrite Hurl in E.
    + intros token st2 st3 Hurl Htoken Hcontent. rewrite Hurl in E.
      cbn [negb] in E. now rewrite Htoken, Hcontent in E.
Qed.


End Transcripts.

(** C8. For a recording whose transcript file has no download URL,
    [get_meeting_transcript] answers with the message of that failure
    point, while [get_recording_transcript] ends in the failure payload
    of an unhandled [KeyError]. *)
Theorem C8_missing_download_url :
  fst (get_meeting_transcript without_url_env "m-1" [])
  = Payload (no_transcript "No transcript URL available")
  /\ fst (get_recording_transcript without_url_env "r-1" [])
     = internal_server_error (KeyError "download_url").
Proof. split; vm_compute; reflexivity. Qed.

(** ** The access check and the client *)

Section AccessCheck.

Variable env : Env.

(** Where the check or the construction of the client raises, each
    operation returns the failure payload of that exception. *)
Lemma operations_stop_at_verify h e st' :
  verify_access_key env (mkState no_client h) = (Raise e, st') ->
  forall id course_id,
    get_meeting_recordings env id h = (internal_server_error e, history st')
    /\ get_meeting_transcript env id h
       = (internal_server_error e, history st')
    /\ get_instructor_recordings env id course_id h
       = (internal_server_error e, history st')
    /\ get_recording_transcript env id h
       = (internal_server_error e, history st').
Proof.
  intros H id course_id.
  unfold get_meeting_recordings, get_meeting_transcript,
    get_instructor_recordings, get_recording_transcript, exposed,
    meeting_recordings_body, meeting_transcript_body,
    instructor_recordings_body, recording_transcript_body,
    scan_recordings, start_scan.
  repeat split; now rewrite ?(bind_run _ _ _ _ _ (bind_run _ _ _ _ _
                                (bind_run _ _ _ _ _ H))),
                    ?(bind_run _ _ _ _ _ H).
Qed.

Lemma operations_stop_at_client h st e st' :
  verify_access_key env (mkState no_client h) = (Ret tt, st) ->
  get_zoom_client env st = (Raise e, st') ->
  forall id course_id,
    get_meeting_recordings env id h = (internal_server_error e, history st')
    /\ get_meeting_transcript env id h
       = (internal_server_error e, history st')
    /\ get_instructor_recordings env id course_id h
       = (internal_server_error e, history st')
    /\ get_recording_transcript env id h
       = (internal_server_error e, history st').
Proof.
  intros Hv Hc id course_id.
  assert (Hvc : bind (verify_access_key env)
                  (fun _ => bind (get_zoom_client env)
                              (fun _ => datetime_now env))
                  (mkState no_client h) = (Raise e, st')).
  { now rewrite (bind_run _ _ _ _ _ Hv), (bind_run _ _ _ _ _ Hc). }
  unfold get_meeting_recordings, get_meeting_transcript,
    get_instructor_recordings, get_recording_transcript, exposed,
    meeting_recordings_body, meeting_transcript_body,
    instructor_recordings_body, recording_transcript_body,
    scan_recordings, start_scan.
  repeat split;
    try now rewrite (bind_run _ _ _ _ _ Hv), (bind_run _ _ _ _ _ Hc).
  now rewrite (bind_run _ _ _ _ _ (bind_run _ _ _ _ _ Hvc)).
Qed.

Lemma verify_access_key_rejects o h c key :
  query_get env h = Some c ->
  query_get env (EvHeader :: EvQueryGet :: h) = Some c ->
  require_access_key c = true ->
  header env (EvQueryGet :: h) = key ->
  (key = None \/ key = Some "" \/ exists k, key = Some k /\ k <> access_key c) ->
  verify_access_key env (mkState o h)
  = (Raise (Unauthorized "Invalid or missing Access Key"),
     mkState o (EvQueryGet :: EvHeader :: EvQueryGet :: h)).
Proof.
  intros H1 H2 Hreq Hkey Hbad.
  unfold verify_access_key, validate_access_key. run.
  rewrite H1, Hreq. run. rewrite Hkey. run. rewrite H2, Hreq.
  destruct Hbad as [-> | [-> | (k & -> & Hk)]]; try reflexivity.
  apply String.eqb_neq in Hk. rewrite Hk, andb_false_r. reflexivity.
Qed.

End AccessCheck.

(** X1. Where the configuration asks for an access key, a request whose
    [X-Access-Key] header is missing, empty or different from the stored
    key is turned away by every operation before anything is sent: what
    comes back is the failure payload with status 500, its message that
    of the 401 raised inside. *)
Theorem access_key_rejected_as_internal_error
  (env : Env) (id : string) (course_id : option string) (h : list Event)
  (c : ZoomClientConfig) (key : option string) :
  query_get env h = Some c ->
  query_get env (EvHeader :: EvQueryGet :: h) = Some c ->
  require_access_key c = true ->
  header env (EvQueryGet :: h) = key ->
  (key = None \/ key = Some "" \/ exists k, key = Some k /\ k <> access_key c) ->
  let failure :=
    (PayloadStatus
       (JDict [("error", JStr "Internal Server Error");
               ("message",
                JStr "401 Unauthorized: Invalid or missing Access Key")])
       500,
     EvQueryGet :: EvHeader :: EvQueryGet :: h) in
  get_meeting_recordings env id h = failure
  /\ get_meeting_transcript env id h = failure
  /\ get_instructor_recordings env id course_id h = failure
  /\ get_recording_transcript env id h = failure
  /\ sends (snd failure) = sends h.
Proof.
  intros H1 H2 Hreq Hkey Hbad failure.
  pose proof (operations_stop_at_verify env h _ _
                (verify_access_key_rejects env no_client h c key
                   H1 H2 Hreq Hkey Hbad) id course_id)
    as (Ha & Hb & Hc & Hd).
  repeat split; assumption.
Qed.

Lemma access_key_rejected_witness :
  get_meeting_recordings (guarded_env (Some "guess")) "m-1" []
  = (PayloadStatus
       (JDict [("error", JStr "Internal Server Error");
               ("message",
                JStr "401 Unauthorized: Invalid or missing Access Key")])
       500,
     [EvQueryGet; EvHeader; EvQueryGet]).
Proof.
  apply (access_key_rejected_as_internal_error (guarded_env (Some "guess"))
           "m-1" None [] guarded_config (Some "guess"));
    try reflexivity.
  right. right. exists "guess". split; [reflexivity|discriminate].
Defined.

(** X2. The check lets a request pass in two cases only: no key is asked
    for (no configuration row, or the flag off), and then the header is
    not read; or the header carries the stored key, which is not empty.
    An empty key is never accepted, even against an empty stored key. *)
Theorem access_key_accepted
  (env : Env) (o : ZoomOAuth) (h : list Event) :
  ((query_get env h = None
    \/ exists c, query_get env h = Some c /\ require_access_key c = false) ->
   verify_access_key env (mkState o h) = (Ret tt, mkState o (EvQueryGet :: h)))
  /\ (forall c,
        query_get env h = Some c ->
        query_get env (EvHeader :: EvQueryGet :: h) = Some c ->
        require_access_key c = true ->
        (fst (verify_access_key env (mkState o h)) = Ret tt
         <-> header env (EvQueryGet :: h) = Some (access_key c)
             /\ access_key c <> "")).
Proof.
  split.
  - intros [Hn | (c & Hc & Hoff)]; unfold verify_access_key; run.
    + now rewrite Hn.
    + now rewrite Hc, Hoff.
  - intros c H1 H2 Hreq.
    unfold verify_access_key, validate_access_key. run.
    rewrite H1, Hreq. run.
    destruct (header env (EvQueryGet :: h)) as [k|]; run;
      rewrite H2, Hreq; cbn [fst].
    + destruct (String.eqb k "") eqn:Ee; cbn [negb andb fst].
      * apply String.eqb_eq in Ee. subst k.
        split; [discriminate|]. intros [Hk Hne]. inversion Hk. congruence.
      * destruct (String.eqb k (access_key c)) eqn:Ek; cbn [py_truthy fst].
        -- apply String.eqb_eq in Ek. subst k. apply String.eqb_neq in Ee.
           split; [now split|reflexivity].
        -- apply String.eqb_neq in Ek.
           split; [discriminate|]. intros [Hk _]. inversion Hk. congruence.
    + split; [discriminate|]. intros [Hk _]. discriminate Hk.
Qed.

Lemma access_key_accepted_witness :
  fst (verify_access_key (guarded_env (Some "s3cret")) new_client) = Ret tt
  /\ verify_access_key unconfigured_env new_client
     = (Ret tt, mkState no_client [EvQueryGet]).
Proof.
  split.
  - apply (proj2 (access_key_accepted (guarded_env (Some "s3cret"))
                    no_client []) guarded_config);
      try reflexivity.
    split; [reflexivity|discriminate].
  - apply (proj1 (access_key_accepted unconfigured_env no_client [])).
    left. reflexivity.
Defined.

(** X3. Without a configuration row no client is built: every operation
    returns the failure payload saying so, after two readings of the
    table and without any request. *)
Theorem missing_configuration_stops_every_operation
  (env : Env) (id : string) (course_id : option string) (h : list Event) :
  query_get env h = None ->
  query_get env (EvQueryGet :: h) = None ->
  let failure :=
    (PayloadStatus
       (JDict [("error", JStr "Internal Server Error");
               ("message", JStr "Zoom client configuration not found")])
       500,
     EvQueryGet :: EvQueryGet :: h) in
  get_meeting_recordings env id h = failure
  /\ get_meeting_transcript env id h = failure
  /\ get_instructor_recordings env id course_id h = failure
  /\ get_recording_transcript env id h = failure.
Proof.
  intros H1 H2 failure.
  assert (Hv : verify_access_key env (mkState no_client h)
               = (Ret tt, mkState no_client (EvQueryGet :: h)))
    by (unfold verify_access_key; run; now rewrite H1).
  assert (Hc : get_zoom_client env (mkState no_client (EvQueryGet :: h))
               = (Raise (ValueError "Zoom client configuration not found"),
                  mkState no_client (EvQueryGet :: EvQueryGet :: h)))
    by (unfold get_zoom_client; run; now rewrite H2).
  exact (operations_stop_at_client env h _ _ _ Hv Hc id course_id).
Qed.

Lemma missing_configuration_witness :
  get_recording_transcript unconfigured_env "r-1" []
  = (PayloadStatus
       (JDict [("error", JStr "Internal Server Error");
               ("message", JStr "Zoom client configuration not found")])
       500,
     [EvQueryGet; EvQueryGet]).
Proof.
  apply (missing_configuration_stops_every_operation unconfigured_env
           "r-1" None []); reflexivity.
Defined.

(** ** Failures of the token exchange *)

Section TokenFailures.

Variable env : Env.

(** A client without a valid token goes on to read the configuration. *)
Lemma get_access_token_refresh st st0 :
  token_is_valid env st = (Ret false, st0) ->
  get_access_token env st
  = match query_first env (history st0) with
    | Some cfg => request_token env cfg (record EvQueryFirst st0)
    | None =>
        (Raise (ValueError
                  "Zoom client configuration not found in the database"),
         record EvQueryFirst st0)
    end.
Proof.
  intros H. unfold get_access_token. rewrite (bind_run _ _ _ _ _ H).
  unfold bind, get_config, raise.
  now destruct (query_first env (history st0)).
Qed.

Lemma token_is_valid_new_client st :
  access_token (oauth st) = JNull ->
  token_is_valid env st = (Ret false, st).
Proof.
  intros H. unfold token_is_valid. run. now rewrite H.
Qed.

Lemma request_token_keeps_config cfg st :
  config (oauth (snd (request_token env cfg st))) = config (oauth st).
Proof.
  unfold request_token, send, raise_for_status, response_json. run.
  destruct (network env (history st) (token_request cfg)) as [response|msg];
    [|reflexivity].
  destruct ((400 <=? status_code response)%Z && (status_code response <? 600)%Z).
  { now destruct (status_code response =? 400)%Z. }
  destruct (body_json response) as [token_data|]; [|reflexivity].
  destruct (py_getitem token_data "access_token") as [token|e].
  2:{ destruct e; try destruct (status_code response0 =? 400)%Z;
        reflexivity. }
  destruct (py_getitem token_data "expires_in") as [expires_in|e].
  2:{ destruct e; try destruct (status_code response0 =? 400)%Z;
        reflexivity. }
  destruct (timedelta_seconds expires_in) as [delta|e].
  2:{ destruct e; try destruct (status_code response0 =? 400)%Z;
        reflexivity. }
  destruct (datetime_add _ delta) as [expiry|e].
  2:{ destruct e; try destruct (status_code response0 =? 400)%Z;
        reflexivity. }
  reflexivity.
Qed.

End TokenFailures.

(** X4. For a client that holds no token, the ways the exchange fails:
    without a configuration row a [ValueError] and no request; on status
    400 a [ValueError] with the fixed credentials message, whatever the
    body of the answer says; on any other error status the [HTTPError]
    itself; on a transport failure that failure.  In each case the
    client's cache is as it was. *)
Theorem token_exchange_failures (env : Env) (st : State) :
  access_token (oauth st) = JNull ->
  (query_first env (history st) = None ->
   get_access_token env st
   = (Raise (ValueError "Zoom client configuration not found in the database"),
      record EvQueryFirst st))
  /\ (forall cfg,
        query_first env (history st) = Some cfg ->
        let sent := record (EvSend (token_request cfg))
                      (record EvQueryFirst st) in
        (forall msg,
            network env (EvQueryFirst :: history st) (token_request cfg)
            = Failed msg ->
            get_access_token env st = (Raise (TransportError msg), sent))
        /\ (forall response,
              network env (EvQueryFirst :: history st) (token_request cfg)
              = Answer response ->
              passes_status response = false ->
              get_access_token env st
              = (Raise (if (status_code response =? 400)%Z
                        then ValueError credentials_error
                        else HTTPError response),
                 sent))).
Proof.
  intros Hnew.
  pose proof (get_access_token_refresh env st st
                (token_is_valid_new_client env st Hnew)) as E.
  split.
  - intros Hq. now rewrite E, Hq.
  - intros cfg Hq sent. rewrite E, Hq.
    unfold request_token, send, raise_for_status. run. split.
    + intros msg ->. reflexivity.
    + intros response -> Hstatus.
      unfold passes_status in Hstatus. apply negb_false_iff in Hstatus.
      rewrite Hstatus. now destruct (status_code response =? 400)%Z.
Qed.

Lemma token_exchange_failures_witness :
  get_access_token (token_env (Answer rejected_credentials)) new_client
  = (Raise (ValueError
              "Failed to obtain Zoom access token. Please check your Zoom credentials."),
     mkState no_client
       [EvSend (token_request sample_config); EvQueryFirst])
  /\ get_access_token unconfigured_env new_client
     = (Raise (ValueError
                 "Zoom client configuration not found in the database"),
        mkState no_client [EvQueryFirst]).
Proof.
  split.
  - apply (proj2 (proj2 (token_exchange_failures
                           (token_env (Answer rejected_credentials))
                           new_client eq_refl)
                    sample_config eq_refl)
             rejected_credentials);
      reflexivity.
  - apply (proj1 (token_exchange_failures unconfigured_env new_client
                    eq_refl)).
    reflexivity.
Defined.

(** X5. A grant that lacks [expires_in] raises [KeyError] after the new
    token has been stored: the client is left with the new token and the
    expiry it had before. *)
Theorem grant_without_expiry_keeps_old_expiry
  (env : Env) (cfg : ZoomClientConfig) (st : State) (response : Response)
  (items : list (string * json)) (token : json) :
  network env (history st) (token_request cfg) = Answer response ->
  passes_status response = true ->
  body_json response = Some (JDict items) ->
  assoc "access_token" items = Some token ->
  assoc "expires_in" items = None ->
  request_token env cfg st
  = (Raise (KeyError "expires_in"),
     mkState (mkOAuth (config (oauth st)) token (token_expiry (oauth st)))
       (EvNow :: EvSend (token_request cfg) :: history st)).
Proof.
  intros Hnet Hstatus Hbody Htok Hexp.
  unfold passes_status in Hstatus. apply negb_true_iff in Hstatus.
  unfold request_token, send, raise_for_status, response_json. run.
  rewrite Hnet, Hstatus, Hbody. cbn [py_getitem].
  now rewrite Htok, Hexp.
Qed.

Lemma grant_without_expiry_witness :
  request_token
    (token_env (answer 200 (JDict [("access_token", JStr "token-9")])))
    sample_config cached_state
  = (Raise (KeyError "expires_in"),
     mkState (mkOAuth None (JStr "token-9") (Some 10%Z))
       [EvNow; EvSend (token_request sample_config)]).
Proof.
  apply (grant_without_expiry_keeps_old_expiry
           (token_env (answer 200 (JDict [("access_token", JStr "token-9")])))
           sample_config cached_state
           (mkResponse 200 "" (Some (JDict [("access_token", JStr "token-9")]))
              "HTTP error")
           [("access_token", JStr "token-9")] (JStr "token-9"));
    reflexivity.
Defined.

(** X29. A grant whose lifetime is beyond what [timedelta] holds, or
    leads to an expiry after the year 9999, raises [OverflowError] once
    the new token has been stored and the clock read: the client is left
    with the new token and the expiry it had before. *)
Theorem grant_beyond_range_keeps_old_expiry
  (env : Env) (cfg : ZoomClientConfig) (st : State) (response : Response)
  (items : list (string * json)) (token : json) (n : Z) :
  let issued := clock env (EvSend (token_request cfg) :: history st) in
  let left :=
    mkState (mkOAuth (config (oauth st)) token (token_expiry (oauth st)))
      (EvNow :: EvSend (token_request cfg) :: history st) in
  network env (history st) (token_request cfg) = Answer response ->
  passes_status response = true ->
  body_json response = Some (JDict items) ->
  assoc "access_token" items = Some token ->
  assoc "expires_in" items = Some (JInt n) ->
  (timedelta_in_range n = false ->
   request_token env cfg st = (Raise (timedelta_overflow (n / 86400)), left))
  /\ (timedelta_in_range n = true ->
      datetime_in_range (issued + n * 1000000) = false ->
      request_token env cfg st
      = (Raise (OverflowError "date value out of range"), left)).
Proof.
  intros issued left Hnet Hstatus Hbody Htok Hexp.
  unfold passes_status in Hstatus. apply negb_true_iff in Hstatus.
  unfold request_token, send, raise_for_status, response_json. run.
  rewrite Hnet, Hstatus, Hbody. cbn [py_getitem].
  rewrite Htok, Hexp. unfold timedelta_seconds, datetime_add. split.
  - intros Hdelta. rewrite Hdelta. reflexivity.
  - intros Hdelta Hdate. rewrite Hdelta. cbn [history].
    fold issued. rewrite Hdate. reflexivity.
Qed.

Lemma grant_beyond_range_witness :
  request_token
    (token_env (answer 200 (JDict [("access_token", JStr "token-9");
                                   ("expires_in", JInt 300000000000)])))
    sample_config cached_state
  = (Raise (OverflowError "date value out of range"),
     mkState (mkOAuth None (JStr "token-9") (Some 10%Z))
       [EvNow; EvSend (token_request sample_config)]).
Proof.
  apply (proj2 (grant_beyond_range_keeps_old_expiry
                  (token_env
                     (answer 200 (JDict [("access_token", JStr "token-9");
                                         ("expires_in", JInt 300000000000)])))
                  sample_config cached_state
                  (mkResponse 200 ""
                     (Some (JDict [("access_token", JStr "token-9");
                                   ("expires_in", JInt 300000000000)]))
                     "HTTP error")
                  [("access_token", JStr "token-9");
                   ("expires_in", JInt 300000000000)]
                  (JStr "token-9") 300000000000%Z
                  eq_refl eq_refl eq_refl eq_refl eq_refl));
    reflexivity.
Defined.

(** What a call of [get_access_token] leaves behind. *)
Lemma get_access_token_outcome (env : Env) (st : State) :
  exists r st',
    get_access_token env st = (r, st')
    /\ config (oauth st') = config (oauth st)
    /\ (token_posts (history st') <= S (token_posts (history st)))%nat
    /\ forall token, r = Ret token -> access_token (oauth st') = token.
Proof.
  destruct (token_is_valid_result env st) as (valid & st0 & E & Ho & _ & Hp).
  destruct valid.
  - unfold get_access_token. rewrite (bind_run _ _ _ _ _ E).
    unfold bind, get_oauth, ret. do 2 eexists. split; [reflexivity|].
    rewrite Ho, Hp. repeat split; [lia|].
    intros token H. now inversion H.
  - rewrite (get_access_token_refresh env st st0 E).
    destruct (query_first env (history st0)) as [cfg|].
    + destruct (request_token_sends env cfg (record EvQueryFirst st0))
        as (r & st' & Ereq & Hposts & _ & Hcache).
      exists r, st'. split; [exact Ereq|]. split; [|split].
      * pose proof (request_token_keeps_config env cfg
                      (record EvQueryFirst st0)) as Hk.
        rewrite Ereq in Hk. cbn [snd] in Hk. rewrite Hk.
        unfold record. cbn [oauth]. now rewrite Ho.
      * rewrite Hposts. unfold record. cbn [history].
        rewrite token_posts_cons. cbn [is_token_post]. lia.
      * intros token Ht. now apply Hcache.
    + do 2 eexists. split; [reflexivity|].
      unfold record. cbn [oauth history]. rewrite token_posts_cons.
      cbn [is_token_post]. repeat split; [now rewrite Ho|lia|discriminate].
Qed.

(** X6. Whenever [get_access_token] returns, the token it returns is the
    one the client holds afterwards, and at most one token request was
    sent on the way; the configuration recorded in the client is never
    changed. *)
Theorem returned_token_is_cached (env : Env) (st : State) :
  exists r st',
    get_access_token env st = (r, st')
    /\ config (oauth st') = config (oauth st)
    /\ (token_posts (history st') <= S (token_posts (history st)))%nat
    /\ forall token, r = Ret token -> access_token (oauth st') = token.
Proof. exact (get_access_token_outcome env st). Qed.

(** ** Requests and histories *)

Section Requests.

Variable env : Env.

Lemma quiet_counts evs h :
  quiet evs = true ->
  token_posts (evs ++ h) = token_posts h
  /\ api_requests (evs ++ h) = api_requests h
  /\ sends (evs ++ h) = sends h.
Proof.
  unfold token_posts, api_requests, sends.
  induction evs as [|ev evs IH]; [now intros|].
  cbn [quiet forallb]. intros H. apply andb_true_iff in H as [Hev Hevs].
  destruct (IH Hevs) as (IH1 & IH2 & IH3).
  destruct ev as [| | | |r]; cbn in Hev |- *; try discriminate;
    now rewrite ?IH1, ?IH2, ?IH3.
Qed.

(** The access check and the construction of the client send nothing. *)
Lemma verify_access_key_quiet st :
  exists evs,
    history (snd (verify_access_key env st)) = evs ++ history st
    /\ oauth (snd (verify_access_key env st)) = oauth st
    /\ quiet evs = true.
Proof.
  unfold verify_access_key, validate_access_key. run.
  destruct (query_get env (history st)) as [c|];
    [|now exists [EvQueryGet]].
  destruct (require_access_key c); [|now exists [EvQueryGet]].
  run. exists [EvQueryGet; EvHeader; EvQueryGet].
  destruct (query_get env (EvHeader :: EvQueryGet :: history st)) as [c2|];
    [|now cbn].
  destruct (require_access_key c2); [|now cbn].
  destruct (header env (EvQueryGet :: history st)) as [k|]; [|now cbn].
  now destruct (negb (String.eqb k "") && String.eqb k (access_key c2)).
Qed.

Lemma get_zoom_client_quiet st :
  exists evs,
    history (snd (get_zoom_client env st)) = evs ++ history st
    /\ quiet evs = true
    /\ (fst (get_zoom_client env st) = Ret tt ->
        access_token (oauth (snd (get_zoom_client env st))) = JNull).
Proof.
  unfold get_zoom_client. run.
  destruct (query_get env (history st)).
  - exists [EvQueryFirst; EvQueryGet]. now cbn.
  - exists [EvQueryGet]. cbn. repeat split. discriminate.
Qed.

Lemma request_token_history cfg st :
  history (snd (request_token env cfg st))
  = EvSend (token_request cfg) :: history st
  \/ history (snd (request_token env cfg st))
     = EvNow :: EvSend (token_request cfg) :: history st.
Proof.
  unfold request_token, send, raise_for_status, response_json. run.
  destruct (network env (history st) (token_request cfg)) as [response|msg];
    [|now left].
  destruct ((400 <=? status_code response)%Z && (status_code response <? 600)%Z).
  { destruct (status_code response =? 400)%Z; now left. }
  destruct (body_json response) as [token_data|]; [|now left].
  destruct (py_getitem token_data "access_token") as [token|e].
  2:{ destruct e; try destruct (status_code response0 =? 400)%Z; now left. }
  destruct (py_getitem token_data "expires_in") as [expires_in|e].
  2:{ destruct e; try destruct (status_code response0 =? 400)%Z; now right. }
  destruct (timedelta_seconds expires_in) as [delta|e].
  2:{ destruct e; try destruct (status_code response0 =? 400)%Z; now right. }
  destruct (datetime_add _ delta) as [expiry|e].
  2:{ destruct e; try destruct (status_code response0 =? 400)%Z; now right. }
  now right.
Qed.

(** Obtaining the token sends no API request. *)
Lemma get_access_token_api_requests st :
  api_requests (history (snd (get_access_token env st)))
  = api_requests (history st).
Proof.
  destruct (token_is_valid_result env st) as (valid & st0 & E & _ & Hh & _).
  assert (H0 : api_requests (history st0) = api_requests (history st)).
  { destruct Hh as [-> | ->]; [reflexivity|].
    apply (quiet_counts [EvNow]). reflexivity. }
  destruct valid.
  - unfold get_access_token. rewrite (bind_run _ _ _ _ _ E).
    unfold bind, get_oauth, ret. cbn [snd]. exact H0.
  - rewrite (get_access_token_refresh env st st0 E).
    destruct (query_first env (history st0)) as [cfg|].
    + destruct (request_token_history cfg (record EvQueryFirst st0))
        as [-> | ->]; unfold record; cbn [history];
        unfold api_requests; cbn [filter is_api_request];
        exact H0.
    + cbn [snd]. unfold record. cbn [history].
      unfold api_requests. cbn [filter is_api_request]. exact H0.
Qed.

End Requests.

(** The outcomes of [_make_request]. *)
Lemma make_request_outcome
  (env : Env) (method endpoint : string) (params : option Params)
  (st : State) :
  let outcome := _make_request env method endpoint params st in
  (forall e, fst (get_access_token env st) = Raise e ->
     outcome = (Raise e, snd (get_access_token env st))
     /\ api_requests (history (snd outcome)) = api_requests (history st))
  /\ (api_requests (history (snd outcome)) <= S (api_requests (history st)))%nat
  /\ (token_posts (history (snd outcome)) <= S (token_posts (history st)))%nat
  /\ (forall v, fst outcome = Ret v ->
        api_requests (history (snd outcome)) = S (api_requests (history st))
        /\ exists token st1 response,
             let request :=
               ApiRequest method (api_url endpoint)
                 ("Bearer " ++ py_str env token) params in
             get_access_token env st = (Ret token, st1)
             /\ network env (history st1) request = Answer response
             /\ passes_status response = true
             /\ body_json response = Some v
             /\ snd outcome = record (EvSend request) st1).
Proof.
  intros outcome. subst outcome.
  pose proof (get_access_token_api_requests env st) as Hapi.
  destruct (get_access_token_outcome env st) as (r & st1 & E & _ & Hposts & _).
  unfold _make_request, _get_headers, send, raise_for_status, response_json.
  unfold bind, ret, raise. rewrite E in *. cbn [fst snd] in *.
  destruct r as [token|e0].
  { set (request := ApiRequest method (BASE_URL ++ "/" ++ endpoint)
                      ("Bearer " ++ py_str env token) params).
    assert (Hone : api_requests (EvSend request :: history st1)
                   = S (api_requests (history st))).
    { unfold api_requests in *.
      cbn [filter is_api_request request List.length]. now rewrite Hapi. }
    assert (Hsame : token_posts (EvSend request :: history st1)
                    = token_posts (history st1)).
    { now rewrite token_posts_cons. }
    split; [intros e H; discriminate H|].
    destruct (network env (history st1) request) as [response|msg] eqn:Hnet;
      cbn [fst snd record history];
      [|rewrite Hone, Hsame; repeat split; first [lia | discriminate | (intros; discriminate)]].
    destruct ((400 <=? status_code response)%Z
              && (status_code response <? 600)%Z) eqn:Hstatus;
      cbn [fst snd record history];
      [rewrite Hone, Hsame; repeat split; first [lia | discriminate | (intros; discriminate)]|].
    destruct (body_json response) as [v0|] eqn:Hbody;
      cbn [fst snd record history];
      [|rewrite Hone, Hsame; repeat split; first [lia | discriminate | (intros; discriminate)]].
    rewrite Hone, Hsame. split; [lia|]. split; [lia|].
    intros v H. inversion H; subst v0. split; [reflexivity|].
    exists token, st1, response. cbn zeta. fold request.
    split; [reflexivity|]. split; [exact Hnet|].
    split; [|split; [exact Hbody|reflexivity]].
    unfold passes_status. now rewrite Hstatus. }
  cbn [fst snd]. split; [|split; [|split]].
  - intros e H. inversion H; subst e0. now split.
  - rewrite Hapi. lia.
  - exact Hposts.
  - intros v H. discriminate H.
Qed.

(** X7. An API request is sent only with a token in hand: if the token
    cannot be obtained, [_make_request] raises that exception and sends
    no API request.  In every case it sends at most one API request and
    at most one token request.  When it returns a value, it sent exactly
    one API request, the last thing it did: the request went to the
    endpoint under the base URL with the token just obtained as bearer,
    the provider answered it with a status that is no error status, and
    the value is the JSON body of that answer. *)
Theorem make_request_accounting
  (env : Env) (method endpoint : string) (params : option Params)
  (st : State) :
  let outcome := _make_request env method endpoint params st in
  (forall e, fst (get_access_token env st) = Raise e ->
     outcome = (Raise e, snd (get_access_token env st))
     /\ api_requests (history (snd outcome)) = api_requests (history st))
  /\ (api_requests (history (snd outcome)) <= S (api_requests (history st)))%nat
  /\ (token_posts (history (snd outcome)) <= S (token_posts (history st)))%nat
  /\ (forall v, fst outcome = Ret v ->
        api_requests (history (snd outcome)) = S (api_requests (history st))
        /\ exists token st1 response,
             let request :=
               ApiRequest method (api_url endpoint)
                 ("Bearer " ++ py_str env token) params in
             get_access_token env st = (Ret token, st1)
             /\ network env (history st1) request = Answer response
             /\ passes_status response = true
             /\ body_json response = Some v
             /\ snd outcome = record (EvSend request) st1).
Proof. exact (make_request_outcome env method endpoint params st). Qed.

(** The outcome of a download. *)
Lemma get_transcript_content_outcome
  (env : Env) (url token : json) (st : State) :
  let request :=
    Download (py_str env url) ("Bearer " ++ py_str env token) in
  get_transcript_content env url token st
  = (Ret match network env (history st) request with
         | Answer response =>
             if passes_status response then Some (text response) else None
         | Failed _ => None
         end,
     record (EvSend request) st).
Proof.
  intros request. unfold get_transcript_content, send, raise_for_status.
  run. fold request. unfold passes_status.
  destruct (network env (history st) request) as [response|msg];
    [|reflexivity].
  now destruct ((400 <=? status_code response)%Z
                && (status_code response <? 600)%Z).
Qed.

(** X8. Downloading the transcript never raises: the content is the text
    of an answer without error status, and [None] stands for every other
    outcome, an error status as well as a transport failure.  One request
    is sent, carrying the bearer token. *)
Theorem transcript_download_never_raises
  (env : Env) (url token : json) (st : State) :
  let request :=
    Download (py_str env url) ("Bearer " ++ py_str env token) in
  get_transcript_content env url token st
  = (Ret match network env (history st) request with
         | Answer response =>
             if passes_status response then Some (text response) else None
         | Failed _ => None
         end,
     record (EvSend request) st).
Proof. exact (get_transcript_content_outcome env url token st). Qed.

(** A successful [get_meeting_recordings] in numbers. *)
Lemma meeting_recordings_requests
  (env : Env) (meeting_id : string) (h h' : list Event) (v : json) :
  get_meeting_recordings env meeting_id h = (Payload v, h') ->
  token_posts h' = S (token_posts h)
  /\ api_requests h' = S (api_requests h).
Proof.
  unfold get_meeting_recordings, exposed, meeting_recordings_body. intros H.
  destruct (verify_access_key_quiet env (mkState no_client h))
    as (evs1 & Hh1 & _ & Hq1).
  destruct (verify_access_key env (mkState no_client h)) as [[[]|e] st1] eqn:Ev;
    rewrite (bind_run _ _ _ _ _ Ev) in H; [|discriminate H].
  cbn [snd history] in Hh1.
  destruct (get_zoom_client_quiet env st1) as (evs2 & Hh2 & Hq2 & Hnew).
  destruct (get_zoom_client env st1) as [[[]|e] st2] eqn:Ec;
    rewrite (bind_run _ _ _ _ _ Ec) in H; [|discriminate H].
  cbn [fst snd] in Hh2, Hnew. specialize (Hnew eq_refl).
  destruct (quiet_counts evs1 h Hq1) as (Ht1 & Ha1 & _).
  destruct (quiet_counts evs2 (evs1 ++ h) Hq2) as (Ht2 & Ha2 & _).
  rewrite <- Hh1 in Ht1, Ha1, Ht2, Ha2. rewrite <- Hh2 in Ht2, Ha2.
  rewrite Ht1 in Ht2. rewrite Ha1 in Ha2.
  (* the request of the new client *)
  pose proof (get_access_token_api_requests env st2) as Hapi.
  pose proof (get_access_token_refresh env st2 st2
                (token_is_valid_new_client env st2 Hnew)) as Etok.
  unfold _make_request, _get_headers in H. unfold bind at 1 2 in H.
  rewrite Etok in H, Hapi.
  destruct (query_first env (history st2)) as [cfg|]; [|discriminate H].
  destruct (request_token_sends env cfg (record EvQueryFirst st2))
    as (r & st3 & Ereq & Hposts & _).
  rewrite Ereq in H, Hapi. cbn [snd] in Hapi.
  destruct r as [token|e]; [|discriminate H].
  unfold ret, bind, send, raise_for_status, response_json, raise in H.
  destruct (network env (history st3) _) as [response|msg];
    [|discriminate H].
  destruct ((400 <=? status_code response)%Z && (status_code response <? 600)%Z);
    [discriminate H|].
  destruct (body_json response); [|discriminate H].
  cbn in H. inversion H; subst. split.
  - rewrite token_posts_cons. cbn [is_token_post]. rewrite Hposts.
    unfold record. cbn [history]. rewrite token_posts_cons.
    cbn [is_token_post]. now rewrite Ht2.
  - unfold api_requests in *. cbn [filter is_api_request List.length].
    now rewrite Hapi, Ha2.
Qed.

(** X9. No token outlives an operation: [get_meeting_recordings] builds a
    new client each time, so whenever it returns the provider's payload
    it has exchanged the credentials exactly once and sent exactly one
    API request, whatever happened before. *)
Theorem one_exchange_per_operation
  (env : Env) (meeting_id : string) (h h' : list Event) (v : json) :
  get_meeting_recordings env meeting_id h = (Payload v, h') ->
  token_posts h' = S (token_posts h)
  /\ api_requests h' = S (api_requests h).
Proof. exact (meeting_recordings_requests env meeting_id h h' v). Qed.

Lemma one_exchange_per_operation_witness :
  let h := [EvSend (token_request sample_config)] in
  token_posts
    (snd (get_meeting_recordings (guarded_env (Some "s3cret")) "m-1" h)) = 2
  /\ api_requests
       (snd (get_meeting_recordings (guarded_env (Some "s3cret")) "m-1" h))
     = 1.
Proof.
  intros h.
  apply (one_exchange_per_operation (guarded_env (Some "s3cret")) "m-1" h
           _ (JDict [])).
  vm_compute. reflexivity.
Defined.

(** ** The course filter *)

Section CourseFilter.

Variable env : Env.

Lemma next_where_holds p items x :
  next_where p items = Ret (Some x) -> p x = Ret true.
Proof.
  induction items as [|y items IH]; [discriminate|].
  cbn [next_where]. destruct (p y) as [[]|e] eqn:E; [|exact IH|discriminate].
  intros H. inversion H. now subst.
Qed.

Lemma project_files_dicts files :
  project_files (map JDict files) = Ret (map reduced (filter kept files)).
Proof.
  induction files as [|f files IH]; [reflexivity|].
  cbn [map project_files py_get filter]. fold (lookup "file_type" f).
  unfold kept at 1.
  destruct (py_eq_str (lookup "file_type" f) "MP4"
            || py_eq_str (lookup "file_type" f) "TRANSCRIPT");
    [|exact IH].
  rewrite IH. reflexivity.
Qed.

End CourseFilter.

(** X10. With a course filter, a recording whose report was obtained is
    included exactly when the first tracking field named "Canvas Course"
    has a value whose [str] equals the course ID; a report without such a
    field excludes it, and later fields of that name are not looked at.
    Without a filter ([None] or the empty string) it is included
    whatever the report holds. *)
Theorem course_filter_decision
  (env : Env) (course : string) (recording : json)
  (report : list (string * json)) (fields filtered : list json)
  (info : json) (st : State) :
  course <> "" ->
  recording_info recording st = (Ret info, st) ->
  py_iter (lookup_or "tracking_fields" (JList []) report) = Ret fields ->
  (next_where is_canvas_course fields = Ret None ->
   include_recording env (Some course) recording (JDict report) filtered st
   = (Ret filtered, st))
  /\ (forall field,
        next_where is_canvas_course fields = Ret (Some (JDict field)) ->
        include_recording env (Some course) recording (JDict report)
          filtered st
        = (Ret (if String.eqb
                     (py_str env (lookup_or "value" (JStr "") field)) course
                then filtered ++ [info] else filtered),
           st))
  /\ (forall anything,
        include_recording env None recording anything filtered st
        = (Ret (filtered ++ [info]), st)
        /\ include_recording env (Some "") recording anything filtered st
           = (Ret (filtered ++ [info]), st)).
Proof.
  intros Hcourse Hinfo Hfields.
  destruct course as [|c course]; [congruence|].
  unfold lookup_or in *.
  split; [|split].
  - intros Hnone. unfold include_recording, bind, lift, ret.
    cbn [py_get]. now rewrite Hfields, Hnone.
  - intros field Hfield.
    pose proof (next_where_holds _ _ _ Hfield) as Hcanvas.
    assert (Htruthy : py_truthy (JDict field) = true).
    { destruct field; [discriminate Hcanvas|reflexivity]. }
    unfold include_recording, bind, lift, ret.
    cbn [py_get]. rewrite Hfields, Hfield, Htruthy. cbn [py_get].
    destruct (String.eqb _ (String c course)); [|reflexivity].
    now rewrite Hinfo.
  - intros anything. unfold include_recording, bind, ret.
    now rewrite Hinfo.
Qed.

Lemma course_filter_decision_witness :
  include_recording unconfigured_env (Some "42") recording_1
    (JDict course_report) [] new_client
  = (Ret [listed 101 "uuid-1" "Week 1"], new_client)
  /\ include_recording unconfigured_env (Some "43") recording_1
       (JDict course_report) [] new_client
     = (Ret [], new_client).
Proof.
  split.
  - apply (proj1 (proj2 (course_filter_decision unconfigured_env "42"
                           recording_1 course_report
                           [JDict [("field", JStr "Department");
                                   ("value", JStr "42")];
                            JDict [("field", JStr "Canvas Course");
                                   ("value", JInt 42)];
                            JDict [("field", JStr "Canvas Course");
                                   ("value", JStr "43")]]
                           [] (listed 101 "uuid-1" "Week 1") new_client
                           ltac:(discriminate) eq_refl eq_refl))
             [("field", JStr "Canvas Course"); ("value", JInt 42)]).
    reflexivity.
  - apply (proj1 (proj2 (course_filter_decision unconfigured_env "43"
                           recording_1 course_report
                           [JDict [("field", JStr "Department");
                                   ("value", JStr "42")];
                            JDict [("field", JStr "Canvas Course");
                                   ("value", JInt 42)];
                            JDict [("field", JStr "Canvas Course");
                                   ("value", JStr "43")]]
                           [] (listed 101 "uuid-1" "Week 1") new_client
                           ltac:(discriminate) eq_refl eq_refl))
             [("field", JStr "Canvas Course"); ("value", JInt 42)]).
    reflexivity.
Defined.

(** X11. The reduced view of a recording's files keeps the files of type
    MP4 or TRANSCRIPT, in their order, and of each the four keys [id],
    [file_type], [recording_type] and [download_url], a missing one as
    [None]; files of any other type and all other keys are dropped. *)
Theorem reduced_file_view
  (items : list (string * json))
  (files : list (list (string * json))) (st : State) :
  assoc "recording_files" items = Some (JList (map JDict files)) ->
  recording_info (JDict items) st
  = (Ret (JDict [("id", lookup "id" items); ("uuid", lookup "uuid" items);
                 ("topic", lookup "topic" items);
                 ("start_time", lookup "start_time" items);
                 ("duration", lookup "duration" items);
                 ("recording_files",
                  JList (map reduced (filter kept files)))]),
     st).
Proof.
  intros Hfiles. unfold recording_info, bind, lift, ret.
  cbn [py_get]. rewrite Hfiles. cbn [py_iter].
  now rewrite project_files_dicts.
Qed.

Lemma reduced_file_view_witness :
  recording_info
    (JDict [("id", JInt 7);
            ("recording_files",
             JList (map JDict
                      [[("file_type", JStr "M4A"); ("id", JStr "a")];
                       [("file_type", JStr "TRANSCRIPT"); ("id", JStr "t");
                        ("file_size", JInt 512)]]))])
    new_client
  = (Ret (JDict [("id", JInt 7); ("uuid", JNull); ("topic", JNull);
                 ("start_time", JNull); ("duration", JNull);
                 ("recording_files",
                  JList [JDict [("id", JStr "t");
                                ("file_type", JStr "TRANSCRIPT");
                                ("recording_type", JNull);
                                ("download_url", JNull)]])]),
     new_client).
Proof.
  apply (reduced_file_view
           [("id", JInt 7);
            ("recording_files",
             JList (map JDict
                      [[("file_type", JStr "M4A"); ("id", JStr "a")];
                       [("file_type", JStr "TRANSCRIPT"); ("id", JStr "t");
                        ("file_size", JInt 512)]]))]
           [[("file_type", JStr "M4A"); ("id", JStr "a")];
            [("file_type", JStr "TRANSCRIPT"); ("id", JStr "t");
             ("file_size", JInt 512)]]).
  reflexivity.
Defined.

(** ** More on the report loop and the scan *)

(** X12. A report that is not found by ID (status 404 with code 3001) is
    asked for again by the recording's UUID, the empty string when there
    is none: the answer of this second request is the report; an HTTP
    error of it passes the recording over, and any other exception of it
    is raised. *)
Theorem report_retry_by_uuid
  (env : Env) (items : list (string * json)) (st : State)
  (response : Response) (error_items : list (string * json)) (st1 : State) :
  _make_request env "GET" (report_endpoint env items) None st
  = (Raise (HTTPError response), st1) ->
  status_code response = 404%Z ->
  body_json response = Some (JDict error_items) ->
  assoc "code" error_items = Some (JInt 3001) ->
  meeting_report_for env (JDict items) st
  = match _make_request env "GET"
            ("report/meetings/"
             ++ py_str env (lookup_or "uuid" (JStr "") items)) None st1 with
    | (Ret report, st2) => (Ret (Some report), st2)
    | (Raise (HTTPError _), st2) => (Ret None, st2)
    | (Raise e, st2) => (Raise e, st2)
    end.
Proof.
  intros Hreport Hstatus Hbody Hcode.
  unfold meeting_report_for, bind at 1 2 3, lift.
  cbn [py_get]. fold (lookup "id" items).
  rewrite (try_except_run _ _ _ _ _ (bind_run _ _ _ _ _ Hreport)).
  unfold response_json, bind, ret, lift, try_except, raise, lookup_or.
  rewrite Hbody, Hstatus. cbn [Z.eqb Pos.eqb py_get]. rewrite Hcode.
  cbn [py_eq_int Z.eqb Pos.eqb].
  destruct (_make_request env "GET" _ None st1) as [[report|e] st2];
    [reflexivity|].
  now destruct e.
Qed.

Lemma report_retry_by_uuid_witness :
  let st := snd (get_access_token by_uuid_env new_client) in
  fst (meeting_report_for by_uuid_env recording_1 st)
  = Ret (Some (JDict [("tracking_fields", JList [])])).
Proof.
  intros st. change recording_1 with (JDict recording_1_items).
  rewrite (report_retry_by_uuid by_uuid_env recording_1_items st
             (mkResponse 404 "" (Some (JDict [("code", JInt 3001)]))
                "HTTP error")
             [("code", JInt 3001)]
             (snd (_make_request by_uuid_env "GET" "report/meetings/101"
                     None st)));
    vm_compute; reflexivity.
Defined.

(** X13. An HTTP error of a report request whose body is not JSON is not
    passed over: decoding the body raises, the loop ends there, and the
    operation returns the failure payload instead of the recordings. *)
Theorem undecodable_error_body_ends_loop
  (env : Env) (instructor_id : string) (course_id : option string)
  (items : list (string * json)) (before after filtered : list json)
  (h : list Event) (st0 st st1 : State) (response : Response) :
  _make_request env "GET" (report_endpoint env items) None st
  = (Raise (HTTPError response), st1) ->
  body_json response = None ->
  exists msg,
    filter_loop env course_id (JDict items :: after) filtered st
    = (Raise (JSONDecodeError msg), st1)
    /\ (scan_recordings env instructor_id (mkState no_client h)
        = (Ret (inl (before ++ JDict items :: after)), st0) ->
        filter_loop env course_id before [] st0 = (Ret filtered, st) ->
        get_instructor_recordings env instructor_id course_id h
        = (internal_server_error (JSONDecodeError msg), history st1)).
Proof.
  intros Hreport Hbody. eexists.
  assert (Hloop : filter_loop env course_id (JDict items :: after) filtered st
                  = (Raise (JSONDecodeError "Expecting value"), st1)).
  { cbn [filter_loop]. unfold bind at 1, filter_body, meeting_report_for.
    unfold bind at 1 2 3 4, lift. cbn [py_get]. fold (lookup "id" items).
    rewrite (try_except_run _ _ _ _ _ (bind_run _ _ _ _ _ Hreport)).
    unfold response_json, bind, raise. now rewrite Hbody. }
  split; [exact Hloop|]. intros Hscan Hbefore.
  unfold get_instructor_recordings, exposed, instructor_recordings_body.
  rewrite (bind_run _ _ _ _ _ Hscan). unfold finish_recordings.
  unfold bind at 1. now rewrite filter_loop_app, Hbefore, Hloop.
Qed.

Lemma undecodable_error_body_witness :
  fst (get_instructor_recordings (reports_env bad_gateway) "ada" None [])
  = PayloadStatus
      (JDict [("error", JStr "Internal Server Error");
              ("message", JStr "Expecting value")])
      500.
Proof.
  set (env := reports_env bad_gateway).
  pose (st := snd (scan_recordings env "ada" new_client)).
  pose (st1 := snd (_make_request env "GET" "report/meetings/101" None st)).
  destruct (undecodable_error_body_ends_loop env "ada" None
              recording_1_items [] [recording_2] [] [] st st st1
              (mkResponse 502 "<html>Bad Gateway</html>" None
                 "502 Server Error"))
    as (msg & Hloop & Hop).
  - vm_compute. reflexivity.
  - reflexivity.
  - rewrite Hop; [|vm_compute; reflexivity|vm_compute; reflexivity].
    vm_compute in Hloop. inversion Hloop. reflexivity.
Defined.

(** X14. The errors that end the scan.  After any number of windows
    scanned, a window's query under the given identifier that fails with
    anything but a 404 (an HTTP error of another status, a transport
    failure) ends the scan, and the operation returns the failure payload
    of that exception.  After a 404, the same holds for an exception of
    the resolution request, or of the second query, that is no HTTP
    error.  In each case the recordings of the windows scanned before are
    not returned. *)
Theorem window_error_ends_scan
  (env : Env) (instructor_id : string) (course_id : option string)
  (h : list Event) (end_date : Z) (st0 : State)
  (k : nat) (all_recordings : list json) (st : State) :
  let current_date := (end_date - Z.of_nat k * timedelta_days 30)%Z in
  let query user :=
    _make_request env "GET" ("users/" ++ user ++ "/recordings")
      (window_params current_date) in
  let failure (e : Exc) (st' : State) :=
    (PayloadStatus
       (JDict [("error", JStr "Internal Server Error");
               ("message", JStr (exc_str e))])
       500,
     history st') in
  start_scan env (mkState no_client h) = (Ret end_date, st0) ->
  window_loop env k instructor_id end_date [] st0
  = (Ret (inl all_recordings), st) ->
  (start_date <= current_date)%Z ->
  (forall e st1,
      query instructor_id st = (Raise e, st1) ->
      (forall response, e = HTTPError response ->
                        status_code response <> 404%Z) ->
      get_instructor_recordings env instructor_id course_id h = failure e st1)
  /\ (forall response st1,
        query instructor_id st = (Raise (HTTPError response), st1) ->
        status_code response = 404%Z ->
        (forall e st2,
            _make_request env "GET" ("users/" ++ instructor_id) None st1
            = (Raise e, st2) ->
            (forall r, e <> HTTPError r) ->
            get_instructor_recordings env instructor_id course_id h
            = failure e st2)
        /\ (forall user st2 e st3,
              _make_request env "GET" ("users/" ++ instructor_id) None st1
              = (Ret (JDict user), st2) ->
              query (py_str env (lookup "id" user)) st2 = (Raise e, st3) ->
              (forall r, e <> HTTPError r) ->
              get_instructor_recordings env instructor_id course_id h
              = failure e st3)).
Proof.
  intros current_date query failure Hstart Hscanned Hrange.
  assert (Hends : forall e st',
             window_body env instructor_id current_date all_recordings st
             = (Raise e, st') ->
             get_instructor_recordings env instructor_id course_id h
             = failure e st').
  { intros e st' Hbody.
    exact (scan_ends_in_window env instructor_id course_id h end_date st0 k
             all_recordings st (Raise e) st' Hstart Hscanned Hrange Hbody I). }
  split.
  - intros e st1 Hwindow Hnot404. apply Hends. unfold window_body.
    rewrite (try_except_run _ _ _ _ _
               (bind_run _ _ _ _ _
                  (fetch_window_raises env _ _ all_recordings _ _ _ Hwindow))).
    destruct e as [response| | | | | | | |]; try reflexivity.
    specialize (Hnot404 response eq_refl). apply Z.eqb_neq in Hnot404.
    now rewrite Hnot404.
  - intros response st1 Hwindow Hstatus. split.
    + intros e st2 Hresolve Hother. apply Hends.
      exact (window_body_resolution_raises env _ _ _ _ _ _ _ _
               Hwindow Hstatus Hresolve Hother).
    + intros user st2 e st3 Hresolve Hretry Hother. apply Hends.
      exact (window_body_retry_raises env _ _ _ _ _ _ _ _ _ _
               Hwindow Hstatus Hresolve Hretry Hother).
Qed.

Lemma window_error_ends_scan_witness :
  let st0 := snd (start_scan late_failure_env new_client) in
  fst (window_loop late_failure_env 1 "ada" (timedelta_days 30) [] st0)
  = Ret (inl [recording_1])
  /\ fst (get_instructor_recordings late_failure_env "ada" None [])
     = PayloadStatus
         (JDict [("error", JStr "Internal Server Error");
                 ("message", JStr "HTTP error")])
         500
  /\ fst (get_instructor_recordings unreachable_env "ada" None [])
     = PayloadStatus
         (JDict [("error", JStr "Internal Server Error");
                 ("message", JStr "Connection aborted")])
         500.
Proof.
  intros st0. split; [vm_compute; reflexivity|]. split.
  - pose (st := snd (window_loop late_failure_env 1 "ada" (timedelta_days 30)
                       [] st0)).
    rewrite (proj1 (window_error_ends_scan late_failure_env "ada" None []
                      (timedelta_days 30) st0 1 [recording_1] st
                      ltac:(vm_compute; reflexivity)
                      ltac:(vm_compute; reflexivity)
                      ltac:(vm_compute; discriminate))
               (HTTPError (mkResponse 500 "" (Some (JDict [])) "HTTP error"))
               (snd (_make_request late_failure_env "GET"
                       "users/ada/recordings" (window_params 0) st))).
    + reflexivity.
    + vm_compute; reflexivity.
    + intros response H. inversion H. vm_compute. discriminate.
  - pose (u0 := snd (start_scan unreachable_env new_client)).
    pose (u1 := snd (_make_request unreachable_env "GET"
                       "users/ada/recordings" (window_params 0) u0)).
    rewrite (proj1 (proj2 (window_error_ends_scan unreachable_env "ada" None
                             [] 0%Z u0 0 [] u0
                             ltac:(vm_compute; reflexivity)
                             ltac:(vm_compute; reflexivity)
                             ltac:(vm_compute; discriminate))
                      (mkResponse 404 ""
                         (Some (JDict [("code", JInt 1001);
                                       ("message", JStr "Not found")]))
                         "HTTP error")
                      u1 ltac:(vm_compute; reflexivity)
                      ltac:(vm_compute; reflexivity))
               (TransportError "Connection aborted")
               (snd (_make_request unreachable_env "GET" "users/ada" None u1))).
    + reflexivity.
    + vm_compute; reflexivity.
    + intros r H. discriminate H.
Defined.

(** X15. When the clock reads a date before 2020-01-01 no window is
    queried: the operation returns an empty list of recordings and has
    sent nothing. *)
Theorem clock_before_start_date
  (env : Env) (instructor_id : string) (course_id : option string)
  (h : list Event) (end_date : Z) (st0 : State) :
  start_scan env (mkState no_client h) = (Ret end_date, st0) ->
  (end_date < start_date)%Z ->
  get_instructor_recordings env instructor_id course_id h
  = (Payload (JDict [("recordings", JList [])]), history st0)
  /\ sends (history st0) = sends h.
Proof.
  intros Hstart Hearly. split.
  - unfold get_instructor_recordings, exposed, instructor_recordings_body,
    scan_recordings.
    unfold bind at 1 2. rewrite Hstart.
    now rewrite window_loop_out_of_range.
  - unfold start_scan in Hstart.
    destruct (verify_access_key_quiet env (mkState no_client h))
      as (evs1 & Hh1 & _ & Hq1).
    destruct (verify_access_key env (mkState no_client h))
      as [[[]|e] s1] eqn:Ev;
      rewrite (bind_run _ _ _ _ _ Ev) in Hstart; [|discriminate Hstart].
    destruct (get_zoom_client_quiet env s1) as (evs2 & Hh2 & Hq2 & _).
    destruct (get_zoom_client env s1) as [[[]|e] s2] eqn:Ec;
      rewrite (bind_run _ _ _ _ _ Ec) in Hstart; [|discriminate Hstart].
    unfold datetime_now in Hstart. inversion Hstart; subst.
    cbn [snd history record] in *.
    destruct (quiet_counts evs1 h Hq1) as (_ & _ & Hs1).
    destruct (quiet_counts evs2 (evs1 ++ h) Hq2) as (_ & _ & Hs2).
    rewrite <- Hh1 in Hs1, Hs2. rewrite <- Hh2 in Hs2.
    unfold sends in *. cbn [filter is_send]. now rewrite Hs2, Hs1.
Qed.

Lemma clock_before_start_date_witness :
  get_instructor_recordings early_env "ada" None []
  = (Payload (JDict [("recordings", JList [])]),
     [EvNow; EvQueryFirst; EvQueryGet; EvQueryGet]).
Proof.
  apply (proj1 (clock_before_start_date early_env "ada" None [] (-1)%Z
                  (mkState (mkOAuth (Some sample_config) JNull None)
                     [EvNow; EvQueryFirst; EvQueryGet; EvQueryGet])
                  eq_refl eq_refl)).
Defined.

(** ** More on the transcript operations *)

(** X16. [get_meeting_transcript] asks [get_meeting_recordings] for the
    recordings and reads the answer as a dict.  When that inner call has
    failed, what it hands back is a pair, and the outer operation returns
    the failure payload of an [AttributeError]: the reason of the inner
    failure is not in the message. *)
Theorem meeting_transcript_hides_inner_failure
  (env : Env) (meeting_id : string) (h : list Event) (st st' : State)
  (payload : json) (status : Z) (h1 : list Event) :
  verify_access_key env (mkState no_client h) = (Ret tt, st) ->
  get_zoom_client env st = (Ret tt, st') ->
  get_meeting_recordings env meeting_id (history st')
  = (PayloadStatus payload status, h1) ->
  get_meeting_transcript env meeting_id h
  = (PayloadStatus
       (JDict [("error", JStr "Internal Server Error");
               ("message", JStr "'tuple' object has no attribute 'get'")])
       500,
     h1).
Proof.
  intros Hverify Hclient Hinner.
  unfold get_meeting_transcript, exposed, meeting_transcript_body.
  rewrite (bind_run _ _ _ _ _ Hverify), (bind_run _ _ _ _ _ Hclient).
  unfold bind at 1, call. rewrite Hinner.
  reflexivity.
Qed.

Lemma meeting_transcript_hides_inner_failure_witness :
  fst (get_meeting_recordings failing_env "m-1" [])
  = PayloadStatus
      (JDict [("error", JStr "Internal Server Error");
              ("message", JStr "HTTP error")])
      500
  /\ fst (get_meeting_transcript failing_env "m-1" [])
     = PayloadStatus
         (JDict [("error", JStr "Internal Server Error");
                 ("message", JStr "'tuple' object has no attribute 'get'")])
         500.
Proof.
  split; [vm_compute; reflexivity|].
  pose (st := snd (verify_access_key failing_env new_client)).
  pose (st' := snd (get_zoom_client failing_env st)).
  rewrite (meeting_transcript_hides_inner_failure failing_env "m-1" [] st st'
             (JDict [("error", JStr "Internal Server Error");
                     ("message", JStr "HTTP error")])
             500
             (snd (get_meeting_recordings failing_env "m-1" (history st'))));
    vm_compute; reflexivity.
Defined.

(** X17. When the request for the recording fails with an HTTP error,
    [get_recording_transcript] answers status 404 with the payload
    "Recording not found" and every other status with the failure
    payload of that error. *)
Theorem recording_not_found
  (env : Env) (recording_id : string) (h : list Event) (st st' st1 : State)
  (response : Response) :
  verify_access_key env (mkState no_client h) = (Ret tt, st) ->
  get_zoom_client env st = (Ret tt, st') ->
  _make_request env "GET" ("recordings/" ++ recording_id) None st'
  = (Raise (HTTPError response), st1) ->
  get_recording_transcript env recording_id h
  = (if (status_code response =? 404)%Z
     then Payload (JDict [("transcript", JNull);
                          ("message", JStr "Recording not found")])
     else internal_server_error (HTTPError response),
     history st1).
Proof.
  intros Hverify Hclient Hrecording.
  unfold get_recording_transcript, exposed, recording_transcript_body.
  rewrite (bind_run _ _ _ _ _ Hverify), (bind_run _ _ _ _ _ Hclient).
  unfold try_except. rewrite (bind_run _ _ _ _ _ Hrecording).
  now destruct (status_code response =? 404)%Z.
Qed.

Lemma recording_not_found_witness :
  fst (get_recording_transcript (reports_env not_found) "r-404" [])
  = Payload (JDict [("transcript", JNull);
                    ("message", JStr "Recording not found")]).
Proof.
  pose (env := reports_env not_found).
  pose (st := snd (verify_access_key env new_client)).
  pose (st' := snd (get_zoom_client env st)).
  change (fst (get_recording_transcript env "r-404" []) = 
          Payload (JDict [("transcript", JNull);
                          ("message", JStr "Recording not found")])).
  rewrite (recording_not_found env "r-404" [] st st'
             (snd (_make_request env "GET" "recordings/r-404" None st'))
             (mkResponse 404 ""
                (Some (JDict [("code", JInt 1001);
                              ("message", JStr "Not found")]))
                "HTTP error"));
    vm_compute; reflexivity.
Defined.

(** X18. With a transcript file that has a download URL,
    [get_recording_transcript] returns the records the parser makes of
    the downloaded text; an empty text counts as a failed download. *)
Theorem recording_transcript_of_download
  (env : Env) (recording_id : string) (h : list Event) (st st' st1 : State)
  (items : list (string * json)) (files : list json)
  (file : list (string * json)) (url token : json) (st2 st3 : State)
  (content : string) :
  verify_access_key env (mkState no_client h) = (Ret tt, st) ->
  get_zoom_client env st = (Ret tt, st') ->
  _make_request env "GET" ("recordings/" ++ recording_id) None st'
  = (Ret (JDict items), st1) ->
  py_iter (lookup_or "recording_files" (JList []) items) = Ret files ->
  next_where (has_file_type "TRANSCRIPT") files = Ret (Some (JDict file)) ->
  assoc "download_url" file = Some url ->
  get_access_token env st1 = (Ret token, st2) ->
  get_transcript_content env url token st2 = (Ret (Some content), st3) ->
  get_recording_transcript env recording_id h
  = (Payload
       (if String.eqb content ""
        then JDict [("transcript", JNull);
                    ("message", JStr "Failed to retrieve transcript")]
        else JDict [("transcript",
                     JList (map caption_json
                              (flat_map caption_records
                                 (split CRLFCRLF (strip content)))))]),
     history st3).
Proof.
  intros Hverify Hclient Hrecording Hfiles Hfile Hurl Htoken Hcontent.
  pose proof (next_where_holds _ _ _ Hfile) as Hhas.
  assert (Htruthy : py_truthy (JDict file) = true).
  { destruct file; [discriminate Hhas|reflexivity]. }
  unfold lookup_or in Hfiles.
  unfold get_recording_transcript, exposed, recording_transcript_body.
  rewrite (bind_run _ _ _ _ _ Hverify), (bind_run _ _ _ _ _ Hclient).
  unfold try_except. rewrite (bind_run _ _ _ _ _ Hrecording).
  unfold bind, lift, ret. cbn [py_get]. rewrite Hfiles, Hfile, Htruthy.
  cbn [negb py_getitem]. rewrite Hurl, Htoken, Hcontent.
  destruct content as [|c content]; [reflexivity|].
  cbn [String.eqb]. unfold transcript_payload, bind, lift, ret, webvtt_to_json.
  now rewrite captions_loop_records.
Qed.

Lemma recording_transcript_of_download_witness :
  fst (get_recording_transcript (file_env scenario_text) "r-1" [])
  = Payload
      (JDict [("transcript",
               JList [JDict [("index", JStr "1");
                             ("start", JStr "00:00:00.000");
                             ("end", JStr "00:00:02.000");
                             ("text", JStr "Hello world")];
                      JDict [("index", JStr "2");
                             ("start", JStr "00:00:02.000");
                             ("end", JStr "00:00:04.000");
                             ("text", JStr "Second line")]])])
  /\ fst (get_recording_transcript (file_env "") "r-1" [])
     = Payload (JDict [("transcript", JNull);
                       ("message", JStr "Failed to retrieve transcript")]).
Proof.
  assert (H : forall content,
             fst (get_recording_transcript (file_env content) "r-1" [])
             = Payload
                 (if String.eqb content ""
                  then JDict [("transcript", JNull);
                              ("message",
                               JStr "Failed to retrieve transcript")]
                  else JDict [("transcript",
                               JList (map caption_json
                                        (flat_map caption_records
                                           (split CRLFCRLF
                                              (strip content)))))])).
  { intros content.
    pose (env := file_env content).
    pose (st := snd (verify_access_key env new_client)).
    pose (st' := snd (get_zoom_client env st)).
    pose (st1 := snd (_make_request env "GET" "recordings/r-1" None st')).
    pose (st2 := snd (get_access_token env st1)).
    change (file_env content) with env.
    rewrite (recording_transcript_of_download env "r-1" [] st st' st1
               [("recording_files",
                 JList [JDict [("file_type", JStr "MP4")];
                        JDict [("file_type", JStr "TRANSCRIPT");
                               ("download_url", JStr "https://files/t.vtt")]])]
               [JDict [("file_type", JStr "MP4")];
                JDict [("file_type", JStr "TRANSCRIPT");
                       ("download_url", JStr "https://files/t.vtt")]]
               [("file_type", JStr "TRANSCRIPT");
                ("download_url", JStr "https://files/t.vtt")]
               (JStr "https://files/t.vtt") (JStr "token-1") st2
               (record (EvSend (Download "https://files/t.vtt"
                                  "Bearer token-1")) st2)
               content);
      reflexivity. }
  split.
  - rewrite H. vm_compute. reflexivity.
  - rewrite H. reflexivity.
Defined.

(** ** More on the caption parser *)

Lemma contains_needs_first c sep s :
  mem c s = false -> contains (String c sep) s = false.
Proof.
  induction s as [|d s IH]; [reflexivity|].
  cbn [mem contains]. intros H. apply orb_false_iff in H as [Hd Hs].
  now rewrite prefix_cons, Hd, (IH Hs).
Qed.

(** X19. The parser knows CR LF line ends only.  A text without any
    carriage return, such as a transcript with bare LF line ends, is one
    block of one line, and parses to no record at all. *)
Theorem bare_line_feeds_give_no_records (raw : string) :
  mem CR raw = false -> webvtt_to_json raw = Ret [].
Proof.
  intros H.
  assert (Hs : mem CR (strip raw) = false)
    by (unfold strip; now apply mem_rstrip_none, mem_lstrip_none).
  unfold webvtt_to_json.
  rewrite (split_without_sep CRLFCRLF _
             (contains_needs_first CR (String LF CRLF) _ Hs)).
  cbn [captions_loop]. unfold caption_step.
  rewrite (split_without_sep CRLF _
             (contains_needs_first CR (String LF "") _ Hs)).
  cbn [List.length Nat.leb].
  now destruct (String.eqb (upper (strip (strip raw))) "WEBVTT").
Qed.

Lemma bare_line_feeds_witness :
  webvtt_to_json
    (String.concat (String LF "")
       ["WEBVTT"; ""; "1"; "00:00:00.000 --> 00:00:02.000"; "Hello world"])
  = Ret [].
Proof.
  apply bare_line_feeds_give_no_records. reflexivity.
Defined.

Lemma split_piece_mem c sep n s piece :
  In piece (split_from sep n s) -> mem c piece = true -> mem c s = true.
Proof.
  revert n piece. induction s as [|d s IH]; intros n piece.
  - cbn. intros [<-|[]]. discriminate.
  - cbn [split_from mem]. destruct n as [|n].
    + destruct (prefix sep (String d s)).
      * intros [<-|Hin] Hm; [discriminate|].
        rewrite (IH _ _ Hin Hm). apply orb_true_r.
      * destruct (split_from sep 0 s) as [|p ps] eqn:E.
        -- now apply split_from_nonempty in E.
        -- intros [<-|Hin] Hm.
           ++ cbn [mem] in Hm. apply orb_true_iff in Hm as [->|Hm];
                [reflexivity|].
              rewrite (IH 0 p); [apply orb_true_r| |exact Hm].
              rewrite E. now left.
           ++ rewrite (IH 0 piece); [apply orb_true_r| |exact Hm].
              rewrite E. now right.
    + intros Hin Hm. rewrite (IH _ _ Hin Hm). apply orb_true_r.
Qed.

Lemma header_has_no_hyphen caption :
  upper (strip caption) = "WEBVTT" -> mem "-" caption = false.
Proof.
  intros H. destruct (mem "-" caption) eqn:Hm; [|reflexivity].
  assert (Hs : mem "-" (upper (strip caption)) = true).
  { rewrite mem_upper; [|reflexivity|exact upper_char_hyphen].
    unfold strip. auto using mem_rstrip, mem_lstrip. }
  rewrite H in Hs. discriminate Hs.
Qed.

(** X20. A block that is the header token, in any letter case and with
    blanks around it, adds no record wherever it stands among the
    blocks.  The test for it decides nothing that the other tests would
    not: such a block has no separator in its second line. *)
Theorem header_block_adds_nothing
  (before after : list string) (caption : string)
  (json_data : list Caption) :
  upper (strip caption) = "WEBVTT" ->
  captions_loop (before ++ caption :: after) json_data
  = captions_loop (before ++ after) json_data
  /\ malformed caption = true.
Proof.
  intros H. split.
  - assert (Hnone : caption_records caption = []).
    { unfold caption_records, caption_step. now rewrite H. }
    rewrite !captions_loop_records, !flat_map_app. cbn [flat_map].
    now rewrite Hnone.
  - unfold malformed. apply orb_true_iff. right. apply negb_true_iff.
    destruct (contains ARROW (nth 1 (split CRLF caption) "")) eqn:Hc;
      [|reflexivity].
    pose proof (contains_mem "-" ARROW _ Hc eq_refl) as Hm.
    destruct (nth_in_or_default 1 (split CRLF caption) "") as [Hin|Hd].
    + pose proof (split_piece_mem "-" CRLF 0 caption _ Hin Hm) as Hcap.
      now rewrite (header_has_no_hyphen caption H) in Hcap.
    + rewrite Hd in Hm. discriminate Hm.
Qed.

Lemma header_block_adds_nothing_witness :
  captions_loop ([nth 0 skipped_sample ""] ++ "  WebVtt " :: []) []
  = captions_loop ([nth 0 skipped_sample ""] ++ []) []
  /\ malformed "  WebVtt " = true.
Proof.
  apply header_block_adds_nothing. reflexivity.
Defined.

(** X21. Each block gives at most one record, so the parser never
    returns more records than the text has blocks; the records of a text
    are those of its blocks, block after block. *)
Theorem records_follow_blocks (raw : string) :
  webvtt_to_json raw
  = Ret (flat_map caption_records (split CRLFCRLF (strip raw)))
  /\ (forall caption, List.length (caption_records caption) <= 1)%nat
  /\ (List.length (flat_map caption_records (split CRLFCRLF (strip raw)))
      <= List.length (split CRLFCRLF (strip raw)))%nat.
Proof.
  assert (Hone : forall caption,
             (List.length (caption_records caption) <= 1)%nat).
  { intros caption. unfold caption_records, caption_step.
    destruct (String.eqb (upper (strip caption)) "WEBVTT"); [cbn; lia|].
    destruct (3 <=? List.length (split CRLF caption))%nat; [|cbn; lia].
    destruct (unpack2 (split ARROW (nth 1 (split CRLF caption) "")))
      as [[a b]|e]; [|destruct e]; cbn; lia. }
  split; [|split; [exact Hone|]].
  - unfold webvtt_to_json. now rewrite captions_loop_records.
  - induction (split CRLFCRLF (strip raw)) as [|c l IH]; [cbn; lia|].
    cbn [flat_map List.length]. rewrite length_app.
    specialize (Hone c). lia.
Qed.

(** X22. [validate_access_key] grants the subject ["zoom_api_user"]
    exactly when the configuration asks for a key and the key offered is
    the stored one and not empty.  It grants nothing where no key is
    asked for, and it reads the configuration once and nothing else. *)
Theorem validate_access_key_grants
  (env : Env) (apikey : option string) (st : State) :
  exists granted,
    validate_access_key env apikey st = (Ret granted, record EvQueryGet st)
    /\ (granted = None \/ granted = Some (JDict [("sub", JStr "zoom_api_user")]))
    /\ (granted <> None
        <-> exists c key,
              query_get env (history st) = Some c
              /\ require_access_key c = true
              /\ apikey = Some key /\ key <> "" /\ key = access_key c).
Proof.
  unfold validate_access_key. run.
  destruct (query_get env (history st)) as [c|].
  2:{ exists None. repeat split; auto; try congruence.
      intros (c & key & H & _). discriminate H. }
  destruct (require_access_key c) eqn:Hreq.
  2:{ exists None. repeat split; auto; try congruence.
      intros (c' & key & H & H' & _). inversion H. congruence. }
  destruct apikey as [key|].
  2:{ exists None. repeat split; auto; try congruence.
      intros (c' & key & _ & _ & H & _). discriminate H. }
  destruct (String.eqb key "") eqn:Ee; cbn [negb andb].
  { exists None. repeat split; auto; try congruence.
    intros (c' & key' & _ & _ & H & Hne & _). inversion H; subst key'.
    apply String.eqb_eq in Ee. congruence. }
  destruct (String.eqb key (access_key c)) eqn:Ek.
  - eexists. split; [reflexivity|]. split; [now right|].
    split; [|discriminate]. intros _. exists c, key.
    apply String.eqb_eq in Ek. apply String.eqb_neq in Ee. auto.
  - exists None. repeat split; auto; try congruence.
    intros (c' & key' & H & _ & H' & _ & Heq).
    inversion H; inversion H'; subst. apply String.eqb_neq in Ek. congruence.
Qed.

(** ** More on the report loop *)

Section Appends.

Variable env : Env.

Lemma recording_info_pure recording st r st' :
  recording_info recording st = (r, st') -> st' = st.
Proof.
  unfold recording_info, bind, lift, ret.
  repeat match goal with
         | |- context [match ?x with _ => _ end] => destruct x
         end;
    intros H; now inversion H.
Qed.

Lemma include_recording_appends course_id recording report filtered st
  filtered' st' :
  include_recording env course_id recording report filtered st
  = (Ret filtered', st') ->
  filtered' = filtered \/ exists info, filtered' = filtered ++ [info].
Proof.
  unfold include_recording, bind, lift, ret.
  repeat match goal with
         | |- context [match ?x with _ => _ end] => destruct x
         end;
    intros H; inversion H; eauto.
Qed.

Lemma filter_body_appends course_id recording filtered st filtered' st' :
  filter_body env course_id recording filtered st = (Ret filtered', st') ->
  filtered' = filtered \/ exists info, filtered' = filtered ++ [info].
Proof.
  unfold filter_body, bind, ret.
  destruct (meeting_report_for env recording st) as [[[report|]|e] s1];
    [|intros H; inversion H; now left|discriminate].
  apply include_recording_appends.
Qed.

Lemma filter_loop_appends course_id all_recordings filtered st filtered' st' :
  filter_loop env course_id all_recordings filtered st = (Ret filtered', st') ->
  exists added,
    filtered' = filtered ++ added
    /\ (List.length added <= List.length all_recordings)%nat.
Proof.
  revert filtered st.
  induction all_recordings as [|r rest IH]; intros filtered st.
  - cbn. intros H. inversion H. exists []. now rewrite app_nil_r.
  - cbn [filter_loop]. unfold bind.
    destruct (filter_body env course_id r filtered st) as [[f1|e] s1] eqn:Eb;
      [|discriminate].
    intros H. destruct (IH _ _ H) as (added & -> & Hlen).
    destruct (filter_body_appends _ _ _ _ _ _ Eb) as [-> | (info & ->)].
    + exists added. cbn [List.length]. split; [reflexivity|lia].
    + exists (info :: added). rewrite <- app_assoc. cbn [app List.length].
      split; [reflexivity|lia].
Qed.

End Appends.

(** X23. The report loop only appends: when it returns, the entries it
    started with are still in front, and at most one entry per
    discovered recording has been added. *)
Theorem report_loop_only_appends
  (env : Env) (course_id : option string) (all_recordings filtered : list json)
  (st : State) (filtered' : list json) (st' : State) :
  filter_loop env course_id all_recordings filtered st = (Ret filtered', st') ->
  exists added,
    filtered' = filtered ++ added
    /\ (List.length added <= List.length all_recordings)%nat.
Proof. apply filter_loop_appends. Qed.

Lemma report_loop_only_appends_witness :
  let env := reports_env (answer 500 (JDict [])) in
  let st := snd (scan_recordings env "ada" new_client) in
  exists added,
    fst (filter_loop env None [recording_1; recording_2] [JNull] st)
    = Ret ([JNull] ++ added)
    /\ (List.length added <= 2)%nat.
Proof.
  intros env st.
  destruct (report_loop_only_appends env None [recording_1; recording_2]
              [JNull] st
              (JNull :: [listed 102 "uuid-2" "Week 2"])
              (snd (filter_loop env None [recording_1; recording_2]
                      [JNull] st)))
    as (added & Hadded & Hlen).
  - vm_compute. reflexivity.
  - exists added. split; [|exact Hlen].
    rewrite <- Hadded. vm_compute. reflexivity.
Defined.

(** X24. [get_meeting_transcript] works with two clients, its own and
    the one of the [get_meeting_recordings] it calls, and each exchanges
    the credentials: whenever the operation gets as far as the download,
    it has sent two token requests and one API request. *)
Theorem meeting_transcript_exchanges_twice
  (env : Env) (meeting_id : string) (h : list Event) (st st' : State)
  (items : list (string * json)) (h1 : list Event) (files : list json)
  (file : list (string * json)) (token : json) (st2 : State) :
  verify_access_key env (mkState no_client h) = (Ret tt, st) ->
  get_zoom_client env st = (Ret tt, st') ->
  get_meeting_recordings env meeting_id (history st')
  = (Payload (JDict items), h1) ->
  py_iter (lookup_or "recording_files" (JList []) items) = Ret files ->
  next_where (has_file_type "TRANSCRIPT") files = Ret (Some (JDict file)) ->
  py_truthy (lookup "download_url" file) = true ->
  get_access_token env (mkState (oauth st') h1) = (Ret token, st2) ->
  let h' := snd (get_meeting_transcript env meeting_id h) in
  hd_error h'
  = Some (EvSend (Download (py_str env (lookup "download_url" file))
                    ("Bearer " ++ py_str env token)))
  /\ token_posts h' = S (S (token_posts h))
  /\ api_requests h' = S (api_requests h).
Proof.
  intros Hverify Hclient Hinner Hfiles Hfile Hurl Htoken h'.
  (* the history when the download has been made *)
  assert (Eh : h' = EvSend (Download (py_str env (lookup "download_url" file))
                              ("Bearer " ++ py_str env token))
                    :: history st2).
  { pose proof (next_where_holds _ _ _ Hfile) as Hhas.
    assert (Htruthy : py_truthy (JDict file) = true).
    { destruct file; [discriminate Hhas|reflexivity]. }
    subst h'. unfold lookup_or in Hfiles.
    unfold get_meeting_transcript, exposed, meeting_transcript_body.
    rewrite (bind_run _ _ _ _ _ Hverify), (bind_run _ _ _ _ _ Hclient).
    unfold bind at 1, call. rewrite Hinner.
    unfold bind at 1 2 3, lift. cbn [returned_get py_get].
    rewrite Hfiles, Hfile, Htruthy. cbn [negb].
    unfold bind at 1, lift. cbn [py_get].
    fold (lookup "download_url" file). rewrite Hurl. cbn [negb].
    rewrite (bind_run _ _ _ _ _ Htoken).
    rewrite (bind_run _ _ _ _ _
               (get_transcript_content_outcome env _ token st2)).
    destruct (network env (history st2) _) as [response|msg];
      [|reflexivity].
    destruct (passes_status response); [|reflexivity].
    destruct (text response) as [|c content]; [reflexivity|].
    unfold transcript_payload, bind, lift, ret, webvtt_to_json.
    now rewrite captions_loop_records. }
  rewrite Eh. split; [reflexivity|].
  (* the events before the inner call are no requests *)
  destruct (verify_access_key_quiet env (mkState no_client h))
    as (evs1 & Hh1 & _ & Hq1).
  rewrite Hverify in Hh1. cbn [snd history] in Hh1.
  destruct (get_zoom_client_quiet env st) as (evs2 & Hh2 & Hq2 & Hnew).
  rewrite Hclient in Hh2, Hnew. cbn [fst snd] in Hh2, Hnew.
  specialize (Hnew eq_refl).
  destruct (quiet_counts evs1 h Hq1) as (Ht1 & Ha1 & _).
  destruct (quiet_counts evs2 (evs1 ++ h) Hq2) as (Ht2 & Ha2 & _).
  rewrite <- Hh1 in Ht1, Ha1, Ht2, Ha2. rewrite <- Hh2 in Ht2, Ha2.
  destruct (meeting_recordings_requests env meeting_id _ _ _ Hinner)
    as (Hti & Hai).
  (* the token of the outer client *)
  pose proof (get_access_token_api_requests env (mkState (oauth st') h1))
    as Hapi.
  pose proof (get_access_token_refresh env (mkState (oauth st') h1) _
                (token_is_valid_new_client env (mkState (oauth st') h1) Hnew))
    as Eref.
  rewrite Htoken in Hapi, Eref. cbn [snd history] in Hapi, Eref.
  destruct (query_first env h1) as [cfg|]; [|discriminate Eref].
  destruct (request_token_sends env cfg
              (record EvQueryFirst (mkState (oauth st') h1)))
    as (r & st3 & Ereq & Hposts & _).
  rewrite Ereq in Eref. inversion Eref; subst r st3.
  unfold record in Hposts. cbn [history] in Hposts.
  rewrite token_posts_cons in Hposts. cbn [is_token_post] in Hposts.
  split.
  - rewrite token_posts_cons. cbn [is_token_post]. lia.
  - unfold api_requests in *. cbn [filter is_api_request]. lia.
Qed.

Lemma meeting_transcript_exchanges_twice_witness :
  token_posts (snd (get_meeting_transcript (file_env "x") "m-1" [])) = 2
  /\ api_requests (snd (get_meeting_transcript (file_env "x") "m-1" [])) = 1.
Proof.
  pose (env := file_env "x").
  pose (st := snd (verify_access_key env new_client)).
  pose (st' := snd (get_zoom_client env st)).
  pose (h1 := snd (get_meeting_recordings env "m-1" (history st'))).
  apply (meeting_transcript_exchanges_twice env "m-1" [] st st'
           [("recording_files",
             JList [JDict [("file_type", JStr "MP4")];
                    JDict [("file_type", JStr "TRANSCRIPT");
                           ("download_url", JStr "https://files/t.vtt")]])]
           h1
           [JDict [("file_type", JStr "MP4")];
            JDict [("file_type", JStr "TRANSCRIPT");
                   ("download_url", JStr "https://files/t.vtt")]]
           [("file_type", JStr "TRANSCRIPT");
            ("download_url", JStr "https://files/t.vtt")]
           (JStr "token-1")
           (snd (get_access_token env (mkState (oauth st') h1))));
    vm_compute; reflexivity.
Defined.

(** X25. What a window adds is read under the key [meetings]: an answer
    without that key adds nothing and the scan goes on, while an answer
    that has the key with the value [null] raises a [TypeError], which
    ends the scan. *)
Theorem window_without_meetings
  (env : Env) (instructor_id : string) (current_date : Z)
  (all_recordings : list json) (st st1 : State)
  (items : list (string * json)) :
  _make_request env "GET" ("users/" ++ instructor_id ++ "/recordings")
    (window_params current_date) st = (Ret (JDict items), st1) ->
  (assoc "meetings" items = None ->
   window_body env instructor_id current_date all_recordings st
   = (Ret (inl all_recordings), st1))
  /\ (assoc "meetings" items = Some JNull ->
      window_body env instructor_id current_date all_recordings st
      = (Raise (TypeError "'NoneType' object is not iterable"), st1)).
Proof.
  intros Hwindow.
  assert (Hfetch : fetch_window env instructor_id current_date all_recordings
                     st
                   = match py_iter (lookup_or "meetings" (JList []) items) with
                     | Ret found => (Ret (all_recordings ++ found), st1)
                     | Raise e => (Raise e, st1)
                     end).
  { unfold fetch_window. rewrite (bind_run _ _ _ _ _ Hwindow).
    unfold bind, lift, ret, lookup_or. cbn [py_get].
    now destruct (py_iter _). }
  unfold window_body, lookup_or in *. split; intros Hm; rewrite Hm in Hfetch.
  - rewrite (try_except_run _ _ _ _ _ (bind_run _ _ _ _ _ Hfetch)).
    cbn [py_iter]. unfold ret. now rewrite app_nil_r.
  - now rewrite (try_except_run _ _ _ _ _ (bind_run _ _ _ _ _ Hfetch)).
Qed.

Lemma window_without_meetings_witness :
  let st := snd (start_scan (guarded_env (Some "s3cret")) new_client) in
  fst (window_body (guarded_env (Some "s3cret")) "ada" 0 [recording_1] st)
  = Ret (inl [recording_1]).
Proof.
  intros st.
  rewrite (proj1 (window_without_meetings (guarded_env (Some "s3cret")) "ada"
                    0%Z [recording_1] st
                    (snd (_make_request (guarded_env (Some "s3cret")) "GET"
                            "users/ada/recordings" (window_params 0) st))
                    [] ltac:(vm_compute; reflexivity))
             eq_refl).
  reflexivity.
Defined.



(** X27. [get_meeting_transcript] tells its two later failure points
    apart: a transcript file whose download URL is missing, null or
    empty gives "No transcript URL available" without any download, and
    a download that delivers nothing gives "Failed to retrieve
    transcript content". *)
Theorem meeting_transcript_url_and_download
  (env : Env) (meeting_id : string) (h : list Event) (st st' : State)
  (items : list (string * json)) (h1 : list Event) (files : list json)
  (file : list (string * json)) :
  verify_access_key env (mkState no_client h) = (Ret tt, st) ->
  get_zoom_client env st = (Ret tt, st') ->
  get_meeting_recordings env meeting_id (history st')
  = (Payload (JDict items), h1) ->
  py_iter (lookup_or "recording_files" (JList []) items) = Ret files ->
  next_where (has_file_type "TRANSCRIPT") files = Ret (Some (JDict file)) ->
  (py_truthy (lookup "download_url" file) = false ->
   get_meeting_transcript env meeting_id h
   = (Payload (JDict [("transcript", JNull);
                      ("message", JStr "No transcript URL available")]),
      h1))
  /\ (forall token st2 st3,
        py_truthy (lookup "download_url" file) = true ->
        get_access_token env (mkState (oauth st') h1) = (Ret token, st2) ->
        get_transcript_content env (lookup "download_url" file) token st2
        = (Ret None, st3) ->
        get_meeting_transcript env meeting_id h
        = (Payload
             (JDict [("transcript", JNull);
                     ("message",
                      JStr "Failed to retrieve transcript content")]),
           history st3)).
Proof.
  intros Hverify Hclient Hinner Hfiles Hfile. unfold lookup_or in Hfiles.
  pose proof (next_where_holds _ _ _ Hfile) as Hhas.
  assert (Htruthy : py_truthy (JDict file) = true).
  { destruct file; [discriminate Hhas|reflexivity]. }
  exact (proj2 (meeting_transcript_failure_points env meeting_id h st st'
                  items files h1 Hverify Hclient Hinner Hfiles)
           file Hfile Htruthy).
Qed.

Lemma meeting_transcript_url_and_download_witness :
  fst (get_meeting_transcript without_url_env "m-1" [])
  = Payload (JDict [("transcript", JNull);
                    ("message", JStr "No transcript URL available")]).
Proof.
  pose (env := without_url_env).
  pose (st := snd (verify_access_key env new_client)).
  pose (st' := snd (get_zoom_client env st)).
  change without_url_env with env.
  rewrite (proj1 (meeting_transcript_url_and_download env "m-1" [] st st'
                    [("recording_files",
                      JList [JDict [("id", JStr "f-1");
                                    ("file_type", JStr "TRANSCRIPT")]])]
                    (snd (get_meeting_recordings env "m-1" (history st')))
                    [JDict [("id", JStr "f-1");
                            ("file_type", JStr "TRANSCRIPT")]]
                    [("id", JStr "f-1"); ("file_type", JStr "TRANSCRIPT")]
                    ltac:(vm_compute; reflexivity)
                    ltac:(vm_compute; reflexivity)
                    ltac:(vm_compute; reflexivity) eq_refl eq_refl)
             eq_refl).
  vm_compute. reflexivity.
Defined.

(** ** Blanks around the text *)

(** X28. Blanks around the whole text make no difference to the parser:
    spaces, tabs and line ends before the first block or after the last,
    a final line end among them, leave the records as they are. *)
Theorem blanks_around_text (before raw after : string) :
  visible before = false -> visible after = false ->
  webvtt_to_json (before ++ raw ++ after) = webvtt_to_json raw.
Proof.
  intros Hb Ha. unfold webvtt_to_json. f_equal. f_equal. unfold strip.
  rewrite (lstrip_blank _ _ Hb).
  destruct (visible raw) eqn:Hv.
  - rewrite lstrip_app by exact Hv. now rewrite rstrip_blank.
  - assert (E0 : forall s, visible s = false -> lstrip s = "").
    { induction s as [|c s IH]; [reflexivity|].
      cbn [visible lstrip]. intros H.
      apply orb_false_iff in H as [Hc Hs]. apply negb_false_iff in Hc.
      rewrite Hc. now apply IH. }
    rewrite (E0 raw Hv).
    rewrite E0; [reflexivity|]. now rewrite visible_app, Hv, Ha.
Qed.

Lemma blanks_around_text_witness :
  webvtt_to_json ((CRLF ++ " ") ++ scenario_text ++ (CRLF ++ CRLF))
  = webvtt_to_json scenario_text.
Proof.
  apply blanks_around_text; reflexivity.
Defined.
